(** * moviepy-fast: FancyText word renderer and CompositeVideoClip

    A shallow embedding of [moviepy/video/FancyText.py] and
    [moviepy/video/compositing/CompositeVideoClip.py], and the properties
    of the line packer, the per-line frame lookup, the frame cache, the
    effect pipeline, the gradient synthesis, the texture effect, the
    procedural texture generator and the compositor.

    Conventions.
    - Python [int] is [Z]; Python lists are [list]; a [dict] is a [gmap].
    - Time stamps and durations are Python floats that the code only
      divides once and compares; they are rationals ([Q]) here.
    - numpy [float32] arithmetic, where the result depends on rounding
      (the gradient synthesis), is IEEE-754 binary32 through
      [SpecFloat] with [prec = 24] and [emax = 128].
    - A raster (numpy array or PIL image) is a width, a height and a
      pixel function; two rasters are the same picture when they agree
      on the size and on every pixel inside it ([raster_eq]).
    - Operations of PIL, numpy and cv2 that the code calls and whose
      result no property here depends on (Gaussian blur, text drawing,
      font metrics, the random generator) are the operations of type
      classes ([Pil], [Lighting], [Numpy], [VideoClipLib]).
    - A Python exception is the left side of [Py.result]. *)

From Stdlib Require Import ZArith QArith Qround Lqa String Ascii.
From Stdlib Require Import Floats.SpecFloat.
From stdpp Require Import base tactics option list numbers strings gmap sorting.

Local Open Scope Z_scope.

(** ** Python built-ins used by the two modules *)
Module Py.

(** Exceptions the modelled code can raise. *)
Inductive exn : Type :=
| ValueError (msg : string)
| IndexError (msg : string)
| TypeError (msg : string)
| ZeroDivisionError (msg : string)
| KeyError (msg : string).

(** A computation that returns or raises. *)
Definition result (A : Type) : Type := exn + A.

Definition ret {A} (a : A) : result A := inr a.
Definition raise {A} (e : exn) : result A := inl e.
Definition bind {A B} (m : result A) (k : A → result B) : result B :=
  match m with inl e => inl e | inr a => k a end.

(** [seq[i]] on a list: a negative index counts from the end, an index
    out of range raises [IndexError]. *)
Definition getitem {A} (l : list A) (i : Z) : result A :=
  let n := Z.of_nat (length l) in
  let j := if i <? 0 then i + n else i in
  if (0 <=? j) && (j <? n) then
    match l !! Z.to_nat j with
    | Some a => ret a
    | None => raise (IndexError "list index out of range")
    end
  else raise (IndexError "list index out of range").

(** [" ".join(words)]. *)
Definition join (sep : string) (l : list string) : string :=
  String.concat sep l.

(** [int(x)] on a float: truncation toward zero. *)
Definition int_of (x : Q) : Z := Z.quot (Qnum x) (Zpos (Qden x)).

(** [max(a, b)] and [min(a, b)] on numbers: the first argument wins
    a tie. *)
Definition qmax (a b : Q) : Q := if Qlt_le_dec a b then b else a.
Definition qmin (a b : Q) : Q := if Qlt_le_dec b a then b else a.

(** [max(xs)] on a list of numbers: raises on the empty list. *)
Definition max_list (l : list Q) : result Q :=
  match l with
  | [] => raise (ValueError "max() arg is an empty sequence")
  | x :: r => ret (fold_left qmax r x)
  end.

(** [sorted(l, key=...)]: a stable sort; the model is the insertion
    sort that keeps equal keys in their order of appearance. *)
Section Sorted.
Context {A : Type} (key : A → Z).

Fixpoint insert_by_key (x : A) (l : list A) : list A :=
  match l with
  | [] => [x]
  | y :: r => if key x <=? key y then x :: y :: r
              else y :: insert_by_key x r
  end.

Definition sorted (l : list A) : list A :=
  foldr insert_by_key [] l.

(** The order a stable sort by [key] puts elements in, on elements
    tagged with their position in the input: smaller key first, and
    among equal keys smaller position first. *)
Definition tagged_before (a b : nat * A) : Prop :=
  key a.2 < key b.2 ∨ (key a.2 = key b.2 ∧ (a.1 < b.1)%nat).
End Sorted.

(** The truth value of a list: [if l:]. *)
Definition nonempty {A} (l : list A) : bool :=
  match l with [] => false | _ => true end.

(** [enumerate(l)]. *)
Definition enumerate {A} (l : list A) : list (nat * A) :=
  imap (λ i a, (i, a)) l.

End Py.

(** ** Rasters: numpy arrays and PIL images *)
Module Raster.

Record raster (A : Type) : Type := Build {
  width : Z;
  height : Z;
  px : Z → Z → A          (* [px x y]: column [x], row [y] *)
}.
Arguments Build {A} _ _ _.
Arguments width {A} _.
Arguments height {A} _.
Arguments px {A} _ _ _.

Abbreviation rgb := (Z * Z * Z)%type.
Abbreviation rgba := (Z * Z * Z * Z)%type.

(** Bit-identity of two rasters. *)
Definition raster_eq {A} (r1 r2 : raster A) : Prop :=
  width r1 = width r2 ∧ height r1 = height r2 ∧
  ∀ x y, 0 ≤ x < width r1 → 0 ≤ y < height r1 → px r1 x y = px r2 x y.

Definition inside {A} (r : raster A) (x y : Z) : bool :=
  (0 <=? x) && (x <? width r) && (0 <=? y) && (y <? height r).

(** [Image.new(mode, (w, h), color)] and [np.zeros]/[np.full]. *)
Definition fill {A} (w h : Z) (c : A) : raster A := Build w h (λ _ _, c).

Definition map_px {A B} (f : A → B) (r : raster A) : raster B :=
  Build (width r) (height r) (λ x y, f (px r x y)).

Definition map2_px {A B C} (f : A → B → C) (r1 : raster A) (r2 : raster B)
    : raster C :=
  Build (width r1) (height r1) (λ x y, f (px r1 x y) (px r2 x y)).

(** [arr[y1:y2, x1:x2]] for in-range non-negative bounds, and
    [img.crop((x1, y1, x2, y2))]. *)
Definition crop {A} (x1 y1 x2 y2 : Z) (r : raster A) : raster A :=
  Build (x2 - x1) (y2 - y1) (λ x y, px r (x + x1) (y + y1)).

(** PIL's 8-bit blend, [BLEND(mask, in1, in2)] of [ImagingUtils.h]:
    [in1] where the mask is 0, [in2] where it is 255. *)
Definition blend8 (m in1 in2 : Z) : Z :=
  let tmp := in1 * (255 - m) + in2 * m + 128 in
  Z.shiftr (Z.shiftr tmp 8 + tmp) 8.

Definition blend_rgb (m : Z) (d s : rgb) : rgb :=
  let '(dr, dg, db) := d in
  let '(sr, sg, sb) := s in
  (blend8 m dr sr, blend8 m dg sg, blend8 m db sb).

Definition blend_rgba (m : Z) (d s : rgba) : rgba :=
  let '(dr, dg, db, da) := d in
  let '(sr, sg, sb, sa) := s in
  (blend8 m dr sr, blend8 m dg sg, blend8 m db sb, blend8 m da sa).

(** [canvas.paste(src, (dx, dy))]: the source replaces the pixels it
    covers; PIL clips the box to the canvas. *)
Definition paste {A} (canvas src : raster A) (dx dy : Z) : raster A :=
  Build (width canvas) (height canvas)
    (λ x y, if inside src (x - dx) (y - dy) then px src (x - dx) (y - dy)
            else px canvas x y).

(** [canvas.paste(src, (dx, dy), mask)]: blended through the mask. *)
Definition paste_mask {A} (blend : Z → A → A → A)
    (canvas src : raster A) (dx dy : Z) (mask : raster Z) : raster A :=
  Build (width canvas) (height canvas)
    (λ x y, if inside src (x - dx) (y - dy)
            then blend (px mask (x - dx) (y - dy)) (px canvas x y)
                       (px src (x - dx) (y - dy))
            else px canvas x y).

(** [cur[y1:y2, x1:x2] = src]: numpy clips the slice to the array and
    raises when the shapes then differ. *)
Definition slice_assign {A} (cur : raster A) (y1 y2 x1 x2 : Z)
    (src : raster A) : Py.result (raster A) :=
  let cx1 := Z.min x1 (width cur) in
  let cx2 := Z.min x2 (width cur) in
  let cy1 := Z.min y1 (height cur) in
  let cy2 := Z.min y2 (height cur) in
  if (Z.max 0 (cx2 - cx1) =? width src) && (Z.max 0 (cy2 - cy1) =? height src)
  then Py.ret (Build (width cur) (height cur)
         (λ x y, if (x1 <=? x) && (x <? x2) && (y1 <=? y) && (y <? y2)
                 then px src (x - x1) (y - y1) else px cur x y))
  else Py.raise (Py.ValueError "could not broadcast input array").

(** [Image.alpha_composite] on one pixel, the integer arithmetic of
    PIL's [AlphaComposite.c] (7 bits of extra precision). *)
Definition shift_div255 (a : Z) : Z := Z.shiftr (Z.shiftr a 8 + a) 8.

Definition alpha_composite_px (dst src : rgba) : rgba :=
  let '(dr, dg, db, da) := dst in
  let '(sr, sg, sb, sa) := src in
  if sa =? 0 then dst
  else
    let blend := da * (255 - sa) in
    let outa255 := sa * 255 + blend in
    let coef1 := sa * 255 * 255 * 128 / outa255 in
    let coef2 := 255 * 128 - coef1 in
    let ch (s d : Z) :=
      Z.shiftr (shift_div255 (s * coef1 + d * coef2 + 128 * 128)) 7 in
    (ch sr dr, ch sg dg, ch sb db, shift_div255 (outa255 + 128)).

(** [img.alpha_composite(layer)]: both rasters have the same size. *)
Definition alpha_composite (img layer : raster rgba) : raster rgba :=
  map2_px alpha_composite_px img layer.

(** The alpha band of an RGBA raster, [arr[:, :, 3]]. *)
Definition alpha_of (r : raster rgba) : raster Z :=
  map_px (λ p, let '(_, _, _, a) := p in a) r.

(** [arr[:, :, :3]]. *)
Definition rgb_of (r : raster rgba) : raster rgb :=
  map_px (λ p, let '(r, g, b, _) := p in (r, g, b)) r.

End Raster.

(** ** numpy [float32] and Python [float] arithmetic *)
Module Float.

Definition float : Type := spec_float.

Section Format.
Variables prec emax : Z.

Definition of_Z (z : Z) : float :=
  match z with
  | Z0 => S754_zero false
  | Zpos _ => binary_normalize prec emax z 0 false
  | Zneg _ => binary_normalize prec emax z 0 true
  end.

(** Rounding a float of another format into this one. *)
Definition round_to (f : float) : float :=
  match f with
  | S754_finite s m e => binary_round prec emax s m e
  | _ => f
  end.

Definition clip (lo hi f : float) : float :=
  if SFltb f lo then lo else if SFltb hi f then hi else f.
End Format.

(** [arr.astype(np.uint8)] on a value already clipped to [0, 255]:
    truncation toward zero. *)
Definition trunc (f : float) : Z :=
  match f with
  | S754_finite s m e =>
      let v := match e with
               | Z0 => Zpos m
               | Zpos _ => Zpos m * 2 ^ e
               | Zneg p => Zpos m / 2 ^ Zpos p
               end in
      if s then - v else v
  | _ => 0
  end.

Module F32.
Definition prec := 24.
Definition emax := 128.
Definition add := SFadd prec emax.
Definition sub := SFsub prec emax.
Definition mul := SFmul prec emax.
Definition div := SFdiv prec emax.
Definition of_Z := Float.of_Z prec emax.
Definition round := Float.round_to prec emax.
Definition clip := Float.clip.
End F32.

Module F64.
Definition prec := 53.
Definition emax := 1024.
Definition add := SFadd prec emax.
Definition sub := SFsub prec emax.
Definition mul := SFmul prec emax.
Definition div := SFdiv prec emax.
Definition of_Z := Float.of_Z prec emax.
Definition abs := SFabs.
(** Python's [max(a, b)]: [b] when [b > a], otherwise [a]. *)
Definition max (a b : float) : float := if SFltb a b then b else a.
Definition min (a b : float) : float := if SFltb b a then b else a.
End F64.

End Float.

(** ** FancyText.py *)
Module FancyText.

(** *** [_group_words_into_lines] *)
Section LineGrouping.

(** [bbox[2] - bbox[0]] of [dummy.textbbox((0, 0), line_text,
    font=pil_font)]: the font metrics of PIL. *)
Variable text_width : string → Z.

(** The body of the [for word in words] loop, with the two
    accumulators [lines] and [current], and the final flush. *)
Fixpoint group_loop (max_words max_width_px : Z) (words : list string)
    (lines : list (list string)) (current : list string)
    : list (list string) :=
  match words with
  | [] => if Py.nonempty current then lines ++ [current] else lines
  | word :: rest =>
      let candidate := current ++ [word] in
      if Z.of_nat (length candidate) >? max_words then
        group_loop max_words max_width_px rest
          (if Py.nonempty current then lines ++ [current] else lines)
          [word]
      else
        let line_text := Py.join " " candidate in
        if (text_width line_text >? max_width_px) && Py.nonempty current
        then group_loop max_words max_width_px rest
               (lines ++ [current]) [word]
        else group_loop max_words max_width_px rest lines candidate
  end.

Definition _group_words_into_lines (words : list string)
    (max_words max_width_px : Z) : list (list string) :=
  group_loop max_words max_width_px words [] [].

(** Every contiguous run of [l]: the prefixes of the suffixes. *)
Fixpoint inits {A} (l : list A) : list (list A) :=
  match l with
  | [] => [[]]
  | x :: r => [] :: map (cons x) (inits r)
  end.

Fixpoint segments {A} (l : list A) : list (list A) :=
  match l with
  | [] => [[]]
  | x :: r => inits (x :: r) ++ segments r
  end.

(** [ceil(n / m)] for [m > 0]. *)
Definition ceil_div (n m : Z) : Z := (n + m - 1) / m.

End LineGrouping.

(** *** PIL primitives the renderer and the effects call *)
Abbreviation image := (Raster.raster Raster.rgba).
Abbreviation mask := (Raster.raster Z).
Abbreviation bbox := (Z * Z * Z * Z)%type.

Class Pil (Font : Type) : Type := {
  (** [draw.textbbox((0, 0), text, font=font)] *)
  textbbox : Font → string → bbox;
  (** [font.getbbox(word, stroke_width=sw)] *)
  getbbox : Font → string → Z → bbox;
  (** [draw.text(xy, word, font, fill, stroke_width, stroke_fill)] *)
  draw_text : image → Z * Z → string → Font → Raster.rgba → Z
              → Raster.rgba → image;
  (** [draw.rounded_rectangle([p0, p1], radius, fill)] *)
  rounded_rectangle : image → Z * Z → Z * Z → Z → Raster.rgba → image;
  (** [img.filter(ImageFilter.GaussianBlur(radius))] *)
  gaussian_blur : image → Q → image;
  gaussian_blur_L : mask → Q → mask;
  (** [mask.filter(ImageFilter.MinFilter(size))] *)
  min_filter : mask → Z → mask;
  (** [Image.open(path).convert("RGB")]: returns or raises *)
  image_open_rgb : string → Py.result (Raster.raster Raster.rgb);
  (** [tex.resize((tw, th), Image.LANCZOS)] *)
  resize_lanczos : Raster.raster Raster.rgb → Z → Z
                   → Raster.raster Raster.rgb
}.

Record Style : Type := {
  text_color : Raster.rgb;
  highlight_color : Raster.rgb;
  stroke_color : Raster.rgb;
  stroke_width : Z;
  shadow_enabled : bool;
  shadow_offset : Z * Z;
  shadow_blur : Z;
  glow_enabled : bool;
  glow_color : Raster.rgb;
  glow_size : Z;
  highlight_box_enabled : bool;
  highlight_box_color : Raster.rgb;
  highlight_box_radius : Z;
  highlight_box_blur : Z;
  highlight_box_opacity : Q
}.

Definition opaque (c : Raster.rgb) : Raster.rgba :=
  let '(r, g, b) := c in (r, g, b, 255).
Definition transparent : Raster.rgba := (0, 0, 0, 0).

(** [max(0.0, min(1.0, opacity))] *)
Definition clamp01 (q : Q) : Q := Py.qmax 0 (Py.qmin 1 q).

(** [img.paste(src, (x, y), src)]: an RGBA image pasted through its own
    alpha band. *)
Definition paste_self (canvas src : image) (x y : Z) : image :=
  Raster.paste_mask Raster.blend_rgba canvas src x y (Raster.alpha_of src).

Section Renderer.
Context {Font : Type} `{!Pil Font}.
Variable pil_font : Font.

(** [_text_bbox] and [_word_width] *)
Definition _text_bbox (text : string) : Z * Z :=
  let '(x0, y0, x1, y1) := textbbox pil_font text in (x1 - x0, y1 - y0).

Definition _word_width (word : string) : Z :=
  let '(x0, _, x1, _) := textbbox pil_font word in x1 - x0.

(** [_draw_shadows_batch] *)
Definition _draw_shadows_batch (base_img : image)
    (word_positions : list (string * Z * Z))
    (stroke_w : Z) (offset : Z * Z) (blur : Z) : image :=
  if negb (Py.nonempty word_positions) then base_img
  else
    let canvas0 :=
      Raster.fill (Raster.width base_img) (Raster.height base_img)
        transparent in
    let canvas1 :=
      fold_left (λ cv '(word, x, y),
          draw_text cv (x + offset.1, y + offset.2) word pil_font
            (0, 0, 0, 255) stroke_w (0, 0, 0, 255))
        word_positions canvas0 in
    let canvas2 :=
      if blur >? 0 then gaussian_blur canvas1 (inject_Z blur)
      else canvas1 in
    Raster.alpha_composite base_img canvas2.

(** [_render_word_image]: the small image and its paste offsets. *)
Definition _render_word_image (word : string) (color stroke_c : Raster.rgb)
    (stroke_w : Z) (glow_on : bool) (glow_c : option Raster.rgb)
    (glow_sz : Z) : image * Z * Z :=
  let pad := 2 in
  let glowing := glow_on && bool_decide (is_Some glow_c) in
  let glow_stroke := Z.max (Z.quot glow_sz 2) 2 in
  let full_pad := if glowing then glow_sz * 2 + stroke_w + pad else pad in
  let '(bx0, by0, bx1, by1) :=
    if glowing then getbbox pil_font word (Z.max stroke_w glow_stroke)
    else getbbox pil_font word stroke_w in
  let img_w := bx1 - bx0 + full_pad * 2 in
  let img_h := by1 - by0 + full_pad * 2 in
  let draw_x := full_pad - bx0 in
  let draw_y := full_pad - by0 in
  let img0 := Raster.fill img_w img_h transparent in
  let img1 :=
    match glow_c with
    | Some gc =>
        if glow_on then
          gaussian_blur
            (draw_text img0 (draw_x, draw_y) word pil_font (opaque gc)
               glow_stroke (opaque gc))
            (inject_Z glow_sz)
        else img0
    | None => img0
    end in
  let img2 :=
    draw_text img1 (draw_x, draw_y) word pil_font (opaque color)
      stroke_w (opaque stroke_c) in
  (img2, bx0 - full_pad, by0 - full_pad).

(** [_make_highlight_box_layer] *)
Definition _make_highlight_box_layer (word_x word_y word_w word_h : Z)
    (box_color : Raster.rgb) (box_radius box_blur : Z) (box_opacity : Q)
    : image * Z * Z :=
  let pad_x := 12 in
  let pad_y := 6 in
  let blur_pad := box_blur * 2 in
  let bx := word_x - pad_x in
  let by_ := word_y - pad_y in
  let bw := word_w + pad_x * 2 - 1 in
  let bh := word_h + pad_y * 2 + 9 in
  let alpha := Py.int_of (255 * clamp01 box_opacity) in
  let layer_w := bw + 2 + blur_pad * 2 in
  let layer_h := bh + 2 + blur_pad * 2 in
  let '(r, g, b) := box_color in
  let layer0 :=
    rounded_rectangle (Raster.fill layer_w layer_h transparent)
      (blur_pad, blur_pad) (blur_pad + bw, blur_pad + bh) box_radius
      (r, g, b, alpha) in
  let layer1 :=
    if box_blur >? 0 then gaussian_blur layer0 (inject_Z box_blur)
    else layer0 in
  (layer1, bx - blur_pad, by_ - blur_pad).

(** The values the per-line [_base_cache] dict holds. *)
Inductive CacheVal : Type :=
| VFrames (fs : list image)
| VMasks (ms : list mask)
| VInts (xs : list Z)
| VInt (z : Z).

(** Padding around the text: stroke, shadow, glow and highlight box. *)
Definition layout_pad (sty : Style) : Z :=
  let use_glow := glow_enabled sty && negb (shadow_enabled sty) in
  let pad0 := stroke_width sty in
  let pad1 :=
    if shadow_enabled sty then
      Z.max pad0 (shadow_blur sty * 2 + stroke_width sty
                  + Z.max (Z.abs (shadow_offset sty).1)
                          (Z.abs (shadow_offset sty).2))
    else pad0 in
  let pad2 :=
    if use_glow then Z.max pad1 (glow_size sty * 2 + stroke_width sty)
    else pad1 in
  if highlight_box_enabled sty
  then Z.max pad2 (12 + highlight_box_blur sty * 2) else pad2.

(** [word_xs]: the left edge of every word. *)
Fixpoint word_xs_from (cur_x : Z) (words : list string) : list Z :=
  match words with
  | [] => []
  | w :: r => cur_x :: word_xs_from (cur_x + _word_width (w ++ " ")) r
  end.

(** Step 5 for one [hi]: the frame with word [hi] in the highlight
    colour and its text-only alpha mask. *)
Definition assemble_frame (base : image) (frame_width img_h : Z)
    (hi_boxes word_normal word_highlight : list (image * Z * Z))
    (hi : nat) : Py.result (image * mask) :=
  Py.bind
    (if Py.nonempty hi_boxes then
       Py.bind (Py.getitem hi_boxes (Z.of_nat hi)) (λ '(bimg, bpx, bpy),
         Py.ret (paste_self base bimg bpx bpy))
     else Py.ret base)
    (λ frame0,
       let text_only0 := Raster.fill frame_width img_h transparent in
       let '(frame, text_only) :=
         fold_left (λ '(fr, tx) '(i, (wn, wh)),
             let '(wimg, wpx, wpy) :=
               if bool_decide (i = hi) then wh else wn in
             (paste_self fr wimg wpx wpy, paste_self tx wimg wpx wpy))
           (Py.enumerate (zip word_normal word_highlight))
           (frame0, text_only0) in
       Py.ret (frame, Raster.alpha_of text_only)).

(** [for hi in range(n)]: all the frames of the line. *)
Fixpoint assemble_all (assemble : nat → Py.result (image * mask))
    (his : list nat) : Py.result (list image * list mask) :=
  match his with
  | [] => Py.ret ([], [])
  | hi :: r =>
      Py.bind (assemble hi) (λ '(f, m),
        Py.bind (assemble_all assemble r) (λ '(fs, ms),
          Py.ret (f :: fs, m :: ms)))
  end.

(** Steps 1 to 4 of the cold path: the layout, the base image with
    the shadows, the 2N word images and the highlight boxes. *)
Record Pieces : Type := {
  p_base : image;
  p_img_h : Z;
  p_hi_boxes : list (image * Z * Z);
  p_word_normal : list (image * Z * Z);
  p_word_highlight : list (image * Z * Z);
  p_word_xs : list Z;
  p_x : Z;
  p_y : Z
}.

Definition line_pieces (words : list string) (frame_width : Z)
    (sty : Style) : Pieces :=
  let use_glow := glow_enabled sty && negb (shadow_enabled sty) in
  let full_text := Py.join " " words in
  let '(tw, th) := _text_bbox full_text in
  let margin := Z.max 20 (layout_pad sty + 10) in
  let img_h := th + margin * 2 in
  let base0 := Raster.fill frame_width img_h transparent in
  let x := (frame_width - tw) / 2 in
  let y := margin in
  let word_xs := word_xs_from x words in
  let base :=
    if shadow_enabled sty then
      _draw_shadows_batch base0
        (map (λ '(w, wx), (w, wx, y)) (zip words word_xs))
        (stroke_width sty) (shadow_offset sty) (shadow_blur sty)
    else base0 in
  let word_normal :=
    map (λ '(w, wx),
        let '(n_img, ox, oy) :=
          _render_word_image w (text_color sty) (stroke_color sty)
            (stroke_width sty) false None 6 in
        (n_img, wx + ox, y + oy))
      (zip words word_xs) in
  let word_highlight :=
    map (λ '(w, wx),
        let '(h_img, hox, hoy) :=
          _render_word_image w (highlight_color sty) (stroke_color sty)
            (stroke_width sty) use_glow
            (if use_glow then Some (glow_color sty) else None)
            (if use_glow then glow_size sty else 0) in
        (h_img, wx + hox, y + hoy))
      (zip words word_xs) in
  let hi_boxes :=
    if highlight_box_enabled sty then
      map (λ '(w, wx),
          let ww := _word_width w in
          let '(_, b1, _, b3) := textbbox pil_font w in
          _make_highlight_box_layer wx (y + b1) ww (b3 - b1)
            (highlight_box_color sty) (highlight_box_radius sty)
            (highlight_box_blur sty) (highlight_box_opacity sty))
        (zip words word_xs)
    else [] in
  {| p_base := base; p_img_h := img_h; p_hi_boxes := hi_boxes;
     p_word_normal := word_normal; p_word_highlight := word_highlight;
     p_word_xs := word_xs; p_x := x; p_y := y |}.

(** The frame of the line in which word [hi] is the highlighted
    one, with its text-only mask. *)
Definition variant (words : list string) (frame_width : Z) (sty : Style)
    (hi : nat) : Py.result (image * mask) :=
  let p := line_pieces words frame_width sty in
  assemble_frame (p_base p) frame_width (p_img_h p) (p_hi_boxes p)
    (p_word_normal p) (p_word_highlight p) hi.

(** The cold path up to the cache write: every frame of the line,
    the text-only masks, [word_xs], [x] and [y]. *)
Definition render_all (words : list string) (frame_width : Z)
    (sty : Style)
    : Py.result (list image * list mask * list Z * Z * Z) :=
  let n := length words in
  let p := line_pieces words frame_width sty in
  Py.bind (assemble_all (variant words frame_width sty) (seq 0 n))
    (λ '(np_frames, text_only_masks),
       Py.ret (np_frames, text_only_masks, p_word_xs p, p_x p, p_y p)).

(** [_render_fancytext_frame]: the result and the [_base_cache] dict
    as the call leaves it. *)
Definition _render_fancytext_frame (words : list string)
    (frame_width : Z) (highlight_index : Z) (sty : Style)
    (_base_cache : option (gmap string CacheVal))
    : Py.result image * option (gmap string CacheVal) :=
  let fast :=
    match _base_cache with
    | Some cache => cache !! "np_frames"
    | None => None
    end in
  match fast with
  | Some (VFrames fs) =>
      (Py.getitem fs (Z.max 0 highlight_index), _base_cache)
  | Some _ =>
      (Py.raise (Py.TypeError "np_frames is not a list"), _base_cache)
  | None =>
      match render_all words frame_width sty with
      | inl e => (inl e, _base_cache)
      | inr (np_frames, text_only_masks, word_xs, x, y) =>
          let cache' :=
            match _base_cache with
            | Some cache =>
                Some (<["y" := VInt y]>
                      (<["x" := VInt x]>
                       (<["word_xs" := VInts word_xs]>
                        (<["text_only_masks" := VMasks text_only_masks]>
                         (<["np_frames" := VFrames np_frames]> cache)))))
            | None => None
            end in
          (Py.getitem np_frames (Z.max 0 highlight_index), cache')
      end
  end.

End Renderer.

(** *** Advanced text effects *)

(** The keyword arguments of [apply_advanced_effects]. *)
Record Fx : Type := {
  inner_shadow_enabled : bool;
  inner_shadow_color : Raster.rgb;
  inner_shadow_offset : Z * Z;
  inner_shadow_blur : Z;
  inner_shadow_opacity : Float.float;
  inner_glow_enabled : bool;
  inner_glow_color : Raster.rgb;
  inner_glow_size : Z;
  inner_glow_opacity : Float.float;
  gradient_overlay_enabled : bool;
  gradient_overlay_colors : list Raster.rgb;
  gradient_overlay_angle : Float.float;
  gradient_overlay_opacity : Float.float;
  bevel_emboss_enabled : bool;
  bevel_emboss_style : string;
  bevel_emboss_depth : Z;
  bevel_emboss_angle : Float.float;
  bevel_emboss_highlight_color : Raster.rgb;
  bevel_emboss_shadow_color : Raster.rgb;
  bevel_emboss_highlight_opacity : Float.float;
  bevel_emboss_shadow_opacity : Float.float;
  bevel_emboss_soften : Z;
  texture_enabled : bool;
  texture_path : option string;
  texture_scale : Float.float;
  texture_opacity : Float.float;
  texture_blend_mode : string;
  texture_image : option (Raster.raster Raster.rgb);
  chrome_enabled : bool;
  chrome_colors : option (list Raster.rgb);
  chrome_opacity : Float.float
}.

(** The lighting and edge effects, and the trigonometry of [math]:
    Gaussian blur, bicubic resampling and float arithmetic throughout. *)
Class Lighting : Type := {
  (** [(math.cos(math.radians(a)), math.sin(math.radians(a)))] *)
  direction : Float.float → Float.float * Float.float;
  (** [_fx_bevel_emboss(img, text_mask, style, depth, angle,
      highlight_color, shadow_color, highlight_opacity, shadow_opacity,
      soften)] *)
  _fx_bevel_emboss : image → mask → string → Z → Float.float → Raster.rgb
                     → Raster.rgb → Float.float → Float.float → Z → image;
  (** [_fx_inner_shadow(img, text_mask, clip_mask, color, offset, blur,
      opacity)] *)
  _fx_inner_shadow : image → mask → mask → Raster.rgb → Z * Z → Z
                     → Float.float → image;
  (** [_fx_inner_glow(img, text_mask, clip_mask, color, size, opacity)] *)
  _fx_inner_glow : image → mask → mask → Raster.rgb → Z → Float.float
                   → image
}.

Import Float.

Definition f32_0 : float := F32.of_Z 0.
Definition f32_1 : float := F32.of_Z 1.
Definition f32_255 : float := F32.of_Z 255.
Definition f64_0 : float := F64.of_Z 0.
Definition f64_1 : float := F64.of_Z 1.

(** [max(0.0, min(1.0, opacity))] on Python floats. *)
Definition clamp_opacity (opacity : float) : float :=
  F64.max f64_0 (F64.min f64_1 opacity).

(** [.clip(0, 255).astype(np.uint8)] *)
Definition to_uint8 (v : float) : Z := trunc (F32.clip f32_0 f32_255 v).

Definition channel (c : Raster.rgb) (k : nat) : Z :=
  let '(r, g, b) := c in
  match k with O => r | S O => g | _ => b end.

(** One pass of the [for i in range(n - 1)] loop of
    [_create_linear_gradient] on the pixel whose normalised projection
    is [t]: the colour so far becomes the interpolation of stops [i]
    and [i + 1] where [t0 <= t <= t1].  [colors] is not empty here. *)
Definition gradient_segment (colors : list Raster.rgb) (n : Z) (t : float)
    (cur : Raster.rgb) (i : nat) : Raster.rgb :=
  let t0 := F64.div (F64.of_Z (Z.of_nat i)) (F64.of_Z (n - 1)) in
  let t1 := F64.div (F64.of_Z (Z.of_nat i + 1)) (F64.of_Z (n - 1)) in
  let span := F64.sub t1 t0 in
  if SFleb span f64_0 then cur
  else
    let inseg := SFleb (F32.round t0) t && SFleb t (F32.round t1) in
    let seg_t :=
      if inseg then
        F32.clip f32_0 f32_1
          (F32.div (F32.sub t (F32.round t0)) (F32.round span))
      else f32_0 in
    let ci := nth i colors (0, 0, 0) in
    let cj := nth (S i) colors (0, 0, 0) in
    let val k :=
      F32.add (F32.mul (F32.of_Z (channel ci k)) (F32.sub f32_1 seg_t))
              (F32.mul (F32.of_Z (channel cj k)) seg_t) in
    let pick k := if inseg then to_uint8 (val k) else channel cur k in
    (pick 0%nat, pick 1%nat, pick 2%nat).

(** The normalised projection [t] of pixel [(x, y)]. *)
Definition gradient_t (width height : Z) (cos_a sin_a : float) (x y : Z)
    : float :=
  let xs := F32.sub (F32.of_Z x)
              (F32.round (F64.div (F64.of_Z width) (F64.of_Z 2))) in
  let ys := F32.sub (F32.of_Z y)
              (F32.round (F64.div (F64.of_Z height) (F64.of_Z 2))) in
  let proj := F32.add (F32.mul xs (F32.round cos_a))
                      (F32.mul ys (F32.round sin_a)) in
  let max_proj :=
    F64.add
      (F64.div (F64.mul (F64.abs cos_a) (F64.of_Z width)) (F64.of_Z 2))
      (F64.div (F64.mul (F64.abs sin_a) (F64.of_Z height)) (F64.of_Z 2)) in
  F32.clip f32_0 f32_1
    (F32.div (F32.add (F32.div proj (F32.round (F64.max max_proj f64_1)))
                      f32_1)
             (F32.of_Z 2)).

(** One pixel of the gradient, for a non-empty list of stops. *)
Definition gradient_px (width height : Z) (colors : list Raster.rgb)
    (cos_a sin_a : float) (x y : Z) : Raster.rgba :=
  let n0 := Z.of_nat (length colors) in
  let colors' := if n0 <? 2 then colors ++ colors else colors in
  let n := if n0 <? 2 then 2 else n0 in
  let t := gradient_t width height cos_a sin_a x y in
  let '(r, g, b) :=
    fold_left (gradient_segment colors' n t) (seq 0 (Z.to_nat (n - 1)))
      (0, 0, 0) in
  (r, g, b, 255).

Section Effects.
Context {Font : Type} `{!Pil Font} `{!Lighting}.

(** [_create_linear_gradient(width, height, colors, angle_deg)]: with
    no stop at all, [colors[0]] raises in the first pass. *)
Definition _create_linear_gradient (width height : Z)
    (colors : list Raster.rgb) (angle_deg : float) : Py.result image :=
  let '(cos_a, sin_a) := direction angle_deg in
  match colors with
  | [] => Py.raise (Py.IndexError "list index out of range")
  | _ => Py.ret (Raster.Build width height
                   (gradient_px width height colors cos_a sin_a))
  end.

(** The alpha the overlay gets from the mask value [m]. *)
Definition overlay_alpha (opacity : float) (m : Z) : Z :=
  let mask_f := F32.div (F32.of_Z m) f32_255 in
  let opa := clamp_opacity opacity in
  to_uint8 (F32.mul (F32.mul mask_f f32_255) (F32.round opa)).

(** The RGBA layer [g_arr] that [_fx_gradient_overlay] composites. *)
Definition gradient_layer (w h : Z) (text_mask : mask)
    (colors : list Raster.rgb) (angle opacity : float)
    : Py.result image :=
  Py.bind (_create_linear_gradient w h colors angle) (λ gradient,
    Py.ret (Raster.map2_px
              (λ '(r, g, b, _) m, (r, g, b, overlay_alpha opacity m))
              gradient text_mask)).

Definition default_gradient : list Raster.rgb :=
  [(255, 215, 0); (255, 140, 0)].

(** [_fx_gradient_overlay] *)
Definition _fx_gradient_overlay (img : image) (text_mask : mask)
    (colors : option (list Raster.rgb)) (angle opacity : float)
    : Py.result image :=
  let colors' := default default_gradient colors in
  Py.bind
    (gradient_layer (Raster.width img) (Raster.height img) text_mask
       colors' angle opacity)
    (λ layer, Py.ret (Raster.alpha_composite img layer)).

(** [_blend_rgb] on one channel value of the base and of the overlay. *)
Definition blend_channel (mode : string) (bv ov : Z) : Z :=
  let b := F32.div (F32.of_Z bv) f32_255 in
  let o := F32.div (F32.of_Z ov) f32_255 in
  let two := F32.of_Z 2 in
  let half := F32.round (F64.div f64_1 (F64.of_Z 2)) in
  let result :=
    if String.eqb mode "multiply" then F32.mul b o
    else if String.eqb mode "screen" then
      F32.sub f32_1 (F32.mul (F32.sub f32_1 b) (F32.sub f32_1 o))
    else if String.eqb mode "overlay" then
      if SFltb b half then F32.mul (F32.mul two b) o
      else F32.sub f32_1
             (F32.mul (F32.mul two (F32.sub f32_1 b)) (F32.sub f32_1 o))
    else o in
  to_uint8 (F32.mul result f32_255).

Definition _blend_rgb (base overlay : Raster.raster Raster.rgb)
    (mode : string) : Raster.raster Raster.rgb :=
  Raster.map2_px
    (λ '(br, bg, bb) '(or_, og, ob),
       (blend_channel mode br or_, blend_channel mode bg og,
        blend_channel mode bb ob))
    base overlay.

(** [_fx_texture] once the texture [tex] is loaded. *)
Definition texture_fill (img : image) (text_mask : mask)
    (tex : Raster.raster Raster.rgb) (scale opacity : float)
    (blend_mode : string) : Py.result image :=
  let w := Raster.width img in
  let h := Raster.height img in
  let tex1 :=
    if SFeqb scale f64_1 then tex
    else
      let tw := Z.max 1 (trunc (F64.mul (F64.of_Z (Raster.width tex))
                                  scale)) in
      let th := Z.max 1 (trunc (F64.mul (F64.of_Z (Raster.height tex))
                                  scale)) in
      resize_lanczos tex tw th in
  if (Raster.height tex1 =? 0)
     || ((0 <? h) && (Raster.width tex1 =? 0))
  then Py.raise (Py.ValueError "range() arg 3 must not be zero")
  else
    let tiled :=
      Raster.Build w h
        (λ x y, Raster.px tex1 (x mod Raster.width tex1)
                  (y mod Raster.height tex1)) in
    let blended := _blend_rgb (Raster.rgb_of img) tiled blend_mode in
    let opa := clamp_opacity opacity in
    let mix (m bv lv : Z) : Z :=
      let factor := F32.mul (F32.div (F32.of_Z m) f32_255)
                      (F32.round opa) in
      to_uint8
        (F32.add (F32.mul (F32.of_Z bv) (F32.sub f32_1 factor))
                 (F32.mul (F32.of_Z lv) factor)) in
    Py.ret (Raster.Build w h
      (λ x y,
         let '(r, g, b, a) := Raster.px img x y in
         let '(lr, lg, lb) := Raster.px blended x y in
         let m := Raster.px text_mask x y in
         (mix m r lr, mix m g lg, mix m b lb, to_uint8 (F32.of_Z a)))).

(** [_fx_texture]: an in-memory image first, then the path; no
    texture, or a path that does not load, leaves [img] as it is. *)
Definition _fx_texture (img : image) (text_mask : mask)
    (path : option string) (scale opacity : float) (blend_mode : string)
    (tex_image : option (Raster.raster Raster.rgb)) : Py.result image :=
  match tex_image with
  | Some tex => texture_fill img text_mask tex scale opacity blend_mode
  | None =>
      match path with
      | Some p =>
          match image_open_rgb p with
          | inr tex =>
              texture_fill img text_mask tex scale opacity blend_mode
          | inl _ => Py.ret img
          end
      | None => Py.ret img
      end
  end.

Definition chrome_default : list Raster.rgb :=
  [(255, 255, 255); (210, 215, 230); (100, 105, 130); (245, 248, 255);
   (120, 125, 150); (250, 252, 255); (80, 85, 110); (230, 235, 248);
   (60, 65, 90)].

(** [_fx_chrome] *)
Definition _fx_chrome (img : image) (text_mask : mask)
    (colors : option (list Raster.rgb)) (opacity : float)
    (fill_mask : option mask) : Py.result image :=
  let colors' := default chrome_default colors in
  let opa := clamp_opacity opacity in
  let grad_mask := default text_mask fill_mask in
  Py.bind
    (_fx_gradient_overlay img grad_mask (Some colors') (F64.of_Z 90) opa)
    (λ img1,
       Py.ret (_fx_bevel_emboss img1 text_mask "inner_bevel" 8
                 (F64.of_Z 135) (255, 255, 255) (20, 20, 45)
                 (F64.min f64_1
                    (F64.add opa (F64.div f64_1 (F64.of_Z 2))))
                 (F64.min f64_1
                    (F64.mul opa (F64.div (F64.of_Z 3) (F64.of_Z 4))))
                 1)).

(** [apply_advanced_effects] *)
Definition apply_advanced_effects (frame_arr : image)
    (text_mask_arr : mask) (stroke_w : Z) (fx : Fx) : Py.result image :=
  let img0 := frame_arr in
  let text_mask := text_mask_arr in
  let fill_mask :=
    if stroke_w >? 1 then
      let ks0 := Z.max 3 (stroke_w * 2 - 1) in
      let ks := if ks0 mod 2 =? 0 then ks0 + 1 else ks0 in
      min_filter text_mask ks
    else text_mask in
  let inner := if stroke_w >? 1 then fill_mask else text_mask in
  Py.bind
    (if chrome_enabled fx then
       _fx_chrome img0 text_mask (chrome_colors fx) (chrome_opacity fx)
         (Some fill_mask)
     else Py.ret img0)
    (λ img1,
  Py.bind
    (if gradient_overlay_enabled fx then
       _fx_gradient_overlay img1 fill_mask
         (Some (gradient_overlay_colors fx)) (gradient_overlay_angle fx)
         (gradient_overlay_opacity fx)
     else Py.ret img1)
    (λ img2,
  Py.bind
    (if texture_enabled fx then
       _fx_texture img2 inner (texture_path fx) (texture_scale fx)
         (texture_opacity fx) (texture_blend_mode fx) (texture_image fx)
     else Py.ret img2)
    (λ img3,
       let img4 :=
         if bevel_emboss_enabled fx then
           _fx_bevel_emboss img3 text_mask (bevel_emboss_style fx)
             (bevel_emboss_depth fx) (bevel_emboss_angle fx)
             (bevel_emboss_highlight_color fx)
             (bevel_emboss_shadow_color fx)
             (bevel_emboss_highlight_opacity fx)
             (bevel_emboss_shadow_opacity fx) (bevel_emboss_soften fx)
         else img3 in
       let img5 :=
         if inner_shadow_enabled fx then
           _fx_inner_shadow img4 inner text_mask (inner_shadow_color fx)
             (inner_shadow_offset fx) (inner_shadow_blur fx)
             (inner_shadow_opacity fx)
         else img4 in
       let img6 :=
         if inner_glow_enabled fx then
           _fx_inner_glow img5 inner text_mask (inner_glow_color fx)
             (inner_glow_size fx) (inner_glow_opacity fx)
         else img5 in
       Py.ret img6))).

End Effects.

(** *** The line clips of [create_word_fancytext] *)

(** [idx = min(int(t / _wd), _n - 1)] *)
Definition frame_index (t _wd : Q) (_n : Z) : Py.result Z :=
  if Qeq_bool _wd 0
  then Py.raise (Py.ZeroDivisionError "float division by zero")
  else Py.ret (Z.min (Py.int_of (t / _wd)) (_n - 1)).

(** The closures [_make_frame] and [_make_mask_frame], with their
    default arguments [_rgb]/[_alpha], [_wd] and [_n] made explicit. *)
Definition _make_frame {F : Type} (_rgb : list F) (_wd : Q) (_n : Z)
    (t : Q) : Py.result F :=
  Py.bind (frame_index t _wd _n) (Py.getitem _rgb).

Definition _make_mask_frame {F : Type} (_alpha : list F) (_wd : Q)
    (_n : Z) (t : Q) : Py.result F :=
  Py.bind (frame_index t _wd _n) (Py.getitem _alpha).

(** A [VideoClip] of one line, with its mask clip. *)
Record LineClip : Type := {
  lc_frame_function : Q → Py.result (Raster.raster Raster.rgb);
  lc_mask_frame_function : Q → Py.result (Raster.raster Float.float);
  lc_duration : Q;
  lc_start : Q;
  lc_pos_y : Z
}.

(** [f[:, :, 3].astype(np.float32) * (1.0 / 255.0)] *)
Definition alpha_frame (f : image) : Raster.raster Float.float :=
  Raster.map_px
    (λ a, F32.mul (F32.of_Z a) (F32.round (F64.div f64_1 (F64.of_Z 255))))
    (Raster.alpha_of f).

Definition line_clip (frames : list image) (word_dur : Q)
    (n_words_in_line : Z) (line_start line_dur : Q) (y_pos : Z)
    : LineClip :=
  let rgb_frames := map Raster.rgb_of frames in
  let alpha_frames := map alpha_frame frames in
  {| lc_frame_function := _make_frame rgb_frames word_dur n_words_in_line;
     lc_mask_frame_function :=
       _make_mask_frame alpha_frames word_dur n_words_in_line;
     lc_duration := line_dur;
     lc_start := line_start;
     lc_pos_y := y_pos |}.

Section Clips.
Context {Font : Type} `{!Pil Font} `{!Lighting}.
Variable pil_font : Font.

(** [for hi in range(n_words_in_line)]: one call of
    [_render_fancytext_frame] per highlight index, all sharing the
    [line_cache] dict. *)
Fixpoint render_variants (line_words : list string) (width : Z)
    (sty : Style) (his : list nat)
    (line_cache : option (gmap string CacheVal))
    : Py.result (list image) * option (gmap string CacheVal) :=
  match his with
  | [] => (Py.ret [], line_cache)
  | hi :: r =>
      match _render_fancytext_frame pil_font line_words width
              (Z.of_nat hi) sty line_cache with
      | (inl e, c) => (inl e, c)
      | (inr f, c) =>
          match render_variants line_words width sty r c with
          | (inl e, c') => (inl e, c')
          | (inr fs, c') => (inr (f :: fs), c')
          end
      end
  end.

(** [frames[i] = apply_advanced_effects(frames[i], text_masks[i], ...)] *)
Fixpoint apply_fx_all (fms : list (image * mask)) (stroke_w : Z)
    (fx : Fx) : Py.result (list image) :=
  match fms with
  | [] => Py.ret []
  | (f, m) :: r =>
      Py.bind (apply_advanced_effects f m stroke_w fx) (λ f',
        Py.bind (apply_fx_all r stroke_w fx) (λ fs, Py.ret (f' :: fs)))
  end.

Definition has_fx (fx : Fx) : bool :=
  inner_shadow_enabled fx || inner_glow_enabled fx
  || gradient_overlay_enabled fx || bevel_emboss_enabled fx
  || texture_enabled fx || chrome_enabled fx.

(** The frames of one line: rendered, then (for the [_adv] entry
    point, [fx = Some _]) read back from the cache and run through
    the effects. *)
Definition line_frames (line_words : list string) (width : Z)
    (sty : Style) (fx : option Fx) : Py.result (list image) :=
  let n := length line_words in
  match render_variants line_words width sty (seq 0 n) (Some ∅) with
  | (inl e, _) => inl e
  | (inr frames, line_cache) =>
      match fx with
      | None => Py.ret frames
      | Some fx =>
          match line_cache ≫= (.!! "np_frames"),
                line_cache ≫= (.!! "text_only_masks") with
          | Some (VFrames fs), Some (VMasks ms) =>
              if has_fx fx
              then apply_fx_all (zip fs ms) (stroke_width sty) fx
              else Py.ret fs
          | _, _ => Py.raise (Py.KeyError "np_frames")
          end
      end
  end.

(** The [for line_words in lines] loop. *)
Fixpoint line_clips (lines : list (list string)) (width : Z)
    (sty : Style) (fx : option Fx) (word_dur start_offset : Q)
    (y_pos : Z) (word_idx : Z) : Py.result (list LineClip) :=
  match lines with
  | [] => Py.ret []
  | line_words :: rest =>
      let n := Z.of_nat (length line_words) in
      Py.bind (line_frames line_words width sty fx) (λ frames,
        let line_start := start_offset + inject_Z word_idx * word_dur in
        let line_dur := inject_Z n * word_dur in
        Py.bind
          (line_clips rest width sty fx word_dur start_offset y_pos
             (word_idx + n))
          (λ clips,
             Py.ret (line_clip frames word_dur n line_start line_dur
                       y_pos :: clips)))
  end%Q.

(** [create_word_fancytext] ([fx = None]) and
    [create_word_fancytext_adv] ([fx = Some _]), from
    [words = text.upper().split()] on. *)
Definition create_word_fancytext_from (words : list string)
    (duration : Q) (width height : Z) (sty : Style)
    (max_words_per_line : Z) (position_y_ratio : Q) (fx : option Fx)
    : Py.result (list LineClip) :=
  if negb (Py.nonempty words) then Py.ret []
  else
    let total_words := Z.of_nat (length words) in
    let speaking_dur := (duration * (9 # 10))%Q in
    let start_offset := (duration * (5 # 100))%Q in
    let word_dur := (speaking_dur / inject_Z total_words)%Q in
    let max_line_px := width - 80 in
    let lines :=
      _group_words_into_lines (_word_width pil_font) words
        max_words_per_line max_line_px in
    let y_pos := Py.int_of (inject_Z height * position_y_ratio) in
    line_clips lines width sty fx word_dur start_offset y_pos 0.

Definition create_word_fancytext words duration width height sty
    max_words_per_line position_y_ratio :=
  create_word_fancytext_from words duration width height sty
    max_words_per_line position_y_ratio None.

Definition create_word_fancytext_adv words duration width height sty
    max_words_per_line position_y_ratio fx :=
  create_word_fancytext_from words duration width height sty
    max_words_per_line position_y_ratio (Some fx).

End Clips.

(** *** [generate_procedural_texture] *)

(** numpy's generator and exponential. *)
Class Numpy : Type := {
  RandomState : Type;
  (** [np.random.RandomState(seed)] for an integer seed *)
  random_state : Z → Py.result RandomState;
  (** [rng.randint(0, 256, (height, width), dtype=np.uint8)]: the
      array drawn and the generator after the draw *)
  randint : RandomState → Z → Z → Raster.raster Z * RandomState;
  (** [np.exp] on a [float32] *)
  exp32 : Float.float → Float.float
}.

Section Texture.
Context {Font : Type} `{!Pil Font} `{!Numpy}.

(** Every [(x, y)] of a [width] by [height] array, row by row. *)
Definition coords (width height : Z) : list (Z * Z) :=
  y ← map Z.of_nat (seq 0 (Z.to_nat height));
  x ← map Z.of_nat (seq 0 (Z.to_nat width));
  [(x, y)].

(** The body of the [for octave in range(roughness)] loop once the
    noise is drawn: the blurred noise, weighted, is added to the sum. *)
Definition add_octave (roughness : Z) (composite : Raster.raster Float.float)
    (on : nat * Raster.raster Z) : Raster.raster Float.float :=
  let '(octave, noise) := on in
  let blur_r := Z.max 1 (roughness - Z.of_nat octave) in
  let blurred := gaussian_blur_L noise (inject_Z blur_r) in
  let weight := F64.div f64_1 (F64.of_Z (1 + Z.of_nat octave)) in
  Raster.map2_px
    (λ c b, F32.add c (F32.mul (F32.of_Z b) (F32.round weight)))
    composite blurred.

(** The [for octave in range(roughness)] loop: the generator is
    threaded through the draws, the octaves add up in [composite]. *)
Fixpoint octaves (width height roughness : Z) (todo : list nat)
    (rng : RandomState) (composite : Raster.raster Float.float)
    : Raster.raster Float.float * RandomState :=
  match todo with
  | [] => (composite, rng)
  | octave :: r =>
      let '(noise, rng') := randint rng height width in
      octaves width height roughness r rng'
        (add_octave roughness composite (octave, noise))
  end.

(** The noise arrays the first [n] draws of a generator give. *)
Fixpoint noise_stream (width height : Z) (n : nat) (rng : RandomState)
    : list (Raster.raster Z) :=
  match n with
  | O => []
  | S k =>
      let '(noise, rng') := randint rng height width in
      noise :: noise_stream width height k rng'
  end.

Definition f32_min (l : list Float.float) (m : Float.float) :=
  fold_left (λ m v, if SFltb v m then v else m) l m.
Definition f32_max (l : list Float.float) (m : Float.float) :=
  fold_left (λ m v, if SFltb m v then v else m) l m.

(** [generate_procedural_texture]: the generator is local to the
    call; [global_rng], the state of the module-level generator of
    [np.random], is handed back as it came. *)
Definition generate_procedural_texture (width height : Z)
    (base_color accent_color : Raster.rgb) (roughness seed : Z)
    (global_rng : RandomState)
    : Py.result (Raster.raster Raster.rgb) * RandomState :=
  (match random_state seed with
   | inl e => inl e
   | inr rng =>
       if (width <? 0) || (height <? 0)
       then Py.raise (Py.ValueError "negative dimensions are not allowed")
       else
         let '(composite, _) :=
           octaves width height roughness (seq 0 (Z.to_nat roughness))
             rng (Raster.fill width height f32_0) in
         match map (λ '(x, y), Raster.px composite x y)
                 (coords width height) with
         | [] => Py.raise (Py.ValueError "zero-size array to reduction")
         | v :: vs =>
             let lo := f32_min vs v in
             let hi := f32_max vs v in
             let half := F32.round (F64.div f64_1 (F64.of_Z 2)) in
             let normalised :=
               if SFltb f32_0 (F32.sub hi lo) then
                 Raster.map_px
                   (λ c, F32.div (F32.sub c lo) (F32.sub hi lo)) composite
               else Raster.map_px (λ _, half) composite in
             let boosted :=
               Raster.map_px
                 (λ c, F32.div f32_1
                         (F32.add f32_1
                            (exp32 (F32.mul (F32.of_Z (-6))
                                      (F32.sub c half)))))
                 normalised in
             let mix (k : nat) (t : Float.float) : Z :=
               to_uint8
                 (F32.add
                    (F32.mul (F32.of_Z (channel base_color k))
                       (F32.sub f32_1 t))
                    (F32.mul (F32.of_Z (channel accent_color k)) t)) in
             Py.ret (Raster.map_px
                       (λ t, (mix 0%nat t, mix 1%nat t, mix 2%nat t))
                       boosted)
         end
   end,
   global_rng).

End Texture.

End FancyText.

(** ** compositing/CompositeVideoClip.py *)
Module Composite.
Import Raster.

(** A [uint8] frame: grey ([ndim == 2]), RGB or RGBA. *)
Inductive ndarray : Type :=
| Gray (a : raster Z)
| Rgb (a : raster rgb)
| Rgba (a : raster rgba).

Definition nd_width (a : ndarray) : Z :=
  match a with Gray r => width r | Rgb r => width r | Rgba r => width r end.
Definition nd_height (a : ndarray) : Z :=
  match a with Gray r => height r | Rgb r => height r | Rgba r => height r end.

(** [a[y1:y2, x1:x2]] for non-negative bounds: numpy clips the slice
    to the array. *)
Definition np_slice {A} (y1 y2 x1 x2 : Z) (r : raster A) : raster A :=
  let cx1 := Z.min x1 (width r) in
  let cy1 := Z.min y1 (height r) in
  Build (Z.max 0 (Z.min x2 (width r) - cx1))
        (Z.max 0 (Z.min y2 (height r) - cy1))
        (λ x y, px r (x + cx1) (y + cy1)).

Definition nd_slice (y1 y2 x1 x2 : Z) (a : ndarray) : ndarray :=
  match a with
  | Gray r => Gray (np_slice y1 y2 x1 x2 r)
  | Rgb r => Rgb (np_slice y1 y2 x1 x2 r)
  | Rgba r => Rgba (np_slice y1 y2 x1 x2 r)
  end.

(** [cv2.cvtColor(a, cv2.COLOR_GRAY2RGB)] when [a.ndim == 2],
    [a[:, :, :3]] when [a.shape[2] == 4], [a] otherwise. *)
Definition to_rgb3 (a : ndarray) : raster rgb :=
  match a with
  | Gray r => map_px (λ v, (v, v, v)) r
  | Rgb r => r
  | Rgba r => rgb_of r
  end.

(** The mask array [new_blit_on] returns: 2-D, or 3-D of which channel
    0 is used. *)
Inductive maskarray : Type :=
| Mask2 (a : raster Z)
| Mask3 (a : raster rgb).

Definition mask_slice (y1 y2 x1 x2 : Z) (m : maskarray) : raster Z :=
  match m with
  | Mask2 r => np_slice y1 y2 x1 x2 r
  | Mask3 r => map_px (λ '(c0, _, _), c0) (np_slice y1 y2 x1 x2 r)
  end.

(** What [clip.pos(t)] returns: numbers or keywords such as
    ["center"]. *)
Inductive coord : Type :=
| Num (q : Q)
| Kw (s : string).

Definition coord_eqb (a b : coord) : bool :=
  match a, b with
  | Num p, Num q => Qeq_bool p q
  | Kw s, Kw u => String.eqb s u
  | _, _ => false
  end.

Definition position : Type := coord * coord.
Definition position_eqb (p q : position) : bool :=
  coord_eqb p.1 q.1 && coord_eqb p.2 q.2.

(** Background colours: [(r, g, b)], [(r, g, b, a)] or a mask level. *)
Inductive color : Type :=
| ColorRGB (c : rgb)
| ColorRGBA (c : rgba)
| ColorLevel (v : Q).

(** A mask clip: what the compositor reads of it. *)
Record MaskClip : Type := {
  m_start : Q;
  m_end : option Q;
  m_layer_index : Z;
  m_fps : option Q;
  m_pos : Q → position;
  m_cached_pil : option (raster Z);        (* [_cached_pil], mode "L" *)
  (** [clip.compose_mask(mask, t)] *)
  m_compose_mask : raster Float.float → Q → raster Float.float
}.

(** A colour clip: what the compositor reads of it. *)
Record Clip : Type := {
  size : Z * Z;
  start : Q;
  end_ : option Q;
  layer_index : Z;
  fps : option Q;
  audio : option nat;                      (* a handle on the sound track *)
  pos : Q → position;
  mask : option MaskClip;
  _cached_pil : option (raster rgb);       (* mode "RGB" *)
  _cached_uint8 : option ndarray;
  (** [clip.new_blit_on(t, full_w, full_h)]: [None], or the frame,
      the pixel position and the mask array *)
  new_blit_on : Q → Z → Z
                → option (option ndarray * (Z * Z) * option maskarray);
  (** [clip.get_frame_uint8(t)] *)
  get_frame_uint8 : Q → ndarray
}.

(** The attributes [__init__] reads of any clip. *)
Class ClipLike (C : Type) : Type := {
  clip_start : C → Q;
  clip_end : C → option Q;
  clip_layer_index : C → Z;
  clip_fps : C → option Q
}.

#[export] Instance Clip_like : ClipLike Clip :=
  {| clip_start := start; clip_end := end_;
     clip_layer_index := layer_index; clip_fps := fps |}.
#[export] Instance MaskClip_like : ClipLike MaskClip :=
  {| clip_start := m_start; clip_end := m_end;
     clip_layer_index := m_layer_index; clip_fps := m_fps |}.

(** The parts of [moviepy.video.VideoClip] the constructor calls. *)
Class VideoClipLib : Type := {
  (** [ColorClip(size, color=bg_color, is_mask=False)] *)
  ColorClip : Z * Z → color → Clip;
  (** [ColorClip(size, color=bg_color, is_mask=True)] *)
  ColorClip_mask : Z * Z → color → MaskClip;
  (** [clip.with_mask().mask] for a clip without a mask *)
  with_mask_default : Clip → MaskClip
}.

Section Init.
Context {C : Type} `{!ClipLike C}.

(** [clip.start <= t and (clip.end is None or t < clip.end)] *)
Definition is_playing (clip : C) (t : Q) : bool :=
  Qle_bool (clip_start clip) t
  && match clip_end clip with
     | None => true
     | Some e => negb (Qle_bool e t)
     end.

(** [max(fpss) if fpss else None] over the truthy [clip.fps]. *)
Definition composite_fps (clips : list C) : option Q :=
  let fpss :=
    omap (λ c, match clip_fps c with
               | Some f => if Qeq_bool f 0 then None else Some f
               | None => None
               end) clips in
  match fpss with
  | [] => None
  | f :: r => Some (fold_left Py.qmax r f)
  end.

(** [sorted(self.clips, key=lambda clip: clip.layer_index)] *)
Definition order_by_layer (clips : list C) : list C :=
  Py.sorted clip_layer_index clips.

(** [ends = [...]; if None not in ends: duration = max(ends)] *)
Definition composite_duration (clips : list C) : Py.result (option Q) :=
  let ends := map clip_end clips in
  if forallb (λ e, bool_decide (is_Some e)) ends
  then Py.bind (Py.max_list (omap id ends)) (λ d, Py.ret (Some d))
  else Py.ret None.
End Init.

(** [self._clip_blit_pil[i] = (sp, mp, dst_x1, dst_y1, has_mask)] *)
Definition blit_pil : Type := raster rgb * option (raster Z) * Z * Z * bool.
(** [self._clip_blit_np[i] = (src_slice, dst_y1, dst_y2, dst_x1, dst_x2)] *)
Definition blit_np : Type := raster rgb * Z * Z * Z * Z.

(** The composite with [is_mask=True] that [__init__] builds for its
    own [mask]. *)
Record MaskComposite : Type := {
  mc_size : Z * Z;
  mc_clips : list MaskClip;
  mc_bg_color : color;
  mc_bg : MaskClip;
  mc_fps : option Q;
  mc_duration : option Q
}.

(** A [CompositeVideoClip] with [is_mask=False]. *)
Record CompositeVideoClip : Type := {
  c_size : Z * Z;
  c_clips : list Clip;
  c_bg_color : option color;
  c_bg : Clip;
  c_created_bg : bool;
  c_fps : option Q;
  c_duration : option Q;
  c_audio : option (list nat);
  c_mask : option MaskComposite;
  _cached_frame : option (raster rgb);
  _clip_blit_pil : gmap nat blit_pil;
  _clip_blit_np : gmap nat blit_np;
  _any_masks : bool
}.

(** The state of the loop of [_precompute_compositing]. *)
Record Pre : Type := {
  all_static : bool;
  all_always_playing : bool;
  pre_blit_pil : gmap nat blit_pil;
  pre_blit_np : gmap nat blit_np
}.

(** The clipped source and destination box of a [cw] by [ch] image
    placed at [(x, y)] on a [full_w] by [full_h] canvas: [None] where
    the code hits [continue]. *)
Definition blit_box (full_w full_h cw ch x y : Z)
    : option (Z * Z * Z * Z * Z * Z) :=
  if (x <=? - cw) || (x >=? full_w) || (y <=? - ch) || (y >=? full_h)
  then None
  else
    let src_x1 := Z.max 0 (- x) in
    let src_y1 := Z.max 0 (- y) in
    let src_x2 := Z.min cw (full_w - x) in
    let src_y2 := Z.min ch (full_h - y) in
    let dst_x1 := Z.max 0 x in
    let dst_y1 := Z.max 0 y in
    if (src_x2 <=? src_x1) || (src_y2 <=? src_y1) then None
    else Some (src_x1, src_y1, src_x2, src_y2, dst_x1, dst_y1).

(** What the body of the loop of [_precompute_compositing] finds out
    about one clip: it is not static ([all_static = False; continue]),
    it is static but contributes nothing ([continue]), or it has blit
    data for the PIL path and, when [_cached_uint8] is there, for the
    numpy path. *)
Inductive clip_pre : Type :=
| NotStatic
| Skipped
| Blit (bp : blit_pil) (bn : option blit_np).

Definition classify (full_w full_h : Z) (clip : Clip) : clip_pre :=
  let has_mask := bool_decide (is_Some (mask clip)) in
  let mask_pil := mask clip ≫= m_cached_pil in
  match _cached_pil clip with
  | None => NotStatic
  | Some src_pil =>
      if has_mask && negb (bool_decide (is_Some mask_pil)) then NotStatic
      else if negb (position_eqb (pos clip 0) (pos clip 1)) then NotStatic
      else
        match new_blit_on clip (start clip) full_w full_h with
        | None => Skipped
        | Some (_, (x, y), _) =>
            let cw_px := width src_pil in
            let ch_px := height src_pil in
            match blit_box full_w full_h cw_px ch_px x y with
            | None => Skipped
            | Some (src_x1, src_y1, src_x2, src_y2, dst_x1, dst_y1) =>
                let no_crop :=
                  (src_x1 =? 0) && (src_y1 =? 0) && (src_x2 =? cw_px)
                  && (src_y2 =? ch_px) in
                let sp := if no_crop then src_pil
                          else crop src_x1 src_y1 src_x2 src_y2 src_pil in
                let mp :=
                  (λ m, if no_crop then m
                        else crop src_x1 src_y1 src_x2 src_y2 m)
                  <$> mask_pil in
                Blit (sp, mp, dst_x1, dst_y1, has_mask)
                  ((λ cached,
                      let dst_x2 := dst_x1 + (src_x2 - src_x1) in
                      let dst_y2 := dst_y1 + (src_y2 - src_y1) in
                      let src_slice :=
                        to_rgb3 (nd_slice src_y1 src_y2 src_x1 src_x2
                                   cached) in
                      (src_slice, dst_y1, dst_y2, dst_x1, dst_x2))
                   <$> _cached_uint8 clip)
            end
        end
  end.

(** The "always playing" test on a clip that has blit data:
    [clip.start != 0], or an end before the known duration, fails it. *)
Definition always_playing (duration : option Q) (clip : Clip) : bool :=
  if negb (Qeq_bool (start clip) 0) then false
  else
    match duration, end_ clip with
    | Some d, Some e => Qle_bool d e
    | _, _ => true
    end.

(** One pass of [for i, clip in enumerate(self.clips)] in
    [_precompute_compositing]. *)
Definition precompute_clip (full_w full_h : Z) (duration : option Q)
    (st : Pre) (i : nat) (clip : Clip) : Pre :=
  match classify full_w full_h clip with
  | NotStatic =>
      {| all_static := false; all_always_playing := all_always_playing st;
         pre_blit_pil := pre_blit_pil st; pre_blit_np := pre_blit_np st |}
  | Skipped => st
  | Blit bp bn =>
      {| all_static := all_static st;
         all_always_playing :=
           if always_playing duration clip then all_always_playing st
           else false;
         pre_blit_pil := <[i := bp]> (pre_blit_pil st);
         pre_blit_np :=
           match bn with
           | Some b => <[i := b]> (pre_blit_np st)
           | None => pre_blit_np st
           end |}
  end.

(** [_make_numpy_canvas]: the background frame as a [full_w] by
    [full_h] RGB array. *)
Definition _make_numpy_canvas (bg : Clip) (t : Q) (full_w full_h : Z)
    : raster rgb :=
  let bg3 := to_rgb3 (get_frame_uint8 bg (t - start bg)) in
  if (height bg3 >=? full_h) && (width bg3 >=? full_w)
  then np_slice 0 full_h 0 full_w bg3
  else
    let bh := Z.min (height bg3) full_h in
    let bw := Z.min (width bg3) full_w in
    Build full_w full_h
      (λ x y, if (0 <=? x) && (x <? bw) && (0 <=? y) && (y <? bh)
              then px bg3 x y else (0, 0, 0)).

(** The canvas of the PIL paths: a copy of the cached background
    image when it has the right size, the numpy canvas otherwise. *)
Definition pil_canvas (bg : Clip) (t : Q) (full_w full_h : Z)
    : raster rgb :=
  match _cached_pil bg with
  | Some bg_pil =>
      if (width bg_pil =? full_w) && (height bg_pil =? full_h)
      then bg_pil
      else _make_numpy_canvas bg t full_w full_h
  | None => _make_numpy_canvas bg t full_w full_h
  end.

(** [canvas.paste(sp, (dx, dy), mp)] when [has_mask and mp is not
    None], [canvas.paste(sp, (dx, dy))] otherwise. *)
Definition paste_blit (canvas : raster rgb) (b : blit_pil) : raster rgb :=
  let '(sp, mp, dx, dy, has_mask) := b in
  match mp with
  | Some m => if has_mask then paste_mask blend_rgb canvas sp dx dy m
              else paste canvas sp dx dy
  | None => paste canvas sp dx dy
  end.

(** [sorted(d)] on a dict with integer keys. *)
Definition sorted_keys {V} (d : gmap nat V) : list nat :=
  merge_sort Nat.le (elements (dom d)).

(** The blit of a clip that has no pre-computed data, at time [t]:
    the clipped RGB source, the destination corner and the clipped
    mask; [None] where the code hits [continue]. *)
Definition dynamic_blit (clip : Clip) (t : Q) (full_w full_h : Z)
    : option (raster rgb * Z * Z * Z * Z * option (raster Z)) :=
  match new_blit_on clip t full_w full_h with
  | None => None
  | Some (None, _, _) => None
  | Some (Some img, (x, y), clip_mask) =>
      let clip_h := nd_height img in
      let clip_w := nd_width img in
      match blit_box full_w full_h clip_w clip_h x y with
      | None => None
      | Some (src_x1, src_y1, src_x2, src_y2, dst_x1, dst_y1) =>
          let dst_x2 := dst_x1 + (src_x2 - src_x1) in
          let dst_y2 := dst_y1 + (src_y2 - src_y1) in
          Some (to_rgb3 (nd_slice src_y1 src_y2 src_x1 src_x2 img),
                dst_y1, dst_y2, dst_x1, dst_x2,
                mask_slice src_y1 src_y2 src_x1 src_x2 <$> clip_mask)
      end
  end.

(** One pass of the loop of [_frame_pil_canvas]. *)
Definition pil_step (blit_cache : gmap nat blit_pil) (t : Q)
    (full_w full_h : Z) (canvas : raster rgb) (ic : nat * Clip)
    : raster rgb :=
  let '(i, clip) := ic in
  if negb (is_playing clip t) then canvas
  else
    match blit_cache !! i with
    | Some blit => paste_blit canvas blit
    | None =>
        match dynamic_blit clip t full_w full_h with
        | None => canvas
        | Some (src_arr, dst_y1, _, dst_x1, _, Some mask_s) =>
            paste_mask blend_rgb canvas src_arr dst_x1 dst_y1 mask_s
        | Some (src_arr, dst_y1, _, dst_x1, _, None) =>
            paste canvas src_arr dst_x1 dst_y1
        end
    end.

(** The blit one pass of the loop of [_frame_numpy] performs: none for
    a clip that is not playing or that the fallback skips, the
    pre-computed one on the fast path, the one of [new_blit_on]
    otherwise. *)
Definition numpy_blit (np_cache : gmap nat blit_np) (t : Q)
    (full_w full_h : Z) (ic : nat * Clip) : option blit_np :=
  let '(i, clip) := ic in
  if negb (is_playing clip t) then None
  else
    match np_cache !! i with
    | Some np_data => Some np_data
    | None =>
        match dynamic_blit clip t full_w full_h with
        | None => None
        | Some (src, dst_y1, dst_y2, dst_x1, dst_x2, _) =>
            Some (src, dst_y1, dst_y2, dst_x1, dst_x2)
        end
    end.

(** [current[dy1:dy2, dx1:dx2] = src] *)
Definition apply_blit (current : Py.result (raster rgb)) (b : blit_np)
    : Py.result (raster rgb) :=
  let '(src, dy1, dy2, dx1, dx2) := b in
  Py.bind current (λ cur, slice_assign cur dy1 dy2 dx1 dx2 src).

(** One pass of the loop of [_frame_numpy]. *)
Definition numpy_step (np_cache : gmap nat blit_np) (t : Q)
    (full_w full_h : Z) (current : Py.result (raster rgb))
    (ic : nat * Clip) : Py.result (raster rgb) :=
  match numpy_blit np_cache t full_w full_h ic with
  | None => current
  | Some b => apply_blit current b
  end.

(** The z-order: ascending [layer_index], then ascending position in
    the list given to the constructor. *)
Definition z_before {C : Type} `{!ClipLike C} (a b : nat * C) : Prop :=
  Py.tagged_before clip_layer_index a b.

(** The layers [_frame_numpy] paints at time [t], in the order of the
    loop, each with the blit it performs; the layers come tagged (with
    their position in the list given to the constructor), [k] is the
    position in [self.clips] of the first of them. *)
Fixpoint paint_seq (np_cache : gmap nat blit_np) (t : Q) (full_w full_h : Z)
    (k : nat) (order : list (nat * Clip)) : list ((nat * Clip) * blit_np) :=
  match order with
  | [] => []
  | oc :: r =>
      match numpy_blit np_cache t full_w full_h (k, oc.2) with
      | Some b => (oc, b) :: paint_seq np_cache t full_w full_h (S k) r
      | None => paint_seq np_cache t full_w full_h (S k) r
      end
  end.

(** Does the blit write pixel [(x, y)]? *)
Definition covers (b : blit_np) (x y : Z) : bool :=
  let '(_, dy1, dy2, dx1, dx2) := b in
  (dx1 <=? x) && (x <? dx2) && (dy1 <=? y) && (y <? dy2).

(** The pixel the blit writes at [(x, y)]. *)
Definition blit_px (b : blit_np) (x y : Z) : rgb :=
  let '(src, dy1, _, dx1, _) := b in px src (x - dx1) (y - dy1).

Section Methods.
Variable self : CompositeVideoClip.

Definition _frame_pil_canvas (t : Q) (full_w full_h : Z) : raster rgb :=
  fold_left (pil_step (_clip_blit_pil self) t full_w full_h)
    (Py.enumerate (c_clips self))
    (pil_canvas (c_bg self) t full_w full_h).

Definition _frame_numpy (t : Q) (full_w full_h : Z)
    : Py.result (raster rgb) :=
  fold_left (numpy_step (_clip_blit_np self) t full_w full_h)
    (Py.enumerate (c_clips self))
    (Py.ret (_make_numpy_canvas (c_bg self) t full_w full_h)).

(** The flattening that does not read [_cached_frame]: the end of
    [frame_function], after the early return. *)
Definition uncached_frame (t : Q) : Py.result (raster rgb) :=
  let '(full_w, full_h) := c_size self in
  if _any_masks self then Py.ret (_frame_pil_canvas t full_w full_h)
  else _frame_numpy t full_w full_h.

(** [frame_function] of a composite with [is_mask=False]. *)
Definition frame_function (t : Q) : Py.result (raster rgb) :=
  match _cached_frame self with
  | Some frame => Py.ret frame
  | None => uncached_frame t
  end.

(** [playing_clips] *)
Definition playing_clips (t : Q) : list Clip :=
  filter (λ clip, is_playing clip t = true) (c_clips self).
End Methods.

(** [frame_function] of a composite with [is_mask=True]. *)
Definition mask_frame_function (self : MaskComposite) (t : Q)
    : raster Float.float :=
  let '(full_w, full_h) := mc_size self in
  fold_left (λ m clip, m_compose_mask clip m t)
    (filter (λ clip, is_playing clip t = true) (mc_clips self))
    (fill full_w full_h (Float.F32.of_Z 0)).

(** [_precompute_compositing]: the blit dicts and the cached frame. *)
Definition _precompute_compositing (size : Z * Z) (clips : list Clip)
    (bg : Clip) (duration : option Q)
    : option (raster rgb) * gmap nat blit_pil * gmap nat blit_np :=
  let '(full_w, full_h) := size in
  let st :=
    fold_left (λ st '(i, clip),
                 precompute_clip full_w full_h duration st i clip)
      (Py.enumerate clips)
      {| all_static := true; all_always_playing := true;
         pre_blit_pil := ∅; pre_blit_np := ∅ |} in
  let cached :=
    if all_static st && all_always_playing st
       && bool_decide (dom (pre_blit_pil st) ≠ ∅)
    then
      Some (fold_left
              (λ canvas i,
                 match pre_blit_pil st !! i with
                 | Some blit => paste_blit canvas blit
                 | None => canvas
                 end)
              (sorted_keys (pre_blit_pil st))
              (pil_canvas bg 0 full_w full_h))
    else None in
  (cached, pre_blit_pil st, pre_blit_np st).

Section Constructor.
Context `{!VideoClipLib}.

(** [CompositeVideoClip(maskclips, self.size, is_mask=True,
    bg_color=0.0)]: a size and a colour are given, so there is no
    transparency, no mask of the mask and no pre-computation. *)
Definition init_mask (maskclips : list MaskClip) (size : Z * Z)
    (bg_color : color) : Py.result MaskComposite :=
  let clips := order_by_layer maskclips in
  Py.bind (composite_duration clips) (λ duration,
    Py.ret {| mc_size := size; mc_clips := clips;
              mc_bg_color := bg_color;
              mc_bg := ColorClip_mask size bg_color;
              mc_fps := composite_fps maskclips;
              mc_duration := duration |}).

(** [.with_position(clip.pos).with_end(clip.end)
    .with_start(clip.start, change_end=False)
    .with_layer_index(clip.layer_index)] *)
Definition mask_of (clip : Clip) : MaskClip :=
  let m := default (with_mask_default clip) (mask clip) in
  {| m_start := start clip; m_end := end_ clip;
     m_layer_index := layer_index clip; m_fps := m_fps m;
     m_pos := pos clip; m_cached_pil := m_cached_pil m;
     m_compose_mask := m_compose_mask m |}.

(** [CompositeVideoClip.__init__] with [is_mask=False]. *)
Definition init (clips : list Clip) (size_arg : option (Z * Z))
    (bg_color : option color) (use_bgclip : bool)
    : Py.result CompositeVideoClip :=
  Py.bind
    (match size_arg with
     | Some sz => Py.ret sz
     | None => Py.bind (Py.getitem clips 0) (λ c, Py.ret (size c))
     end)
    (λ full_size,
  Py.bind
    (if use_bgclip then
       Py.bind (Py.getitem clips 0) (λ c0,
         Py.ret (if bool_decide (mask c0 = None :> option _) then false
                 else bool_decide (bg_color = None :> option _)))
     else Py.ret (bool_decide (bg_color = None :> option _)))
    (λ transparent,
  let bg_color :=
    if negb use_bgclip then
      match bg_color with
      | None => Some (if transparent then ColorRGBA (0, 0, 0, 0)
                      else ColorRGB (0, 0, 0))
      | Some c => Some c
      end
    else bg_color in
  let fps := composite_fps clips in
  Py.bind
    (if use_bgclip then
       Py.bind (Py.getitem clips 0) (λ c0, Py.ret (c0, tail clips, false))
     else
       Py.ret (ColorClip full_size
                 (default (ColorRGB (0, 0, 0)) bg_color),
               clips, true))
    (λ '(bg, clips1, created_bg),
  let clips2 := order_by_layer clips1 in
  Py.bind (composite_duration clips2) (λ duration,
  let audioclips := omap audio clips2 in
  let audio_comp :=
    if Py.nonempty audioclips then Some audioclips else None in
  Py.bind
    (if transparent then
       let maskclips := map mask_of clips2 in
       let maskclips :=
         match mask bg with
         | Some bm => if use_bgclip then bm :: maskclips else maskclips
         | None => maskclips
         end in
       Py.bind (init_mask maskclips full_size (ColorLevel 0)) (λ m,
         Py.ret (Some m))
     else Py.ret None)
    (λ mask_comp,
  let '(cached, blits_pil, blits_np) :=
    _precompute_compositing full_size clips2 bg duration in
  Py.ret {| c_size := full_size; c_clips := clips2;
            c_bg_color := bg_color; c_bg := bg;
            c_created_bg := created_bg; c_fps := fps;
            c_duration := duration; c_audio := audio_comp;
            c_mask := mask_comp; _cached_frame := cached;
            _clip_blit_pil := blits_pil; _clip_blit_np := blits_np;
            _any_masks :=
              existsb (λ c, bool_decide (is_Some (mask c))) clips2
         |}))))).
End Constructor.

(** The PIL blit data the pre-computation keeps for a clip, if any,
    and the paste of that data: what one pass of the loop that builds
    the cached frame does. *)
Definition blit_of (full_w full_h : Z) (clip : Clip) : option blit_pil :=
  match classify full_w full_h clip with
  | Blit bp _ => Some bp
  | _ => None
  end.

Definition static_step (full_w full_h : Z) (canvas : raster rgb)
    (clip : Clip) : raster rgb :=
  match blit_of full_w full_h clip with
  | Some blit => paste_blit canvas blit
  | None => canvas
  end.

(** *** The static-cache preconditions *)

(** Two results are the same when both raise, or both return the same
    picture. *)
Definition result_eq (a b : Py.result (raster rgb)) : Prop :=
  match a, b with
  | inr r1, inr r2 => raster_eq r1 r2
  | inl _, inl _ => True
  | _, _ => False
  end.

(** The three preconditions the specification gives, on one layer:
    position constant over the lifetime, content an immutable raster
    (cached, with a cached mask when the layer has a mask), and active
    from time 0 for the whole duration of the composite. *)
Definition constant_position (clip : Clip) : Prop :=
  ∀ t, is_playing clip t = true →
    position_eqb (pos clip t) (pos clip (start clip)) = true.

Definition immutable_content (clip : Clip) : Prop :=
  is_Some (_cached_pil clip)
  ∧ ∀ m, mask clip = Some m → is_Some (m_cached_pil m).

Definition full_duration (duration : option Q) (clip : Clip) : Prop :=
  (start clip == 0)%Q
  ∧ match end_ clip, duration with
    | None, _ => True
    | Some e, Some d => (d <= e)%Q
    | Some _, None => False
    end.

Definition static_cache_preconditions (self : CompositeVideoClip) : Prop :=
  Forall (λ clip, constant_position clip ∧ immutable_content clip
                  ∧ full_duration (c_duration self) clip)
    (c_clips self).

(** The composite with nothing pre-computed: no cached frame and no
    blit data, so that every layer goes through [new_blit_on] at the
    time asked. *)
Definition without_caches (self : CompositeVideoClip) : CompositeVideoClip :=
  {| c_size := c_size self; c_clips := c_clips self;
     c_bg_color := c_bg_color self; c_bg := c_bg self;
     c_created_bg := c_created_bg self; c_fps := c_fps self;
     c_duration := c_duration self; c_audio := c_audio self;
     c_mask := c_mask self; _cached_frame := None;
     _clip_blit_pil := ∅; _clip_blit_np := ∅;
     _any_masks := _any_masks self |}.

(** The freshly computed flattening at time [t]. *)
Definition fresh_frame (self : CompositeVideoClip) (t : Q)
    : Py.result (raster rgb) :=
  frame_function (without_caches self) t.

(** The claim on one composite, as the specification states it: under
    the preconditions the frame returned equals the freshly computed
    flattening at every time, and without them the cache is not used. *)
Definition static_cache_claim (self : CompositeVideoClip) : Prop :=
  (static_cache_preconditions self →
   ∀ t, result_eq (frame_function self t) (fresh_frame self t))
  ∧ (¬ static_cache_preconditions self → _cached_frame self = None).

(** What the code tests of a layer before it caches: a cached raster,
    a cached mask raster when there is a mask, and the same position at
    times 0 and 1. *)
Definition passes_static_test (clip : Clip) : Prop :=
  is_Some (_cached_pil clip)
  ∧ (∀ m, mask clip = Some m → is_Some (m_cached_pil m))
  ∧ position_eqb (pos clip 0) (pos clip 1) = true.

(** A time inside the span of the composite. *)
Definition in_span (duration : option Q) (t : Q) : Prop :=
  (0 <= t)%Q ∧ match duration with Some d => (t < d)%Q | None => True end.

(** The plane of a mask array that the blit reads. *)
Definition mask_plane (m : maskarray) : raster Z :=
  match m with
  | Mask2 r => r
  | Mask3 r => map_px (λ '(c0, _, _), c0) r
  end.

(** A layer that is static for the blits: it has a cached raster (and
    a cached mask raster when it has a mask), [new_blit_on] answers at
    every time what it answers at the start, and the frame and the
    mask it hands out are the cached ones. *)
Record static_layer (full_w full_h : Z) (clip : Clip) : Prop := {
  sl_content : immutable_content clip;
  sl_blit : ∀ t, new_blit_on clip t full_w full_h
                 = new_blit_on clip (start clip) full_w full_h;
  sl_frame : ∀ img xy m p,
    new_blit_on clip (start clip) full_w full_h = Some (img, xy, m) →
    _cached_pil clip = Some p →
    ∃ a, img = Some a ∧ raster_eq (to_rgb3 a) p;
  sl_mask : ∀ img xy m,
    new_blit_on clip (start clip) full_w full_h = Some (img, xy, m) →
    match mask clip ≫= m_cached_pil, m with
    | Some mp, Some m' => raster_eq (mask_plane m') mp
    | None, None => True
    | _, _ => False
    end;
  sl_mask_size : ∀ mp p,
    mask clip ≫= m_cached_pil = Some mp → _cached_pil clip = Some p →
    width mp = width p ∧ height mp = height p
}.

(** A background that is static: the same frame at every time, which
    is the cached image when there is one. *)
Record static_background (bg : Clip) : Prop := {
  sb_frame : ∀ t t', get_frame_uint8 bg t = get_frame_uint8 bg t';
  sb_pil : ∀ p, _cached_pil bg = Some p →
                raster_eq p (to_rgb3 (get_frame_uint8 bg 0))
}.

End Composite.

(** ** FancyText.py: the two text wrappers *)
Module Wrap.

(** [len(s)] on a string. *)
Definition len (s : string) : Z := Z.of_nat (String.length s).

Section Wrapping.
Context {Font : Type} `{!FancyText.Pil Font}.
(** [text.split()]: the words of a text. *)
Variable split : string → list string.
Variable pil_font : Font.

(** The [for word in words] loop of [_wrap_text_by_chars] and the
    final flush: the word is appended first, and when the line then is
    too long, the line without it is closed, even when that line has
    no word. *)
Fixpoint chars_loop (max_chars : Z) (words : list string)
    (lines : list string) (current : list string) : list string :=
  match words with
  | [] =>
      if Py.nonempty current then lines ++ [Py.join " " current] else lines
  | word :: rest =>
      let current1 := current ++ [word] in
      if len (Py.join " " current1) >? max_chars
      then chars_loop max_chars rest (lines ++ [Py.join " " current]) [word]
      else chars_loop max_chars rest lines current1
  end.

Definition _wrap_text_by_chars (text : string) (max_chars : Z)
    : list string :=
  chars_loop max_chars (split text) [] [].

(** The loop of [_wrap_text_by_width]: the line with the word is
    measured first, and a line is closed only when it has a word. *)
Fixpoint width_loop (max_width : Z) (words : list string)
    (lines : list string) (current : list string) : list string :=
  match words with
  | [] =>
      if Py.nonempty current then lines ++ [Py.join " " current] else lines
  | word :: rest =>
      let test := Py.join " " (current ++ [word]) in
      if FancyText._word_width pil_font test <=? max_width
      then width_loop max_width rest lines (current ++ [word])
      else width_loop max_width rest
             (if Py.nonempty current then lines ++ [Py.join " " current]
              else lines)
             [word]
  end.

Definition _wrap_text_by_width (text : string) (max_width : Z)
    : list string :=
  let lines := width_loop max_width (split text) [] [] in
  if Py.nonempty lines then lines else [text].

End Wrapping.

End Wrap.

(** ** compositing/CompositeVideoClip.py: [concatenate_videoclips] *)
Module Concatenate.

(** What [concatenate_videoclips] can raise: a Python exception, or
    its own [Exception("MoviePy Error: ...")]. *)
Inductive error : Type :=
| PyExn (e : Py.exn)
| MoviePyError (msg : string).

Definition result (A : Type) : Type := error + A.

Definition lift {A} (r : Py.result A) : result A :=
  match r with inl e => inl (PyExn e) | inr a => inr a end.

(** [np.cumsum(l)] *)
Fixpoint cumsum_from (acc : Q) (l : list Q) : list Q :=
  match l with
  | [] => []
  | x :: r => (acc + x)%Q :: cumsum_from (acc + x)%Q r
  end.

Definition cumsum (l : list Q) : list Q :=
  match l with
  | [] => []
  | x :: r => x :: cumsum_from x r
  end.

(** [[clip.duration for clip in clips]] as numbers: [np.cumsum]
    raises on a [None]. *)
Fixpoint all_set (durations : list (option Q)) : Py.result (list Q) :=
  match durations with
  | [] => Py.ret []
  | None :: _ =>
      Py.raise (Py.TypeError "unsupported operand type(s) for +")
  | Some d :: r => Py.bind (all_set r) (λ ds, Py.ret (d :: ds))
  end.

(** [max(...)] on integers. *)
Definition max_int (l : list Z) : Py.result Z :=
  match l with
  | [] => Py.raise (Py.ValueError "max() arg is an empty sequence")
  | x :: r => Py.ret (fold_left Z.max r x)
  end.

(** [timings = np.maximum(0, timings + padding * np.arange(len(timings)))]
    followed by [timings[-1] -= padding]. *)
Definition pad_timings (padding : Q) (timings : list Q) : list Q :=
  let padded :=
    imap (λ i e, Py.qmax 0 (e + padding * inject_Z (Z.of_nat i))%Q)
      timings in
  match last padded with
  | Some e => <[pred (length padded) := (e - padding)%Q]> padded
  | None => padded
  end.

(** The lines every call runs before it looks at [method]: the
    timings and the largest width and height. *)
Definition prepare (durations : list (option Q)) (sizes : list (Z * Z))
    (padding : Q) : Py.result (list Q * Z * Z) :=
  Py.bind (all_set durations) (λ ds,
    let timings := cumsum (0%Q :: ds) in
    Py.bind (max_int (map fst sizes)) (λ w,
      Py.bind (max_int (map snd sizes)) (λ h,
        Py.ret (pad_timings padding timings, w, h)))).

(** The closure [frame_function] of the "chain" method:
    [i = max([i for i, e in enumerate(timings) if e <= t])], then
    [clips[i].get_frame(t - timings[i])]. *)
Definition chain_frame {C F : Type} (get : C → Q → F) (clips : list C)
    (timings : list Q) (t : Q) : Py.result F :=
  let idxs :=
    omap (λ '(i, e), if Qle_bool e t then Some i else None)
      (Py.enumerate timings) in
  match idxs with
  | [] => Py.raise (Py.ValueError "max() arg is an empty sequence")
  | i0 :: r =>
      let i := fold_left Nat.max r i0 in
      Py.bind (Py.getitem clips (Z.of_nat i)) (λ clip,
        Py.bind (Py.getitem timings (Z.of_nat i)) (λ ti,
          Py.ret (get clip (t - ti)%Q)))
  end.

(** [max(fpss) if fpss else None] over the [fps] that are not [None]. *)
Definition highest_fps (fpss : list (option Q)) : option Q :=
  match omap id fpss with
  | [] => None
  | f :: r => Some (fold_left Py.qmax r f)
  end.

Section Concat.
Context {Frame MaskFrame Audio Comp : Type}.

(** A mask clip: it has no mask and no audio of its own. *)
Record MaskClip : Type := {
  m_duration : option Q;
  m_size : Z * Z;
  m_fps : option Q;
  m_get_frame : Q → MaskFrame
}.

Record Clip : Type := {
  duration : option Q;
  size : Z * Z;
  fps : option Q;
  audio : option Audio;
  mask : option MaskClip;
  get_frame : Q → Frame
}.

(** [ColorClip(size, color=1, is_mask=True)] *)
Variable ColorClip_mask : Z * Z → MaskClip.
(** [CompositeVideoClip([clip.with_start(t).with_position("center")
    for (clip, t) in zip(clips, timings)], size=(w, h),
    bg_color=bg_color, is_mask=is_mask)] *)
Variable compose : list (Clip * Q) → Z * Z → option Composite.color → bool
                   → Py.result Comp.

(** The concatenation of the masks: the recursive call with
    [method="chain"] and [is_mask=True]. *)
Record MaskConcatenated : Type := {
  mc_frame_function : Q → Py.result MaskFrame;
  mc_timings : list Q;
  mc_start_times : list Q;
  mc_duration : option Q;
  mc_fps : option Q
}.

(** What the call returns: the clip of the "chain" method (its frame
    function, its mask and its [clips], both set only when some clip
    has a mask) or the composite of the "compose" method, and the
    attributes set on it. *)
Record Concatenated : Type := {
  r_frame_function : option (Q → Py.result Frame);
  r_composite : option Comp;
  r_mask : option MaskConcatenated;
  r_clips : option (list Clip);
  r_timings : list Q;
  r_start_times : list Q;
  r_start : Q;
  r_duration : option Q;
  r_end : option Q;
  r_audio : option (list (Audio * Q));
  r_fps : option Q
}.

(** [get_mask(clip)] *)
Definition get_mask (clip : Clip) : MaskClip :=
  let m := default (ColorClip_mask (size clip)) (mask clip) in
  match m_duration m with
  | Some _ => m
  | None => {| m_duration := duration clip; m_size := m_size m;
               m_fps := m_fps m; m_get_frame := m_get_frame m |}
  end.

(** [concatenate_videoclips(masks, method="chain", is_mask=True)] *)
Definition concatenate_masks (masks : list MaskClip)
    : Py.result MaskConcatenated :=
  Py.bind (prepare (map m_duration masks) (map m_size masks) 0)
    (λ '(timings, _, _),
       Py.ret {| mc_frame_function := chain_frame m_get_frame masks timings;
                 mc_timings := timings;
                 mc_start_times := removelast timings;
                 mc_duration := last timings;
                 mc_fps := highest_fps (map m_fps masks) |}).

(** [[v, transition] for v in clips[:-1]], flattened by [reduce], then
    [+ [clips[-1]]]: [reduce] raises on an empty list of pairs. *)
Definition interleave (clips : list Clip) (transition : Clip)
    : Py.result (list Clip) :=
  match removelast clips with
  | [] =>
      Py.raise
        (Py.TypeError "reduce() of empty iterable with no initial value")
  | firsts =>
      Py.bind (Py.getitem clips (-1)) (λ final,
        Py.ret (concat (map (λ v, [v; transition]) firsts) ++ [final]))
  end.

(** [concatenate_videoclips] *)
Definition concatenate_videoclips (clips : list Clip) (method : string)
    (transition : option Clip) (bg_color : option Composite.color)
    (is_mask : bool) (padding : Q) : result Concatenated :=
  match lift (match transition with
              | Some tr => interleave clips tr
              | None => Py.ret clips
              end) with
  | inl e => inl e
  | inr clips =>
  match lift (prepare (map duration clips) (map size clips) padding) with
  | inl e => inl e
  | inr (timings, w, h) =>
      let finish (frame_function : option (Q → Py.result Frame))
          (composite : option Comp) (masks : option MaskConcatenated)
          (kept : option (list Clip)) : Concatenated :=
        let audio_t :=
          omap (λ '(clip, t), (λ a, (a, t)) <$> audio clip)
            (zip clips timings) in
        {| r_frame_function := frame_function;
           r_composite := composite;
           r_mask := masks;
           r_clips := kept;
           r_timings := timings;
           r_start_times := removelast timings;
           r_start := 0;
           r_duration := last timings;
           r_end := last timings;
           r_audio := if Py.nonempty audio_t then Some audio_t else None;
           r_fps := highest_fps (map fps clips) |} in
      if String.eqb method "chain" then
        let frame_function := chain_frame get_frame clips timings in
        if existsb (λ clip, bool_decide (is_Some (mask clip))) clips then
          match lift (concatenate_masks (map get_mask clips)) with
          | inl e => inl e
          | inr m =>
              inr (finish (Some frame_function) None (Some m) (Some clips))
          end
        else inr (finish (Some frame_function) None None None)
      else if String.eqb method "compose" then
        match lift (compose (zip clips timings) (w, h) bg_color is_mask) with
        | inl e => inl e
        | inr comp => inr (finish None (Some comp) None None)
        end
      else
        inl (MoviePyError
               "MoviePy Error: The 'method' argument of concatenate_videoclips must be 'chain' or 'compose'")
  end
  end.

End Concat.

End Concatenate.

(** ** Concrete inputs *)
Module Examples.

(** A font in which every character is 10 pixels wide. *)
Definition fixed_width (s : string) : Z := 10 * Z.of_nat (String.length s).

Definition five_words : list string := ["A"; "BB"; "C"; "DD"; "E"]%string.

(** A stand-in for PIL: the fixed-width font, and drawing and filters
    that leave the image as it is. *)
#[export] Instance plain_pil : FancyText.Pil unit := {|
  FancyText.textbbox _ s := (0, 0, fixed_width s, 20);
  FancyText.getbbox _ s sw := (- sw, - sw, fixed_width s + sw, 20 + sw);
  FancyText.draw_text img _ _ _ _ _ _ := img;
  FancyText.rounded_rectangle img _ _ _ _ := img;
  FancyText.gaussian_blur img _ := img;
  FancyText.gaussian_blur_L m _ := m;
  FancyText.min_filter m _ := m;
  FancyText.image_open_rgb _ := Py.raise (Py.ValueError "cannot open");
  FancyText.resize_lanczos img _ _ := img
|}.

(** A stand-in for the lighting effects: light from the left
    ([cos = 1], [sin = 0]) and effects that leave the image as it is. *)
#[export] Instance plain_lighting : FancyText.Lighting := {|
  FancyText.direction _ := (FancyText.f64_1, FancyText.f64_0);
  FancyText._fx_bevel_emboss img _ _ _ _ _ _ _ _ _ := img;
  FancyText._fx_inner_shadow img _ _ _ _ _ _ := img;
  FancyText._fx_inner_glow img _ _ _ _ _ := img
|}.

(** The defaults of [apply_advanced_effects]: every effect disabled. *)
Definition no_fx : FancyText.Fx := {|
  FancyText.inner_shadow_enabled := false;
  FancyText.inner_shadow_color := (0, 0, 0);
  FancyText.inner_shadow_offset := (3, 3);
  FancyText.inner_shadow_blur := 5;
  FancyText.inner_shadow_opacity := FancyText.f64_1;
  FancyText.inner_glow_enabled := false;
  FancyText.inner_glow_color := (255, 255, 255);
  FancyText.inner_glow_size := 6;
  FancyText.inner_glow_opacity := FancyText.f64_1;
  FancyText.gradient_overlay_enabled := false;
  FancyText.gradient_overlay_colors := [(255, 215, 0); (255, 140, 0)];
  FancyText.gradient_overlay_angle := FancyText.f64_0;
  FancyText.gradient_overlay_opacity := FancyText.f64_1;
  FancyText.bevel_emboss_enabled := false;
  FancyText.bevel_emboss_style := "inner_bevel";
  FancyText.bevel_emboss_depth := 3;
  FancyText.bevel_emboss_angle := Float.F64.of_Z 135;
  FancyText.bevel_emboss_highlight_color := (255, 255, 255);
  FancyText.bevel_emboss_shadow_color := (0, 0, 0);
  FancyText.bevel_emboss_highlight_opacity := FancyText.f64_1;
  FancyText.bevel_emboss_shadow_opacity := FancyText.f64_1;
  FancyText.bevel_emboss_soften := 0;
  FancyText.texture_enabled := false;
  FancyText.texture_path := None;
  FancyText.texture_scale := FancyText.f64_1;
  FancyText.texture_opacity := FancyText.f64_1;
  FancyText.texture_blend_mode := "overlay";
  FancyText.texture_image := None;
  FancyText.chrome_enabled := false;
  FancyText.chrome_colors := None;
  FancyText.chrome_opacity := FancyText.f64_1
|}.

Definition plain_style : FancyText.Style := {|
  FancyText.text_color := (255, 255, 255);
  FancyText.highlight_color := (255, 255, 0);
  FancyText.stroke_color := (0, 0, 0);
  FancyText.stroke_width := 4;
  FancyText.shadow_enabled := true;
  FancyText.shadow_offset := (2, 2);
  FancyText.shadow_blur := 4;
  FancyText.glow_enabled := false;
  FancyText.glow_color := (255, 255, 0);
  FancyText.glow_size := 6;
  FancyText.highlight_box_enabled := true;
  FancyText.highlight_box_color := (0, 0, 255);
  FancyText.highlight_box_radius := 8;
  FancyText.highlight_box_blur := 8;
  FancyText.highlight_box_opacity := 3 # 10
|}.

(** An [ImageClip]: one RGB raster shown at a pixel position given by
    [place], between [st] and [en], with both caches filled. *)
Definition image_clip (img : Raster.raster Raster.rgb) (place : Q → Z * Z)
    (st : Q) (en : option Q) (layer : Z) : Composite.Clip := {|
  Composite.size := (Raster.width img, Raster.height img);
  Composite.start := st;
  Composite.end_ := en;
  Composite.layer_index := layer;
  Composite.fps := None;
  Composite.audio := None;
  Composite.pos t :=
    (Composite.Num (inject_Z (place t).1),
     Composite.Num (inject_Z (place t).2));
  Composite.mask := None;
  Composite._cached_pil := Some img;
  Composite._cached_uint8 := Some (Composite.Rgb img);
  Composite.new_blit_on t _ _ :=
    Some (Some (Composite.Rgb img), place t, None);
  Composite.get_frame_uint8 _ := Composite.Rgb img
|}.

Definition color_rgb (c : Composite.color) : Raster.rgb :=
  match c with
  | Composite.ColorRGB c => c
  | Composite.ColorRGBA (r, g, b, _) => (r, g, b)
  | Composite.ColorLevel _ => (0, 0, 0)
  end.

Definition opaque_mask (sz : Z * Z) : Composite.MaskClip := {|
  Composite.m_start := 0;
  Composite.m_end := None;
  Composite.m_layer_index := 0;
  Composite.m_fps := None;
  Composite.m_pos _ := (Composite.Num 0, Composite.Num 0);
  Composite.m_cached_pil := Some (Raster.fill sz.1 sz.2 255);
  Composite.m_compose_mask m _ := m
|}.

(** A stand-in for [moviepy.video.VideoClip]: a [ColorClip] is an
    [ImageClip] of one colour. *)
#[export] Instance plain_clips : Composite.VideoClipLib := {|
  Composite.ColorClip sz c :=
    image_clip (Raster.fill sz.1 sz.2 (color_rgb c)) (λ _, (0, 0)) 0 None 0;
  Composite.ColorClip_mask sz _ := opaque_mask sz;
  Composite.with_mask_default clip := opaque_mask (Composite.size clip)
|}.

Definition red : Raster.rgb := (255, 0, 0).
Definition green : Raster.rgb := (0, 255, 0).
Definition blue : Raster.rgb := (0, 0, 255).
Definition black : Composite.color := Composite.ColorRGB (0, 0, 0).

(** What the constructor returned, or [d] when it raised. *)
Definition built (r : Py.result Composite.CompositeVideoClip)
    (d : Composite.CompositeVideoClip) : Composite.CompositeVideoClip :=
  match r with inr c => c | inl _ => d end.

Definition no_composite : Composite.CompositeVideoClip := {|
  Composite.c_size := (0, 0);
  Composite.c_clips := [];
  Composite.c_bg_color := None;
  Composite.c_bg := Composite.ColorClip (0, 0) black;
  Composite.c_created_bg := true;
  Composite.c_fps := None;
  Composite.c_duration := None;
  Composite.c_audio := None;
  Composite.c_mask := None;
  Composite._cached_frame := None;
  Composite._clip_blit_pil := ∅;
  Composite._clip_blit_np := ∅;
  Composite._any_masks := false
|}.

(** Three 2 by 2 layers over each other on a 2 by 2 canvas, for 5
    seconds: red and blue on layer 1, green, declared between them, on
    layer 0. *)
Definition three_layers : list Composite.Clip :=
  [image_clip (Raster.fill 2 2 red) (λ _, (0, 0)) 0 (Some 5%Q) 1;
   image_clip (Raster.fill 2 2 green) (λ _, (0, 0)) 0 (Some 5%Q) 0;
   image_clip (Raster.fill 2 2 blue) (λ _, (0, 0)) 0 (Some 5%Q) 1].

Definition three_layers_comp : Composite.CompositeVideoClip :=
  built (Composite.init three_layers (Some (2, 2)) (Some black) false)
    no_composite.

(** One static red pixel on a 1 by 1 canvas, for 5 seconds. *)
Definition one_pixel_comp : Composite.CompositeVideoClip :=
  built
    (Composite.init
       [image_clip (Raster.fill 1 1 red) (λ _, (0, 0)) 0 (Some 5%Q) 0]
       (Some (1, 1)) (Some black) false)
    no_composite.

(** A red pixel on a 2 by 1 canvas that sits at [x = 0] except at
    [t = 1/2], where it is at [x = 1]. *)
Definition jump (t : Q) : Z * Z := if Qeq_bool t (1 # 2) then (1, 0) else (0, 0).

Definition jumping_comp : Composite.CompositeVideoClip :=
  built
    (Composite.init
       [image_clip (Raster.fill 1 1 red) jump 0 (Some 5%Q) 0]
       (Some (2, 1)) (Some black) false)
    no_composite.

(** A copy of a clip with a frame rate. *)
Definition with_fps (c : Composite.Clip) (f : option Q) : Composite.Clip := {|
  Composite.size := Composite.size c;
  Composite.start := Composite.start c;
  Composite.end_ := Composite.end_ c;
  Composite.layer_index := Composite.layer_index c;
  Composite.fps := f;
  Composite.audio := Composite.audio c;
  Composite.pos := Composite.pos c;
  Composite.mask := Composite.mask c;
  Composite._cached_pil := Composite._cached_pil c;
  Composite._cached_uint8 := Composite._cached_uint8 c;
  Composite.new_blit_on := Composite.new_blit_on c;
  Composite.get_frame_uint8 := Composite.get_frame_uint8 c
|}.

(** Two layers at 24 and 30 frames per second, and one without a
    frame rate. *)
Definition mixed_rates : list Composite.Clip :=
  [with_fps (image_clip (Raster.fill 2 2 red) (λ _, (0, 0)) 0 (Some 5%Q) 0)
     (Some 24%Q);
   with_fps (image_clip (Raster.fill 2 2 green) (λ _, (0, 0)) 0 (Some 3%Q) 0)
     (Some 30%Q);
   image_clip (Raster.fill 2 2 blue) (λ _, (0, 0)) 0 (Some 4%Q) 0].

Definition mixed_rates_comp : Composite.CompositeVideoClip :=
  built (Composite.init mixed_rates (Some (2, 2)) (Some black) false)
    no_composite.

(** The three layers again, on a transparent background. *)
Definition transparent_comp : Composite.CompositeVideoClip :=
  built (Composite.init three_layers (Some (2, 2)) None false) no_composite.

(** A composite of one moving layer that plays for 5 seconds; nothing
    is cached for it. *)
Definition slide (t : Q) : Z * Z := if Qle_bool 1 t then (1, 0) else (0, 0).

Definition jumping_idle : Composite.CompositeVideoClip :=
  built
    (Composite.init
       [image_clip (Raster.fill 1 1 red) slide 0 (Some 5%Q) 0]
       (Some (2, 1)) (Some black) false)
    no_composite.

(** A stand-in for numpy's generator: the state is a counter, a draw
    fills the array with the counter modulo 256. *)
#[export] Instance plain_numpy : FancyText.Numpy := {|
  FancyText.RandomState := Z;
  FancyText.random_state seed :=
    if seed <? 0 then Py.raise (Py.ValueError "Seed must be between 0 and 2**32 - 1")
    else Py.ret seed;
  FancyText.randint rng h w := (Raster.fill w h (rng mod 256), rng + 1);
  FancyText.exp32 _ := FancyText.f32_1
|}.

(** Clips for [concatenate_videoclips]: a frame is the name of the
    clip with the local time. *)
Definition take_clip (name : string) (d : Q) (sz : Z * Z)
    : Concatenate.Clip (Frame := string * Q) (MaskFrame := unit)
        (Audio := unit) := {|
  Concatenate.duration := Some d;
  Concatenate.size := sz;
  Concatenate.fps := None;
  Concatenate.audio := None;
  Concatenate.mask := None;
  Concatenate.get_frame t := (name, t)
|}.

Definition no_mask (sz : Z * Z) : Concatenate.MaskClip (MaskFrame := unit) := {|
  Concatenate.m_duration := None;
  Concatenate.m_size := sz;
  Concatenate.m_fps := None;
  Concatenate.m_get_frame _ := tt
|}.

Definition no_compose
    (layers : list (Concatenate.Clip (Frame := string * Q)
                      (MaskFrame := unit) (Audio := unit) * Q))
    (sz : Z * Z) (bg : option Composite.color) (is_mask : bool)
    : Py.result unit := Py.ret tt.

Definition two_takes := [take_clip "A" 2 (4, 3); take_clip "B" 3 (2, 5)].

(** A clip whose duration is not set. *)
Definition endless_clip
    : Concatenate.Clip (Frame := string * Q) (MaskFrame := unit)
        (Audio := unit) := {|
  Concatenate.duration := None;
  Concatenate.size := (4, 3);
  Concatenate.fps := None;
  Concatenate.audio := None;
  Concatenate.mask := None;
  Concatenate.get_frame t := ("E", t)
|}.

(** A clip with a mask whose duration is not set. *)
Definition masked_clip (name : string) (d : Q) (sz : Z * Z)
    : Concatenate.Clip (Frame := string * Q) (MaskFrame := unit)
        (Audio := unit) := {|
  Concatenate.duration := Some d;
  Concatenate.size := sz;
  Concatenate.fps := None;
  Concatenate.audio := None;
  Concatenate.mask := Some (no_mask sz);
  Concatenate.get_frame t := (name, t)
|}.

Definition masked_takes := [masked_clip "A" 2 (4, 3); take_clip "B" 3 (2, 5)].

End Examples.

(** * Properties *)

(** [x >? y] read as an inequality, in a hypothesis or in the goal. *)
Ltac zgtb H :=
  rewrite Z.gtb_ltb in H;
  first [apply Z.ltb_ge in H | apply Z.ltb_lt in H].
Ltac zgtb_goal :=
  rewrite Z.gtb_ltb; first [apply Z.ltb_ge | apply Z.ltb_lt].

(** ** The line packer *)
Module LineGroupingFacts.
Import FancyText.

Section Packer.
Variable text_width : string → Z.
Variables max_words max_width_px : Z.

Local Abbreviation loop :=
  (group_loop text_width max_words max_width_px).

(** The loop only ever moves words from the input to the current
    line and from the current line to the closed lines. *)
Lemma group_loop_concat (words : list string) :
  ∀ lines current,
    concat (loop words lines current) = concat lines ++ current ++ words.
Proof.
  induction words as [|word rest IH]; intros lines current; simpl.
  - destruct current; simpl.
    + by rewrite !app_nil_r.
    + rewrite concat_app. simpl. by rewrite !app_nil_r.
  - repeat case_match; rewrite IH; simpl;
      rewrite ?concat_app; simpl; rewrite ?app_nil_r, <- ?app_assoc;
      simpl; try done.
    all: by destruct current.
Qed.

(** A line is closed only when it is not empty. *)
Lemma closed_line_nonempty (lines : list (list string))
    (current : list string) :
  Forall (λ l, l ≠ []) lines →
  Forall (λ l, l ≠ [])
    (if Py.nonempty current then lines ++ [current] else lines).
Proof.
  intros Hl. destruct current; simpl; [done|].
  apply Forall_app; split; [done|]. by constructor.
Qed.

Lemma group_loop_nonempty (words : list string) :
  ∀ lines current,
    Forall (λ l, l ≠ []) lines →
    Forall (λ l, l ≠ []) (loop words lines current).
Proof.
  induction words as [|word rest IH]; intros lines current Hl; simpl.
  - by apply closed_line_nonempty.
  - destruct (Z.of_nat (length (current ++ [word])) >? max_words).
    + by apply IH, closed_line_nonempty.
    + destruct (text_width _ >? max_width_px); simpl; [|by apply IH].
      destruct (Py.nonempty current) eqn:Hne; [|by apply IH].
      apply IH. generalize (closed_line_nonempty lines current Hl).
      by rewrite Hne.
Qed.

(** With a positive cap no line grows past it. *)
Lemma group_loop_bound (words : list string) :
  1 ≤ max_words →
  ∀ lines current,
    Forall (λ l : list string, Z.of_nat (length l) ≤ max_words) lines →
    Z.of_nat (length current) ≤ max_words →
    Forall (λ l : list string, Z.of_nat (length l) ≤ max_words)
      (loop words lines current).
Proof.
  intros Hm.
  induction words as [|word rest IH]; intros lines current Hl Hc; simpl.
  - destruct current; simpl; [done|].
    apply Forall_app; split; [done|]. by constructor.
  - destruct (Z.of_nat (length (current ++ [word])) >? max_words) eqn:Hgt.
    + apply IH; [|simpl; lia].
      destruct current; simpl; [done|].
      apply Forall_app; split; [done|]. by constructor.
    + zgtb Hgt.
      case_match.
      * apply IH; [|simpl; lia].
        apply Forall_app; split; [done|]. by constructor.
      * by apply IH.
Qed.

Lemma prefix_in_inits {A} (c post : list A) : c ∈ inits (c ++ post).
Proof.
  induction c as [|x c IH]; simpl.
  - destruct post; simpl; apply list_elem_of_here.
  - apply list_elem_of_further, list_elem_of_fmap. eauto.
Qed.

Lemma infix_in_segments {A} (pre c post : list A) :
  c ∈ segments (pre ++ c ++ post).
Proof.
  induction pre as [|a pre IH]; simpl.
  - destruct (c ++ post) eqn:E.
    + apply app_eq_nil in E as [-> _]. apply list_elem_of_here.
    + apply elem_of_app; left. rewrite <- E. apply prefix_in_inits.
  - apply list_elem_of_further, elem_of_app; right. apply IH.
Qed.

Lemma ceil_div_step (a m : Z) :
  1 ≤ m → ceil_div (m + a) m = 1 + ceil_div a m.
Proof.
  intros Hm. unfold ceil_div.
  replace (m + a + m - 1) with (a + m - 1 + 1 * m) by lia.
  rewrite Z.div_add by lia. lia.
Qed.

Lemma ceil_div_small (a m : Z) : 1 ≤ a ≤ m → ceil_div a m = 1.
Proof.
  intros Ha. unfold ceil_div.
  symmetry. apply (Z.div_unique (a + m - 1) m 1 (a - 1)); lia.
Qed.

Lemma ceil_div_0 (m : Z) : 1 ≤ m → ceil_div 0 m = 0.
Proof. intros Hm. unfold ceil_div. apply Z.div_small. lia. Qed.

(** When no candidate line is ever too wide, the loop cuts exactly
    every [max_words] words. *)
Lemma group_loop_exact (all_words : list string) :
  1 ≤ max_words →
  Forall (λ c, text_width (Py.join " " c) ≤ max_width_px)
    (segments all_words) →
  ∀ words lines current pre,
    all_words = pre ++ current ++ words →
    Z.of_nat (length current) ≤ max_words →
    Z.of_nat (length (loop words lines current))
    = Z.of_nat (length lines)
      + ceil_div (Z.of_nat (length current + length words)) max_words.
Proof.
  intros Hm Hfit.
  induction words as [|word rest IH]; intros lines current pre Hall Hc;
    simpl.
  - rewrite Nat.add_0_r. destruct current as [|w cur]; simpl.
    + rewrite ceil_div_0 by done. lia.
    + rewrite length_app. simpl length.
      rewrite ceil_div_small; [lia|]. simpl in Hc. lia.
  - destruct (Z.of_nat (length (current ++ [word])) >? max_words) eqn:Hgt.
    + zgtb Hgt. rewrite length_app in Hgt. simpl in Hgt.
      assert (Z.of_nat (length current) = max_words) as Hfull by lia.
      rewrite (IH _ [word] (pre ++ current));
        [|rewrite Hall, <- app_assoc; done|simpl; lia].
      replace (Z.of_nat (length current + S (length rest)))
        with (max_words + Z.of_nat (length [word] + length rest))
        by (simpl; lia).
      rewrite ceil_div_step by done.
      destruct current; simpl in *; [lia|].
      rewrite length_app. simpl. lia.
    + assert ((text_width (Py.join " " (current ++ [word]))
                 >? max_width_px) = false) as ->.
      { zgtb_goal.
        rewrite Forall_forall in Hfit. apply Hfit.
        rewrite Hall.
        replace (current ++ word :: rest)
          with ((current ++ [word]) ++ rest)
          by (by rewrite <- app_assoc).
        apply infix_in_segments. }
      simpl.
      zgtb Hgt.
      rewrite (IH _ (current ++ [word]) pre);
        [|rewrite Hall, <- app_assoc; done|done].
      rewrite length_app. simpl. do 2 f_equal. lia.
Qed.

(** The number of lines is at least [ceil(n / max_words)] as soon as
    they hold the [n] words and none is longer than [max_words]. *)
Lemma lines_count_lower (lines : list (list string)) :
  1 ≤ max_words →
  Forall (λ l : list string, Z.of_nat (length l) ≤ max_words) lines →
  ceil_div (Z.of_nat (length (concat lines))) max_words
  ≤ Z.of_nat (length lines).
Proof.
  intros Hm Hb.
  assert (Z.of_nat (length (concat lines))
          ≤ max_words * Z.of_nat (length lines)) as Hsum.
  { induction Hb as [|l ls Hl _ IH]; simpl; [lia|].
    rewrite length_app. lia. }
  unfold ceil_div.
  apply Z.lt_succ_r, Z.div_lt_upper_bound; lia.
Qed.

End Packer.



End LineGroupingFacts.

(** ** The frame lookup of a line clip *)
Module FrameSelectionFacts.
Import FancyText.

(** On a non-negative number [int()] is the floor. *)
Lemma int_of_floor (q : Q) : (0 <= q)%Q → Py.int_of q = Qfloor q.
Proof.
  destruct q as [n d]. unfold Qle, Py.int_of, Qfloor. simpl. intros Hn.
  apply Z.quot_div_nonneg; lia.
Qed.

Lemma quotient_nonneg (t wd : Q) : (0 < wd)%Q → (0 <= t)%Q → (0 <= t / wd)%Q.
Proof.
  intros Hwd Ht. apply Qle_shift_div_l; [done|]. by rewrite Qmult_0_l.
Qed.

Lemma quotient_mono (t t' wd : Q) :
  (0 < wd)%Q → (t <= t')%Q → (t / wd <= t' / wd)%Q.
Proof.
  intros Hwd Ht. unfold Qdiv. apply Qmult_le_compat_r; [done|].
  apply Qlt_le_weak, Qinv_lt_0_compat, Hwd.
Qed.

Lemma positive_not_zero (wd : Q) : (0 < wd)%Q → Qeq_bool wd 0 = false.
Proof.
  intros Hwd. destruct (Qeq_bool wd 0) eqn:E; [|done].
  apply Qeq_bool_eq in E. rewrite E in Hwd. by apply Qlt_irrefl in Hwd.
Qed.

(** [frame_index] is the clamped floor, stays below the number of
    words and never goes down. *)
Lemma frame_index_spec (t wd : Q) (n : Z) :
  (0 < wd)%Q → (0 <= t)%Q → 1 ≤ n →
  frame_index t wd n = Py.ret (Z.min (Qfloor (t / wd)) (n - 1))
  ∧ 0 ≤ Z.min (Qfloor (t / wd)) (n - 1) ≤ n - 1.
Proof.
  intros Hwd Ht Hn. unfold frame_index.
  rewrite positive_not_zero by done.
  rewrite int_of_floor by (by apply quotient_nonneg).
  split; [done|].
  assert (0 ≤ Qfloor (t / wd)).
  { change 0 with (Qfloor 0). apply Qfloor_resp_le.
    by apply quotient_nonneg. }
  lia.
Qed.

Lemma getitem_in_range {A} (l : list A) (i : Z) :
  0 ≤ i < Z.of_nat (length l) →
  ∃ a, l !! Z.to_nat i = Some a ∧ Py.getitem l i = Py.ret a.
Proof.
  intros Hi. unfold Py.getitem.
  destruct (i <? 0) eqn:E; [apply Z.ltb_lt in E; lia|].
  assert ((0 <=? i) && (i <? Z.of_nat (length l)) = true) as ->.
  { apply andb_true_iff. split; [apply Z.leb_le|apply Z.ltb_lt]; lia. }
  destruct (lookup_lt_is_Some_2 l (Z.to_nat i)) as [a Ha]; [lia|].
  exists a. by rewrite Ha.
Qed.

(** Once the index is known the clip hands out that frame and its
    alpha frame. *)
Lemma line_clip_at (frames : list image) (wd t : Q) (n idx : Z)
    (line_start line_dur : Q) (y_pos : Z) :
  frame_index t wd n = Py.ret idx →
  0 ≤ idx < Z.of_nat (length frames) →
  let clip := line_clip frames wd n line_start line_dur y_pos in
  ∃ f, frames !! Z.to_nat idx = Some f
       ∧ lc_frame_function clip t = Py.ret (Raster.rgb_of f)
       ∧ lc_mask_frame_function clip t = Py.ret (alpha_frame f).
Proof.
  intros Hidx Hin clip.
  destruct (getitem_in_range frames idx) as (f & Hf & _); [done|].
  exists f. split; [done|].
  unfold clip, line_clip, _make_frame, _make_mask_frame.
  cbn [lc_frame_function lc_mask_frame_function].
  rewrite Hidx. cbn [Py.bind Py.ret].
  destruct (getitem_in_range (map Raster.rgb_of frames) idx)
    as (a & Ha & ->); [by rewrite length_map|].
  destruct (getitem_in_range (map alpha_frame frames) idx)
    as (b & Hb & ->); [by rewrite length_map|].
  change (map ?g ?l) with (g <$> l) in Ha, Hb.
  rewrite list_lookup_fmap, Hf in Ha. rewrite list_lookup_fmap, Hf in Hb.
  simpl in Ha, Hb. by simplify_eq.
Qed.



End FrameSelectionFacts.

(** ** The per-line frame cache of [_render_fancytext_frame] *)
Module FrameCacheFacts.
Import FancyText.

Section Cache.
Context {Font : Type} `{!Pil Font}.
Variable pil_font : Font.

Lemma word_xs_from_length (words : list string) :
  ∀ x, length (word_xs_from pil_font x words) = length words.
Proof. induction words; intros x; simpl; [done|]. by rewrite IHwords. Qed.

(** The highlight boxes are either absent or one per word. *)
Lemma hi_boxes_length (words : list string) (fw : Z) (sty : Style) :
  let p := line_pieces pil_font words fw sty in
  p_hi_boxes p = [] ∨ length (p_hi_boxes p) = length words.
Proof.
  unfold line_pieces. destruct (_text_bbox _ _) as [tw th]. simpl.
  destruct (highlight_box_enabled sty); [right|by left].
  rewrite length_map, length_zip, word_xs_from_length. lia.
Qed.

Lemma assemble_frame_ok (base : image) (fw h : Z)
    (boxes wn wh : list (image * Z * Z)) (hi : nat) :
  boxes = [] ∨ (hi < length boxes)%nat →
  ∃ r, assemble_frame base fw h boxes wn wh hi = Py.ret r.
Proof.
  intros Hb. unfold assemble_frame.
  assert (∃ fr0,
    (if Py.nonempty boxes then
       Py.bind (Py.getitem boxes (Z.of_nat hi)) (λ '(bimg, bpx, bpy),
         Py.ret (paste_self base bimg bpx bpy))
     else Py.ret base) = Py.ret fr0) as [fr0 ->].
  { destruct Hb as [->|Hlt]; [by eexists|].
    destruct boxes as [|b0 bs]; [by eexists|]. cbn [Py.nonempty].
    destruct (FrameSelectionFacts.getitem_in_range (b0 :: bs)
                (Z.of_nat hi)) as (b & _ & Hget); [lia|].
    rewrite Hget. simpl.
    destruct b as [[bimg bpx] bpy]. by eexists. }
  simpl. destruct (fold_left _ _ _) as [fr tx]. by eexists.
Qed.

Lemma variant_ok (words : list string) (fw : Z) (sty : Style) (hi : nat) :
  (hi < length words)%nat →
  ∃ r, variant pil_font words fw sty hi = Py.ret r.
Proof.
  intros Hhi. unfold variant. apply assemble_frame_ok.
  destruct (hi_boxes_length words fw sty) as [H|H]; [by left|right].
  by rewrite H.
Qed.

(** [assemble_all] succeeds when every frame does, and then holds
    the frames in the order of the indices. *)
Lemma assemble_all_spec (f : nat → Py.result (image * mask))
    (his : list nat) :
  (∀ hi, hi ∈ his → ∃ r, f hi = Py.ret r) →
  ∃ fs ms,
    assemble_all f his = Py.ret (fs, ms)
    ∧ length fs = length his
    ∧ ∀ k hi, his !! k = Some hi →
        ∃ fr m, f hi = Py.ret (fr, m) ∧ fs !! k = Some fr
                ∧ ms !! k = Some m.
Proof.
  induction his as [|h r IH]; intros Hok; simpl.
  - exists [], []. split; [done|]. split; [done|]. intros k hi Hk. done.
  - destruct (Hok h) as [[fr m] Hf]; [apply list_elem_of_here|].
    destruct IH as (fs & ms & Hall & Hlen & Hlook).
    { intros hi Hin. apply Hok. by apply list_elem_of_further. }
    rewrite Hf, Hall. simpl.
    exists (fr :: fs), (m :: ms). split; [done|]. split; [simpl; lia|].
    intros [|k] hi Hk; simpl in *.
    + simplify_eq. by exists fr, m.
    + by apply Hlook.
Qed.

(** The cold path never raises: it returns one frame per word, the
    [k]-th being the variant that highlights word [k]. *)
Lemma render_all_spec (words : list string) (fw : Z) (sty : Style) :
  ∃ fs ms xs x y,
    render_all pil_font words fw sty = Py.ret (fs, ms, xs, x, y)
    ∧ length fs = length words
    ∧ ∀ k, (k < length words)%nat →
        ∃ fr m, variant pil_font words fw sty k = Py.ret (fr, m)
                ∧ fs !! k = Some fr.
Proof.
  unfold render_all.
  destruct (assemble_all_spec (variant pil_font words fw sty)
              (seq 0 (length words)))
    as (fs & ms & Hall & Hlen & Hlook).
  { intros hi Hin. apply variant_ok.
    apply elem_of_seq in Hin. lia. }
  rewrite Hall. simpl. do 5 eexists. split; [done|].
  split; [by rewrite Hlen, length_seq|].
  intros k Hk.
  destruct (Hlook k k) as (fr & m & Hv & Hfs & _).
  { by apply lookup_seq_lt. }
  by exists fr, m.
Qed.

(** What a first call on a line cache without frames leaves in it. *)
Lemma first_call_populates (words : list string) (fw hi0 : Z)
    (sty : Style) (cache0 : gmap string CacheVal) :
  cache0 !! "np_frames" = None →
  ∃ fs ms xs x y cache1,
    render_all pil_font words fw sty = Py.ret (fs, ms, xs, x, y)
    ∧ _render_fancytext_frame pil_font words fw hi0 sty (Some cache0)
      = (Py.getitem fs (Z.max 0 hi0), Some cache1)
    ∧ cache1 !! "np_frames" = Some (VFrames fs).
Proof.
  intros Hfresh.
  destruct (render_all_spec words fw sty)
    as (fs & ms & xs & x & y & Hall & _).
  exists fs, ms, xs, x, y. eexists. split; [exact Hall|].
  unfold _render_fancytext_frame. rewrite Hfresh, Hall.
  split; [reflexivity|].
  by repeat (rewrite lookup_insert_ne by done); rewrite lookup_insert_eq.
Qed.

(** A call on a populated cache reads the list it holds. *)
Lemma fast_path (words : list string) (fw hi : Z) (sty : Style)
    (cache : gmap string CacheVal) (fs : list image) :
  cache !! "np_frames" = Some (VFrames fs) →
  _render_fancytext_frame pil_font words fw hi sty (Some cache)
  = (Py.getitem fs (Z.max 0 hi), Some cache).
Proof. intros Hc. unfold _render_fancytext_frame. by rewrite Hc. Qed.

End Cache.

(** C10. After a first call has populated the cache of a line of at
    least one word, the cache holds exactly one frame per word, the
    [k]-th highlighting word [k] (so no frame without a highlight),
    and every call with a negative [highlight_index] returns, without
    raising, the frame that highlights word 0: the same frame as
    [highlight_index = 0]. *)
Theorem negative_highlight_index_is_first_word {Font : Type} `{!Pil Font}
    (pil_font : Font) (words : list string) (fw hi0 hi : Z) (sty : Style)
    (cache0 : gmap string CacheVal) :
  words ≠ [] → cache0 !! "np_frames" = None → hi < 0 →
  let populated :=
    (_render_fancytext_frame pil_font words fw hi0 sty (Some cache0)).2 in
  ∃ fs frame0 mask0,
    populated ≫= (.!! "np_frames") = Some (VFrames fs)
    ∧ length fs = length words
    ∧ (∀ k, (k < length words)%nat →
         ∃ fr m, variant pil_font words fw sty k = Py.ret (fr, m)
                 ∧ fs !! k = Some fr)
    ∧ variant pil_font words fw sty 0 = Py.ret (frame0, mask0)
    ∧ _render_fancytext_frame pil_font words fw hi sty populated
      = (Py.ret frame0, populated)
    ∧ _render_fancytext_frame pil_font words fw 0 sty populated
      = (Py.ret frame0, populated).
Proof.
  intros Hne Hfresh Hneg populated.
  destruct (first_call_populates pil_font words fw hi0 sty cache0 Hfresh)
    as (fs & ms & xs & x & y & cache1 & Hall & Hcall & Hc1).
  destruct (render_all_spec pil_font words fw sty)
    as (fs' & ms' & xs' & x' & y' & Hall' & Hlen & Hvar).
  rewrite Hall in Hall'. simplify_eq.
  assert (populated = Some cache1) as Hpop
    by (unfold populated; by rewrite Hcall).
  destruct (Hvar 0%nat) as (frame0 & mask0 & Hv0 & Hfs0).
  { destruct words; [done|]. simpl. lia. }
  assert (Py.getitem fs' 0 = Py.ret frame0) as Hget.
  { destruct (FrameSelectionFacts.getitem_in_range fs' 0)
      as (a & Ha & ->).
    - rewrite Hlen. destruct words; [done|]. simpl. lia.
    - change (Z.to_nat 0) with 0%nat in Ha. rewrite Hfs0 in Ha.
      by simplify_eq. }
  exists fs', frame0, mask0. rewrite Hpop.
  split; [exact Hc1|]. split; [exact Hlen|]. split; [exact Hvar|].
  split; [exact Hv0|].
  rewrite !(fast_path pil_font words fw _ sty cache1 fs' Hc1).
  replace (Z.max 0 hi) with 0 by lia.
  change (Z.max 0 0) with 0. by rewrite Hget.
Qed.

Import Examples.

Lemma negative_highlight_index_witness :
  let words := ["HELLO"; "WORLD"]%string in
  let populated :=
    (_render_fancytext_frame tt words 640 0 Examples.plain_style
       (Some (∅ : gmap string CacheVal))).2 in
  words ≠ [] ∧ (∅ : gmap string CacheVal) !! "np_frames" = None ∧ -1 < 0
  ∧ ∃ frame0 mask0,
      variant tt words 640 Examples.plain_style 0 = Py.ret (frame0, mask0)
      ∧ _render_fancytext_frame tt words 640 (-1) Examples.plain_style
          populated
        = (Py.ret frame0, populated).
Proof.
  intros words populated.
  assert (words ≠ []) as Hne by discriminate.
  assert ((∅ : gmap string CacheVal) !! "np_frames" = None) as Hfresh
    by reflexivity.
  assert (-1 < 0) as Hneg by lia.
  split; [exact Hne|]. split; [exact Hfresh|]. split; [exact Hneg|].
  destruct (negative_highlight_index_is_first_word tt words 640 0 (-1)
              Examples.plain_style ∅ Hne Hfresh Hneg)
    as (fs & frame0 & mask0 & _ & _ & _ & Hv & Hcall & _).
  exists frame0, mask0. split; [exact Hv|exact Hcall].
Defined.

End FrameCacheFacts.

(** ** The effect pipeline and the texture effect *)
Module EffectFacts.
Import FancyText.

(** C6. With every effect disabled, [apply_advanced_effects] returns
    the frame array it was given, whatever the mask, the stroke width
    and the parameters of the effects. *)
Theorem effects_disabled_identity {Font : Type} `{!Pil Font} `{!Lighting}
    (frame_arr : image) (text_mask_arr : mask) (stroke_w : Z) (fx : Fx) :
  chrome_enabled fx = false →
  gradient_overlay_enabled fx = false →
  texture_enabled fx = false →
  bevel_emboss_enabled fx = false →
  inner_shadow_enabled fx = false →
  inner_glow_enabled fx = false →
  apply_advanced_effects frame_arr text_mask_arr stroke_w fx
  = Py.ret frame_arr.
Proof.
  intros Hc Hg Ht Hb Hs Hi. unfold apply_advanced_effects.
  by rewrite Hc, Hg, Ht, Hb, Hs, Hi.
Qed.

Import Examples.

Lemma effects_disabled_identity_witness :
  let frame := Raster.fill 4 2 (10, 20, 30, 255) in
  apply_advanced_effects frame (Raster.fill 4 2 255) 4 no_fx
  = Py.ret frame.
Proof.
  intros frame.
  exact (effects_disabled_identity frame (Raster.fill 4 2 255) 4 no_fx
           eq_refl eq_refl eq_refl eq_refl eq_refl eq_refl).
Defined.

(** C8. Without an in-memory texture, and with no path or with a path
    that [Image.open] cannot load, [_fx_texture] returns its input
    image and does not raise. *)
Theorem texture_load_failure_is_noop {Font : Type} `{!Pil Font}
    (img : image) (text_mask : mask) (path : option string)
    (scale opacity : Float.float) (blend_mode : string) :
  (path = None ∨ ∃ p e, path = Some p ∧ image_open_rgb p = Py.raise e) →
  _fx_texture img text_mask path scale opacity blend_mode None
  = Py.ret img.
Proof.
  intros [->|(p & e & -> & Hopen)]; unfold _fx_texture; [done|].
  by rewrite Hopen.
Qed.

Lemma texture_load_failure_witness :
  let img := Raster.fill 4 2 (10, 20, 30, 255) in
  (∃ p e, Some "missing.png"%string = Some p ∧ image_open_rgb p = Py.raise e)
  ∧ _fx_texture img (Raster.fill 4 2 255) (Some "missing.png"%string)
      f64_1 f64_1 "overlay" None
    = Py.ret img.
Proof.
  intros img.
  assert (∃ p e, Some "missing.png"%string = Some p
                 ∧ image_open_rgb p = Py.raise e) as Hfail.
  { exists "missing.png"%string, (Py.ValueError "cannot open").
    split; reflexivity. }
  split; [exact Hfail|].
  exact (texture_load_failure_is_noop img (Raster.fill 4 2 255)
           (Some "missing.png"%string) f64_1 f64_1 "overlay"
           (or_intror Hfail)).
Defined.

End EffectFacts.

(** ** The procedural texture generator *)
Module TextureFacts.
Import FancyText.

Section Generator.
Context {Font : Type} `{!Pil Font} `{!Numpy}.

(** The octave loop reads nothing but the draws of its own generator:
    its sum is a fold over the noise stream of that generator. *)
Lemma octaves_stream (width height roughness : Z) (todo : list nat) :
  ∀ rng composite,
    (octaves width height roughness todo rng composite).1
    = fold_left (add_octave roughness)
        (zip todo (noise_stream width height (length todo) rng)) composite.
Proof.
  induction todo as [|octave r IH]; intros rng composite; simpl; [done|].
  destruct (randint rng height width) as [noise rng'] eqn:E. simpl.
  by rewrite IH.
Qed.

End Generator.


End TextureFacts.

(** ** The gradient overlay *)
Module GradientFacts.
Import FancyText.

(** A check on every byte value is a check on one list. *)
Lemma forall_bytes (P : Z → bool) :
  forallb P (map Z.of_nat (seq 0 256)) = true →
  ∀ v, 0 ≤ v ≤ 255 → P v = true.
Proof.
  intros Hall v Hv. rewrite forallb_forall in Hall. apply Hall.
  apply in_map_iff. exists (Z.to_nat v). split; [lia|].
  apply in_seq. lia.
Qed.

(** A fully opaque layer pixel replaces the pixel below it. *)
Lemma alpha_composite_opaque (dst : Raster.rgba) (r g b : Z) :
  0 ≤ r ≤ 255 → 0 ≤ g ≤ 255 → 0 ≤ b ≤ 255 →
  Raster.alpha_composite_px dst (r, g, b, 255) = (r, g, b, 255).
Proof.
  intros Hr Hg Hb. destruct dst as [[[dr dg] db] da].
  unfold Raster.alpha_composite_px.
  change (255 =? 0) with false. cbv beta iota.
  replace (da * (255 - 255)) with 0 by lia.
  change (255 * 255 + 0) with 65025.
  change (255 * 255 * 255 * 128 / 65025) with 32640.
  change (255 * 128 - 32640) with 0.
  assert (∀ s d, 0 ≤ s ≤ 255 →
    Z.shiftr (Raster.shift_div255 (s * 32640 + d * 0 + 128 * 128)) 7 = s)
    as Hch.
  { intros s d Hs. rewrite Z.mul_0_r, Z.add_0_r.
    apply Z.eqb_eq.
    apply (forall_bytes (λ s,
      Z.shiftr (Raster.shift_div255 (s * 32640 + 128 * 128)) 7 =? s));
      [by vm_compute|done]. }
  by rewrite !Hch.
Qed.

(** A transparent layer pixel leaves the pixel below it. *)
Lemma alpha_composite_transparent (dst : Raster.rgba) (r g b : Z) :
  Raster.alpha_composite_px dst (r, g, b, 0) = dst.
Proof. by destruct dst as [[[dr dg] db] da]. Qed.

(** Where the mask is 0 the overlay gets alpha 0, at any opacity. *)
Lemma overlay_alpha_zero (opacity : Float.float) : overlay_alpha opacity 0 = 0.
Proof.
  unfold overlay_alpha.
  change (Float.F32.mul (Float.F32.div (Float.F32.of_Z 0) f32_255) f32_255)
    with (S754_zero false).
  by destruct (Float.F32.round (clamp_opacity opacity)) as [[]|[]| |[] m e].
Qed.

Section Overlay.
Context {Font : Type} `{!Pil Font} `{!Lighting}.

(** The part of the round trip that holds: with at least one stop the
    overlay succeeds, keeps the size of the image and leaves every
    pixel where the mask is 0 as it was. *)
Lemma gradient_overlay_mask_zero (img : image) (text_mask : mask)
    (colors : list Raster.rgb) (angle opacity : Float.float) :
  colors ≠ [] →
  ∃ out,
    _fx_gradient_overlay img text_mask (Some colors) angle opacity
    = Py.ret out
    ∧ Raster.width out = Raster.width img
    ∧ Raster.height out = Raster.height img
    ∧ ∀ x y, Raster.px text_mask x y = 0 →
        Raster.px out x y = Raster.px img x y.
Proof.
  intros Hne.
  unfold _fx_gradient_overlay, gradient_layer, _create_linear_gradient.
  destruct (direction angle) as [cos_a sin_a].
  destruct colors as [|c0 cs]; [done|]. simpl.
  eexists. split; [reflexivity|]. split; [done|]. split; [done|].
  intros x y Hm. simpl. rewrite Hm.
  destruct (gradient_px _ _ _ _ _ _ _) as [[[r g] b] a].
  rewrite overlay_alpha_zero. apply alpha_composite_transparent.
Qed.

End Overlay.

(** C7, at the input where it fails.  An image 12 pixels wide, the mask
    at 255, two identical white stops, angle 0 (so [cos = 1] and
    [sin = 0]) and opacity 1: the gradient image, the overlay layer and
    the composited result all hold [(254, 254, 254)] at [x = 1], not the
    colour of the stops.  In [float32], [t = 2796203 / 2^25] there,
    [1 - t] rounds down, and [255 * (1 - t) + 255 * t] comes out as
    [254.99998], which [astype(np.uint8)] truncates. *)
Theorem gradient_identical_stops_off_by_one {Font : Type} `{!Pil Font}
    `{!Lighting} (img : image) (text_mask : mask) (angle : Float.float) :
  direction angle = (f64_1, f64_0) →
  Raster.width img = 12 → Raster.height img = 1 →
  Raster.px text_mask 1 0 = 255 →
  let white := (255, 255, 255) in
  ∃ gradient layer out,
    _create_linear_gradient 12 1 [white; white] angle = Py.ret gradient
    ∧ Raster.px gradient 1 0 = (254, 254, 254, 255)
    ∧ gradient_layer 12 1 text_mask [white; white] angle f64_1
      = Py.ret layer
    ∧ Raster.px layer 1 0 = (254, 254, 254, 255)
    ∧ _fx_gradient_overlay img text_mask (Some [white; white]) angle f64_1
      = Py.ret out
    ∧ Raster.px out 1 0 = (254, 254, 254, 255).
Proof.
  intros Hdir Hw Hh Hm white. subst white.
  unfold _fx_gradient_overlay, gradient_layer, _create_linear_gradient.
  rewrite Hdir, Hw, Hh. cbn [default Py.bind Py.ret].
  do 3 eexists.
  split; [reflexivity|]. split; [by vm_compute|].
  split; [reflexivity|].
  assert (gradient_px 12 1 [(255, 255, 255); (255, 255, 255)] f64_1 f64_0
            1 0
          = (254, 254, 254, 255)) as Hpx by (by vm_compute).
  assert (overlay_alpha f64_1 255 = 255) as Ha by (by vm_compute).
  split.
  - cbn [Raster.px Raster.map2_px]. rewrite Hpx, Hm. cbv beta iota.
    by rewrite Ha.
  - split; [reflexivity|].
    cbn [Raster.px Raster.map2_px Raster.alpha_composite id].
    rewrite Hpx, Hm. cbv beta iota. rewrite Ha.
    apply alpha_composite_opaque; lia.
Qed.

Import Examples.

Lemma gradient_identical_stops_witness :
  let img := Raster.fill 12 1 (10, 20, 30, 255) in
  let text_mask := Raster.fill 12 1 255 in
  direction f64_0 = (f64_1, f64_0)
  ∧ Raster.width img = 12 ∧ Raster.height img = 1
  ∧ Raster.px text_mask 1 0 = 255
  ∧ ∃ out,
      _fx_gradient_overlay img text_mask
        (Some [(255, 255, 255); (255, 255, 255)]) f64_0 f64_1
      = Py.ret out
      ∧ Raster.px out 1 0 = (254, 254, 254, 255).
Proof.
  intros img text_mask.
  split; [reflexivity|]. split; [reflexivity|]. split; [reflexivity|].
  split; [reflexivity|].
  destruct (gradient_identical_stops_off_by_one (Pil0 := plain_pil)
              (H := plain_lighting) img text_mask f64_0
              eq_refl eq_refl eq_refl eq_refl)
    as (gradient & layer & out & _ & _ & _ & _ & Hout & Hpx).
  exists out. split; [exact Hout|exact Hpx].
Defined.

End GradientFacts.

(** ** [sorted] is a stable sort *)
Module SortFacts.

Section Perm.
Context {B : Type} (key : B → Z).

Lemma insert_by_key_perm (x : B) (l : list B) :
  Py.insert_by_key key x l ≡ₚ x :: l.
Proof.
  induction l as [|y r IH]; simpl; [done|].
  case_match; [done|]. rewrite IH. apply Permutation_swap.
Qed.

Lemma sorted_perm (l : list B) : Py.sorted key l ≡ₚ l.
Proof.
  induction l as [|x r IH]; simpl; [done|].
  unfold Py.sorted in *. simpl. by rewrite insert_by_key_perm, IH.
Qed.

Lemma sorted_length (l : list B) : length (Py.sorted key l) = length l.
Proof. by rewrite sorted_perm. Qed.

End Perm.

Section Stable.
Context {A : Type} (key : A → Z).

Local Abbreviation tagged_before := (Py.tagged_before key).

(** Sorting the tagged list and dropping the tags is sorting the list:
    the sort looks at the keys only. *)
Lemma insert_by_key_untag (x : nat * A) (l : list (nat * A)) :
  (Py.insert_by_key (key ∘ snd) x l).*2
  = Py.insert_by_key key x.2 (l.*2).
Proof.
  induction l as [|y r IH]; [done|].
  cbn [Py.insert_by_key compose fmap list_fmap].
  destruct (key x.2 <=? key y.2); [done|].
  cbn [fmap list_fmap]. f_equal. exact IH.
Qed.

Lemma sorted_untag (l : list (nat * A)) :
  (Py.sorted (key ∘ snd) l).*2 = Py.sorted key (l.*2).
Proof.
  induction l as [|x r IH]; [done|].
  unfold Py.sorted in *. simpl. by rewrite insert_by_key_untag, IH.
Qed.

(** Inserting an element tagged below every tag of a list in z-order
    keeps it in z-order: the element goes in front of the first key
    that is not smaller, so in front of its equals. *)
Lemma insert_by_key_sorted (x : nat * A) (l : list (nat * A)) :
  Forall (λ y, (x.1 < y.1)%nat) l →
  StronglySorted tagged_before l →
  StronglySorted tagged_before (Py.insert_by_key (key ∘ snd) x l).
Proof.
  intros Htag Hs. induction Hs as [|y r Hr IH Hy]; simpl.
  - repeat constructor.
  - apply Forall_cons in Htag as [Hxy Htag].
    destruct (key x.2 <=? key y.2) eqn:Hle.
    + apply Z.leb_le in Hle.
      constructor; [by constructor|].
      assert (tagged_before x y) as Hxy'.
      { unfold Py.tagged_before.
        destruct (decide (key x.2 = key y.2)); [|lia]. right. done. }
      constructor; [done|].
      rewrite Forall_forall in Hy, Htag |- *. intros z Hz.
      specialize (Hy z Hz). specialize (Htag z Hz).
      unfold Py.tagged_before in *. lia.
    + apply Z.leb_gt in Hle.
      constructor; [by apply IH|].
      rewrite insert_by_key_perm. constructor; [|done].
      unfold Py.tagged_before. lia.
Qed.

Lemma sorted_tags (l : list (nat * A)) (k : nat) :
  Forall (λ y, (k ≤ y.1)%nat) l →
  Forall (λ y, (k ≤ y.1)%nat) (Py.sorted (key ∘ snd) l).
Proof. intros H. by rewrite sorted_perm. Qed.

(** The sort of an enumerated list is in z-order. *)
Lemma sorted_enumerate_from (l : list A) :
  ∀ k, StronglySorted tagged_before
         (Py.sorted (key ∘ snd) (imap (λ i a, (k + i, a)%nat) l)).
Proof.
  induction l as [|a r IH]; intros k; [constructor|].
  rewrite imap_cons. unfold Py.sorted. simpl foldr.
  apply insert_by_key_sorted.
  - fold (Py.sorted (key ∘ snd) (imap ((λ i a, (k + i, a)%nat) ∘ S) r)).
    rewrite sorted_perm. apply Forall_forall. intros [j b] Hin.
    apply elem_of_lookup_imap in Hin as (i & c & Heq & _).
    simpl in *. simplify_eq. lia.
  - fold (Py.sorted (key ∘ snd) (imap ((λ i a, (k + i, a)%nat) ∘ S) r)).
    rewrite (imap_ext _ (λ i a, (S k + i, a)%nat)); [apply IH|].
    intros i x _. simpl. f_equal. lia.
Qed.

Lemma tags_untag (l : list A) :
  ∀ f : nat → nat, (imap (λ i a, (f i, a)) l).*2 = l.
Proof.
  induction l as [|a r IH]; intros f; [done|].
  rewrite imap_cons. cbn [fmap list_fmap snd]. f_equal.
  rewrite (imap_ext _ (λ i a, ((f ∘ S) i, a))) by done. apply IH.
Qed.

(** [sorted] is the stable sort: there is a tagging of its result with
    the positions in the input that is a permutation of the enumerated
    input and is in z-order. *)
Lemma sorted_stable (l : list A) :
  ∃ order : list (nat * A),
    order ≡ₚ Py.enumerate l
    ∧ StronglySorted tagged_before order
    ∧ Py.sorted key l = order.*2.
Proof.
  exists (Py.sorted (key ∘ snd) (Py.enumerate l)).
  unfold Py.enumerate.
  split; [apply sorted_perm|]. split.
  - unfold Py.enumerate.
    rewrite (imap_ext _ (λ i a, (0 + i, a)%nat)) by done.
    apply sorted_enumerate_from.
  - rewrite sorted_untag. f_equal. symmetry. apply tags_untag.
Qed.

(** The z-order is a strict total order on tagged elements. *)
Lemma tagged_before_irrefl (a : nat * A) : ¬ tagged_before a a.
Proof. unfold Py.tagged_before. lia. Qed.

Lemma tagged_before_trans (a b c : nat * A) :
  tagged_before a b → tagged_before b c → tagged_before a c.
Proof. unfold Py.tagged_before. lia. Qed.

Lemma tagged_before_total (a b : nat * A) :
  a.1 ≠ b.1 → tagged_before a b ∨ tagged_before b a.
Proof. unfold Py.tagged_before. lia. Qed.

End Stable.

End SortFacts.

(** ** The constructor of the compositor *)
Module ConstructorFacts.
Import Raster Composite.

(** C3, at the input where it fails.  With an empty list of clips and
    an explicit size, [ends] is empty, [None not in ends] holds and
    [max(ends)] raises [ValueError]: the constructor returns no
    composite, whatever the size and the background colour, for a
    colour composite and for a mask composite alike, so no frame is
    ever produced. *)
Theorem empty_composite_raises `{!VideoClipLib} (full_size : Z * Z)
    (bg_color : option color) (level : color) :
  init [] (Some full_size) bg_color false
  = Py.raise (Py.ValueError "max() arg is an empty sequence")
  ∧ init_mask [] full_size level
    = Py.raise (Py.ValueError "max() arg is an empty sequence")
  ∧ ∀ comp, init [] (Some full_size) bg_color false ≠ Py.ret comp.
Proof.
  assert (init [] (Some full_size) bg_color false
          = Py.raise (Py.ValueError "max() arg is an empty sequence"))
    as Hraise.
  { unfold init. cbn [Py.bind Py.ret]. by destruct bg_color. }
  split; [exact Hraise|]. split; [reflexivity|].
  intros comp. by rewrite Hraise.
Qed.

Lemma getitem_0 {A} (a : A) (l : list A) : Py.getitem (a :: l) 0 = Py.ret a.
Proof.
  unfold Py.getitem. change (0 <? 0) with false. cbv iota.
  change (0 <=? 0) with true. simpl length.
  by assert ((0 <? Z.of_nat (S (length l))) = true) as ->
    by (apply Z.ltb_lt; lia).
Qed.

(** The same happens when the only clip given is the background. *)
Lemma background_only_raises `{!VideoClipLib} (bg : Clip)
    (full_size : option (Z * Z)) (bg_color : option color) :
  init [bg] full_size bg_color true
  = Py.raise (Py.ValueError "max() arg is an empty sequence").
Proof. unfold init. rewrite !getitem_0. by destruct full_size. Qed.

(** With at least one layer, and every layer with an end, the
    constructor returns a composite. *)
Lemma init_returns `{!VideoClipLib} (clips : list Clip) (full_size : Z * Z)
    (bg_color : color) :
  clips ≠ [] →
  ∃ comp, init clips (Some full_size) (Some bg_color) false = Py.ret comp.
Proof.
  intros Hne. unfold init. cbn [Py.bind Py.ret negb].
  assert (∃ d, composite_duration (order_by_layer clips) = Py.ret d)
    as [d ->].
  { unfold composite_duration.
    destruct (forallb _ _) eqn:Hall; [|by eexists].
    destruct (omap id (map clip_end (order_by_layer clips))) eqn:E;
      [|by eexists].
    exfalso.
    assert (order_by_layer clips ≠ []) as Hne'.
    { intros Hnil. apply (f_equal length) in Hnil.
      unfold order_by_layer in Hnil.
      rewrite SortFacts.sorted_length in Hnil. by destruct clips. }
    destruct (order_by_layer clips) as [|c cs]; [done|].
    cbn [map forallb] in Hall. apply andb_true_iff in Hall as [Hc _].
    apply bool_decide_eq_true in Hc as [e He].
    cbn [map omap list_omap] in E. by rewrite He in E. }
  cbn [Py.bind Py.ret bool_decide decide_rel].
  simpl. destruct (_precompute_compositing _ _ _ _) as [[cached bp] bn].
  by eexists.
Qed.

End ConstructorFacts.

(** ** The order in which the layers are painted *)
Module ZOrderFacts.
Import Raster Composite.

(** What the constructor leaves in the composite it returns. *)
Lemma init_inv `{!VideoClipLib} (clips : list Clip)
    (size_arg : option (Z * Z)) (bg_color : option color)
    (use_bgclip : bool) (comp : CompositeVideoClip) :
  init clips size_arg bg_color use_bgclip = Py.ret comp →
  c_clips comp = order_by_layer (if use_bgclip then tail clips else clips)
  ∧ composite_duration (c_clips comp) = Py.ret (c_duration comp)
  ∧ _precompute_compositing (c_size comp) (c_clips comp) (c_bg comp)
      (c_duration comp)
    = (_cached_frame comp, _clip_blit_pil comp, _clip_blit_np comp)
  ∧ _any_masks comp
    = existsb (λ c, bool_decide (is_Some (mask c))) (c_clips comp)
  ∧ (use_bgclip = false →
     c_bg comp
     = ColorClip (c_size comp)
         (default (ColorRGBA (0, 0, 0, 0)) bg_color)).
Proof.
  intros Hinit. unfold init in Hinit.
  destruct use_bgclip, size_arg as [sz|], bg_color as [c|],
    (Py.getitem clips 0) as [e|c0];
    cbn [Py.bind Py.ret negb default from_option id] in Hinit; try done.
  all: destruct (composite_duration _) as [e'|d] eqn:Hd;
    cbn [Py.bind Py.ret] in Hinit; try done.
  all: unfold Py.bind, Py.ret in Hinit.
  all: repeat match type of Hinit with
         | context [match ?x with _ => _ end] =>
             destruct x eqn:?; try done
         end.
  all: injection Hinit as <-; cbn; repeat split; try done.
Qed.

Section Painting.
Variable np_cache : gmap nat blit_np.
Variables (t : Q) (full_w full_h : Z).

Local Abbreviation seq_of := (paint_seq np_cache t full_w full_h).

(** The loop of [_frame_numpy] performs the blits of the paint
    sequence, in its order. *)
Lemma numpy_fold_blits (order : list (nat * Clip)) :
  ∀ k cur,
    fold_left (numpy_step np_cache t full_w full_h)
      (imap (λ i oc, ((k + i)%nat, oc.2)) order) cur
    = fold_left apply_blit (seq_of k order).*2 cur.
Proof.
  induction order as [|oc r IH]; intros k cur; [done|].
  rewrite imap_cons. cbn [fold_left paint_seq]. rewrite Nat.add_0_r.
  rewrite (imap_ext _ (λ i oc, ((S k + i)%nat, oc.2)))
    by (intros; simpl; f_equal; lia).
  rewrite IH. unfold numpy_step.
  by destruct (numpy_blit np_cache t full_w full_h (k, oc.2)).
Qed.

(** Only playing layers are painted, and they are layers of the list. *)
Lemma paint_seq_playing (order : list (nat * Clip)) :
  ∀ k oc b, (oc, b) ∈ seq_of k order →
    oc ∈ order ∧ is_playing oc.2 t = true.
Proof.
  induction order as [|oc' r IH]; intros k oc b Hin; cbn [paint_seq] in Hin.
  - by apply elem_of_nil in Hin.
  - destruct (numpy_blit np_cache t full_w full_h (k, oc'.2)) as [b'|] eqn:E.
    + apply elem_of_cons in Hin as [Heq|Hin].
      * simplify_eq. split; [apply list_elem_of_here|].
        unfold numpy_blit in E.
        by destruct (is_playing oc'.2 t).
      * destruct (IH _ _ _ Hin). split; [by apply list_elem_of_further|done].
    + destruct (IH _ _ _ Hin). split; [by apply list_elem_of_further|done].
Qed.

(** The paint sequence keeps the order of the layers. *)
Lemma paint_seq_sorted (R : relation (nat * Clip))
    (order : list (nat * Clip)) :
  StronglySorted R order →
  ∀ k, StronglySorted (λ p q, R p.1 q.1) (seq_of k order).
Proof.
  induction 1 as [|oc r Hr IH Hall]; intros k; cbn [paint_seq];
    [constructor|].
  destruct (numpy_blit np_cache t full_w full_h (k, oc.2)); [|apply IH].
  constructor; [apply IH|].
  apply Forall_forall. intros [oc' b'] Hin. simpl.
  rewrite Forall_forall in Hall. apply Hall.
  by apply (paint_seq_playing r (S k) oc' b').
Qed.

End Painting.

(** Once a blit has raised, the loop keeps the error. *)
Lemma apply_blits_error (blits : list blit_np) (e : Py.exn) :
  fold_left apply_blit blits (inl e) = inl e.
Proof.
  induction blits as [|b r IH]; [done|].
  simpl. by destruct b as [[[[src dy1] dy2] dx1] dx2].
Qed.

(** After a sequence of blits every pixel holds what the last blit that
    covers it wrote, or what the canvas had. *)
Lemma apply_blits_px (blits : list blit_np) :
  ∀ cur final,
    fold_left apply_blit blits (Py.ret cur) = Py.ret final →
    ∀ x y,
      px final x y
      = match last (filter (λ b, covers b x y = true) blits) with
        | Some b => blit_px b x y
        | None => px cur x y
        end.
Proof.
  induction blits as [|b r IH]; intros cur final Hfold x y.
  - simpl in Hfold. by simplify_eq.
  - simpl in Hfold.
    destruct (apply_blit (Py.ret cur) b) as [e|cur'] eqn:Hb.
    { by rewrite apply_blits_error in Hfold. }
    rewrite (IH _ _ Hfold x y).
    destruct b as [[[[src dy1] dy2] dx1] dx2].
    unfold apply_blit, Py.bind, Py.ret, slice_assign in Hb.
    destruct (_ && _) in Hb; [|done]. injection Hb as <-.
    rewrite filter_cons.
    destruct (decide _) as [Hc|Hc].
    + rewrite last_cons. destruct (last _); [done|].
      cbn [px blit_px]. unfold covers in Hc. by rewrite Hc.
    + destruct (last _); [done|].
      cbn [px]. unfold covers in Hc. apply not_true_is_false in Hc.
      by rewrite Hc.
Qed.

(** In a list in order, the last element with a property comes after
    every other element with it. *)
Lemma last_filter_sorted {A} (R : relation A) (P : A → Prop)
    `{!∀ a, Decision (P a)} (l : list A) (top : A) :
  StronglySorted R l →
  last (filter P l) = Some top →
  ∀ a, a ∈ l → P a → a = top ∨ R a top.
Proof.
  induction 1 as [|x r Hr IH Hall]; intros Hlast a Hin Ha.
  - by apply elem_of_nil in Hin.
  - rewrite filter_cons in Hlast.
    assert (∀ y, last (filter P r) = Some y → y ∈ r) as Hmem.
    { intros y Hy. apply last_Some_elem_of in Hy.
      by apply list_elem_of_filter in Hy as [_ ?]. }
    destruct (decide (P x)) as [Hx|Hx].
    + rewrite last_cons in Hlast.
      destruct (last (filter P r)) as [y|] eqn:Hy.
      * simplify_eq. apply elem_of_cons in Hin as [->|Hin]; [|by apply IH].
        right. rewrite Forall_forall in Hall. by apply Hall, Hmem.
      * simplify_eq. apply elem_of_cons in Hin as [->|Hin]; [by left|].
        exfalso. apply last_None in Hy.
        assert (a ∈ filter P r) as Hf by (by apply list_elem_of_filter).
        rewrite Hy in Hf. by apply elem_of_nil in Hf.
    + apply elem_of_cons in Hin as [->|Hin]; [done|by apply IH].
Qed.

Lemma filter_fmap {A B} (f : A → B) (P : B → Prop)
    `{!∀ b, Decision (P b)} (l : list A) :
  filter P (f <$> l) = f <$> filter (λ a, P (f a)) l.
Proof.
  induction l as [|a r IH]; [done|].
  cbn [fmap list_fmap]. rewrite !filter_cons, IH.
  by destruct (decide (P (f a))).
Qed.



End ZOrderFacts.

(** ** The static-composite cache *)
Module StaticCacheFacts.
Import Raster Composite.

(** *** Rasters up to bit-identity *)
Lemma raster_eq_refl {A} (r : raster A) : raster_eq r r.
Proof. by repeat split. Qed.

Lemma raster_eq_sym {A} (r1 r2 : raster A) : raster_eq r1 r2 → raster_eq r2 r1.
Proof.
  intros (Hw & Hh & Hpx). split; [done|]. split; [done|].
  intros x y Hx Hy. symmetry. apply Hpx; lia.
Qed.

Lemma raster_eq_trans {A} (r1 r2 r3 : raster A) :
  raster_eq r1 r2 → raster_eq r2 r3 → raster_eq r1 r3.
Proof.
  intros (Hw & Hh & Hpx) (Hw' & Hh' & Hpx').
  split; [congruence|]. split; [congruence|].
  intros x y Hx Hy. rewrite Hpx by done. apply Hpx'; lia.
Qed.

Lemma inside_spec {A} (r : raster A) (x y : Z) :
  inside r x y = true ↔ 0 ≤ x < width r ∧ 0 ≤ y < height r.
Proof.
  unfold inside. rewrite !andb_true_iff, !Z.leb_le, !Z.ltb_lt. lia.
Qed.

Lemma inside_eq {A} (r1 r2 : raster A) (x y : Z) :
  width r1 = width r2 → height r1 = height r2 →
  inside r1 x y = inside r2 x y.
Proof. intros Hw Hh. unfold inside. by rewrite Hw, Hh. Qed.

(** Pasting the same picture on the same canvas gives the same canvas. *)
Lemma paste_proper (c1 c2 s1 s2 : raster rgb) (dx dy : Z) :
  raster_eq c1 c2 → raster_eq s1 s2 →
  raster_eq (paste c1 s1 dx dy) (paste c2 s2 dx dy).
Proof.
  intros (Hw & Hh & Hpx) (Hsw & Hsh & Hspx).
  split; [done|]. split; [done|]. intros x y Hx Hy. cbn [px paste].
  rewrite (inside_eq s1 s2) by done.
  destruct (inside s2 (x - dx) (y - dy)) eqn:Hin; [|by apply Hpx].
  apply inside_spec in Hin. apply Hspx; lia.
Qed.

Lemma paste_mask_proper (c1 c2 s1 s2 : raster rgb) (m1 m2 : raster Z)
    (dx dy : Z) :
  raster_eq c1 c2 → raster_eq s1 s2 → raster_eq m1 m2 →
  width m1 = width s1 → height m1 = height s1 →
  raster_eq (paste_mask blend_rgb c1 s1 dx dy m1)
            (paste_mask blend_rgb c2 s2 dx dy m2).
Proof.
  intros (Hw & Hh & Hpx) (Hsw & Hsh & Hspx) (Hmw & Hmh & Hmpx) Hms Hmh'.
  split; [done|]. split; [done|]. intros x y Hx Hy.
  cbn [width height paste_mask] in Hx, Hy. cbn [px paste_mask].
  rewrite (inside_eq s1 s2) by done.
  destruct (inside s2 (x - dx) (y - dy)) eqn:Hin; [|by apply Hpx].
  apply inside_spec in Hin.
  rewrite Hpx, Hspx, Hmpx by lia. done.
Qed.

(** A slice assignment of a source that fits its box is a paste at the
    corner of the box. *)
Lemma slice_assign_paste (cur canvas src sp : raster rgb)
    (dy1 dy2 dx1 dx2 : Z) :
  raster_eq canvas cur → raster_eq sp src →
  0 ≤ dx1 → 0 ≤ dy1 → dx2 ≤ width cur → dy2 ≤ height cur →
  dx2 = dx1 + width src → dy2 = dy1 + height src →
  0 ≤ width src → 0 ≤ height src →
  ∃ cur', slice_assign cur dy1 dy2 dx1 dx2 src = Py.ret cur'
          ∧ raster_eq (paste canvas sp dx1 dy1) cur'.
Proof.
  intros (Hw & Hh & Hpx) (Hsw & Hsh & Hspx) ? ? ? ? ? ? ? ?.
  unfold slice_assign.
  assert ((Z.max 0 (Z.min dx2 (width cur) - Z.min dx1 (width cur))
           =? width src)
          && (Z.max 0 (Z.min dy2 (height cur) - Z.min dy1 (height cur))
              =? height src) = true) as ->.
  { apply andb_true_iff. split; apply Z.eqb_eq; lia. }
  eexists. split; [reflexivity|].
  split; [done|]. split; [done|]. intros x y Hx Hy.
  cbn [width height paste] in Hx, Hy. cbn [px paste].
  destruct (inside sp (x - dx1) (y - dy1)) eqn:Hin.
  - apply inside_spec in Hin.
    assert ((dx1 <=? x) && (x <? dx2) && (dy1 <=? y) && (y <? dy2) = true)
      as ->.
    { rewrite !andb_true_iff, !Z.leb_le, !Z.ltb_lt. lia. }
    apply Hspx; lia.
  - assert ((dx1 <=? x) && (x <? dx2) && (dy1 <=? y) && (y <? dy2) = false)
      as ->.
    { apply not_true_is_false. intros Hc. apply not_true_iff_false in Hin.
      apply Hin, inside_spec.
      rewrite !andb_true_iff, !Z.leb_le, !Z.ltb_lt in Hc. lia. }
    by apply Hpx.
Qed.

(** *** The geometry of a blit *)
Lemma blit_box_spec (W H cw ch x y x1 y1 x2 y2 dx1 dy1 : Z) :
  blit_box W H cw ch x y = Some (x1, y1, x2, y2, dx1, dy1) →
  0 ≤ x1 < x2 ∧ x2 ≤ cw ∧ 0 ≤ y1 < y2 ∧ y2 ≤ ch
  ∧ 0 ≤ dx1 ∧ dx1 + (x2 - x1) ≤ W ∧ 0 ≤ dy1 ∧ dy1 + (y2 - y1) ≤ H.
Proof.
  unfold blit_box. intros Hb.
  destruct (_ || _) eqn:Hout in Hb; [done|].
  destruct (_ || _) eqn:Hempty in Hb; [done|]. simplify_eq.
  rewrite !orb_false_iff, !Z.leb_gt in Hout.
  rewrite !Z.geb_leb, !Z.leb_gt in Hout.
  rewrite orb_false_iff, !Z.leb_gt in Hempty. lia.
Qed.

Lemma nd_dims (a : ndarray) :
  width (to_rgb3 a) = nd_width a ∧ height (to_rgb3 a) = nd_height a.
Proof. by destruct a. Qed.

(** A slice inside the array is the crop of the same box. *)
Lemma slice_crop (a : ndarray) (p : raster rgb) (x1 y1 x2 y2 : Z) :
  raster_eq (to_rgb3 a) p →
  0 ≤ x1 < x2 → x2 ≤ width p → 0 ≤ y1 < y2 → y2 ≤ height p →
  raster_eq (crop x1 y1 x2 y2 p) (to_rgb3 (nd_slice y1 y2 x1 x2 a)).
Proof.
  intros (Hw & Hh & Hpx) Hx1 Hx2 Hy1 Hy2.
  assert (∀ A (r : raster A) (f : A → rgb),
    width r = width p → height r = height p →
    (∀ x y, 0 ≤ x < width r → 0 ≤ y < height r →
       f (px r x y) = px p x y) →
    raster_eq (crop x1 y1 x2 y2 p) (map_px f (np_slice y1 y2 x1 x2 r)))
    as Hgen.
  { intros A r f Hrw Hrh Hr. unfold crop, np_slice, map_px.
    split; [cbn; lia|]. split; [cbn; lia|]. intros x y Hx Hy. cbn in *.
    replace (Z.min x1 (width r)) with x1 by lia.
    replace (Z.min y1 (height r)) with y1 by lia.
    rewrite Hr by lia. done. }
  destruct a as [r|r|r]; cbn [to_rgb3 nd_slice] in *.
  - apply Hgen; [done|done|]. intros x y Hx Hy. by apply (Hpx x y).
  - apply raster_eq_trans with (map_px id (np_slice y1 y2 x1 x2 r)).
    + apply Hgen; [done|done|]. intros x y Hx Hy. by apply (Hpx x y).
    + by repeat split.
  - apply Hgen; [done|done|]. intros x y Hx Hy. by apply (Hpx x y).
Qed.

Lemma mask_slice_crop (m : maskarray) (mp : raster Z) (x1 y1 x2 y2 : Z) :
  raster_eq (mask_plane m) mp →
  0 ≤ x1 < x2 → x2 ≤ width mp → 0 ≤ y1 < y2 → y2 ≤ height mp →
  raster_eq (crop x1 y1 x2 y2 mp) (mask_slice y1 y2 x1 x2 m).
Proof.
  intros (Hw & Hh & Hpx) Hx1 Hx2 Hy1 Hy2.
  destruct m as [r|r]; cbn [mask_plane mask_slice map_px width height px]
    in *.
  all: unfold crop, np_slice, map_px.
  all: split; [cbn; lia|]; split; [cbn; lia|]; intros x y Hx Hy; cbn in *.
  all: rewrite <- Hpx by lia.
  all: replace (Z.min x1 (width r)) with x1 by lia.
  all: by replace (Z.min y1 (height r)) with y1 by lia.
Qed.

Lemma crop_whole {A} (p : raster A) :
  raster_eq p (crop 0 0 (width p) (height p) p).
Proof.
  unfold crop. split; [cbn; lia|]. split; [cbn; lia|].
  intros x y Hx Hy. cbn. f_equal; lia.
Qed.

(** *** What the pre-computation leaves *)
Section Precompute.
Variables (W H : Z) (duration : option Q).

Local Abbreviation step :=
  (λ st '(i, clip), precompute_clip W H duration st i clip).

(** The loop keeps the blit data of exactly the clips that have some,
    under their position; the two flags survive only when every clip is
    static and every clip with blit data passes the "always playing"
    test. *)
Lemma precompute_fold (clips : list Clip) :
  ∀ k st0,
    let st := fold_left step (imap (λ i c, ((k + i)%nat, c)) clips) st0 in
    (∀ i, pre_blit_pil st !! i
          = if decide (k ≤ i)%nat then
              match clips !! (i - k)%nat ≫= blit_of W H with
              | Some b => Some b
              | None => pre_blit_pil st0 !! i
              end
            else pre_blit_pil st0 !! i)
    ∧ (all_static st = true →
       all_static st0 = true
       ∧ Forall (λ c, classify W H c ≠ NotStatic) clips)
    ∧ (all_always_playing st = true →
       all_always_playing st0 = true
       ∧ Forall (λ c, is_Some (blit_of W H c) →
                      always_playing duration c = true) clips).
Proof.
  induction clips as [|c r IH]; intros k st0.
  - cbn. split; [|by split]. intros i. by destruct (decide _).
  - rewrite imap_cons. cbn [fold_left]. rewrite Nat.add_0_r.
    rewrite (imap_ext _ (λ i c, ((S k + i)%nat, c)))
      by (intros; simpl; f_equal; lia).
    specialize (IH (S k) (precompute_clip W H duration st0 k c)).
    cbv zeta in IH. destruct IH as (IHl & IHs & IHp).
    set (st := fold_left _ _ _) in *.
    unfold precompute_clip, blit_of in *.
    split; [|split].
    + intros i. rewrite IHl.
      destruct (decide (S k ≤ i)%nat) as [Hi|Hi].
      * rewrite decide_True by lia.
        replace (i - k)%nat with (S (i - S k)) by lia. cbn [lookup list_lookup].
        destruct (r !! (i - S k)%nat ≫= _); [done|].
        destruct (classify W H c); cbn; try done.
        by rewrite lookup_insert_ne by lia.
      * destruct (decide (k ≤ i)%nat) as [Hk|Hk].
        -- assert (i = k) as -> by lia. rewrite Nat.sub_diag. cbn.
           destruct (classify W H c); cbn; try done.
           by rewrite lookup_insert_eq.
        -- destruct (classify W H c); cbn; try done.
           by rewrite lookup_insert_ne by lia.
    + intros Hs. destruct (IHs Hs) as [Hs0 Hall].
      destruct (classify W H c) eqn:Hc; cbn in Hs0; try done.
      all: split; [done|]; constructor; [by rewrite Hc|done].
    + intros Hp. destruct (IHp Hp) as [Hp0 Hall].
      destruct (classify W H c) eqn:Hc; cbn in Hp0.
      * split; [done|]. constructor; [|done]. intros [? Hx].
        by rewrite Hc in Hx.
      * split; [done|]. constructor; [|done]. intros [? Hx].
        by rewrite Hc in Hx.
      * destruct (always_playing duration c) eqn:Ha; [|done].
        split; [done|]. by constructor.
Qed.

End Precompute.

(** The keys of a dict filled at positions below [n], in ascending
    order, are the positions below [n] that have an entry. *)
Lemma filter_seq_sorted (P : nat → Prop) `{!∀ i, Decision (P i)} (n : nat) :
  ∀ k, StronglySorted Nat.le (filter P (seq k n)).
Proof.
  induction n as [|n IH]; intros k; [constructor|].
  cbn [seq]. rewrite filter_cons. destruct (decide (P k)); [|apply IH].
  constructor; [apply IH|].
  apply Forall_forall. intros i Hi.
  apply list_elem_of_filter in Hi as [_ Hi]. apply elem_of_seq in Hi. lia.
Qed.

Lemma sorted_keys_seq {V} (d : gmap nat V) (n : nat) :
  (∀ i, is_Some (d !! i) → (i < n)%nat) →
  sorted_keys d = filter (λ i, is_Some (d !! i)) (seq 0 n).
Proof.
  intros Hdom. unfold sorted_keys.
  apply (StronglySorted_unique Nat.le).
  - apply StronglySorted_merge_sort; apply _.
  - apply filter_seq_sorted.
  - rewrite merge_sort_Permutation.
    apply NoDup_Permutation.
    + apply NoDup_elements.
    + apply NoDup_filter, NoDup_seq.
    + intros i. rewrite elem_of_elements, elem_of_dom, list_elem_of_filter,
        elem_of_seq.
      split; [|by intros [? _]]. intros Hi. split; [done|].
      specialize (Hdom i Hi). lia.
Qed.

(** Running over the keys in order is running over the positions. *)
Lemma fold_keys_positions {V C} (d : gmap nat V) (g : C → V → C)
    (l : list nat) (c : C) :
  fold_left (λ cv i, match d !! i with Some b => g cv b | None => cv end)
    (filter (λ i, is_Some (d !! i)) l) c
  = fold_left (λ cv i, match d !! i with Some b => g cv b | None => cv end)
      l c.
Proof.
  revert c. induction l as [|i r IH]; intros c; [done|].
  rewrite filter_cons. destruct (decide _) as [Hi|Hi]; cbn [fold_left].
  - apply IH.
  - rewrite IH. destruct (d !! i) eqn:E; [|done].
    exfalso. apply Hi. by eexists.
Qed.

Lemma fold_positions_list {A V C} (l : list A) (f : A → option V)
    (h : nat → option V) (g : C → V → C) :
  ∀ k c,
    (∀ i, (i < length l)%nat → h (k + i)%nat = l !! i ≫= f) →
    fold_left (λ cv i, match h i with Some b => g cv b | None => cv end)
      (seq k (length l)) c
    = fold_left (λ cv a, match f a with Some b => g cv b | None => cv end)
        l c.
Proof.
  induction l as [|a r IH]; intros k c Hh; [done|].
  cbn [length seq fold_left].
  pose proof (Hh 0%nat ltac:(simpl; lia)) as H0.
  rewrite Nat.add_0_r in H0. rewrite H0.
  cbn [lookup list_lookup mbind option_bind].
  apply IH. intros i Hi.
  replace (S k + i)%nat with (k + S i)%nat by lia.
  rewrite Hh by (simpl; lia). done.
Qed.

(** The cached frame is the pastes of the blit data over the canvas of
    time 0, in the order of the clips; it is there only when every clip
    passed the static tests and every clip with blit data passed the
    "always playing" test. *)
Lemma cached_frame_fold (W H : Z) (clips : list Clip) (bg : Clip)
    (duration : option Q) (f : raster rgb) (bp : gmap nat blit_pil)
    (bn : gmap nat blit_np) :
  _precompute_compositing (W, H) clips bg duration = (Some f, bp, bn) →
  f = fold_left (static_step W H) clips (pil_canvas bg 0 W H)
  ∧ Forall (λ c, classify W H c ≠ NotStatic) clips
  ∧ Forall (λ c, is_Some (blit_of W H c) →
                 always_playing duration c = true) clips.
Proof.
  unfold _precompute_compositing, Py.enumerate.
  pose proof (precompute_fold W H duration clips 0
    {| all_static := true; all_always_playing := true;
       pre_blit_pil := ∅; pre_blit_np := ∅ |}) as Hf.
  cbv zeta in Hf. cbn [Nat.add] in Hf.
  set (st := fold_left _ _ _) in *.
  destruct Hf as (Hl & Hs & Hp). intros Heq.
  destruct (all_static st && all_always_playing st && _) eqn:Hc; [|done].
  apply andb_true_iff in Hc as [Hc _].
  apply andb_true_iff in Hc as [Hst Hpl].
  injection Heq as <- _ _.
  assert (∀ i, pre_blit_pil st !! i = clips !! i ≫= blit_of W H) as Hlk.
  { intros i. rewrite Hl, decide_True, Nat.sub_0_r by lia.
    by destruct (_ ≫= _). }
  split; [|exact (conj (proj2 (Hs Hst)) (proj2 (Hp Hpl)))].
  rewrite (sorted_keys_seq _ (length clips)).
  - rewrite (fold_keys_positions (pre_blit_pil st) paste_blit).
    apply (fold_positions_list clips (blit_of W H)
             (λ i, pre_blit_pil st !! i) paste_blit 0).
    intros i _. apply Hlk.
  - intros i [b Hb]. rewrite Hlk in Hb.
    destruct (clips !! i) eqn:E; [|done]. by apply lookup_lt_Some in E.
Qed.

(** A clip the pre-computation takes for static passed the three tests
    the code makes. *)
Lemma classify_static (W H : Z) (c : Clip) :
  classify W H c ≠ NotStatic → passes_static_test c.
Proof.
  unfold classify, passes_static_test. intros Hc.
  destruct (_cached_pil c) as [p|]; [|done].
  destruct (bool_decide (is_Some (mask c)) && _) eqn:Hm; [done|].
  destruct (position_eqb (pos c 0) (pos c 1)); [|done].
  split; [by eexists|]. split; [|done]. intros m Hmask.
  apply andb_false_iff in Hm as [Hm|Hm].
  - apply bool_decide_eq_false in Hm. destruct Hm. by eexists.
  - apply negb_false_iff, bool_decide_eq_true in Hm.
    rewrite Hmask in Hm. exact Hm.
Qed.

(** A layer that is active from time 0 for the whole duration plays at
    every time of the span. *)
Lemma span_playing (duration : option Q) (c : Clip) (t : Q) :
  full_duration duration c → in_span duration t → is_playing c t = true.
Proof.
  intros [Hs He] [H0 Ht]. unfold is_playing. cbn [clip_start clip_end Clip_like].
  apply andb_true_iff. split.
  - apply Qle_bool_iff. by rewrite Hs.
  - destruct (end_ c) as [e|]; [|done]. destruct duration as [d|]; [|done].
    apply negb_true_iff, not_true_is_false. intros Hle.
    apply Qle_bool_iff in Hle.
    apply (Qlt_not_le t e); [|done]. by apply Qlt_le_trans with d.
Qed.

(** *** The canvas *)
Lemma numpy_canvas_static (bg : Clip) (t : Q) (W H : Z) :
  static_background bg →
  _make_numpy_canvas bg t W H = _make_numpy_canvas bg 0 W H.
Proof.
  intros [Hf _]. unfold _make_numpy_canvas.
  by rewrite (Hf (t - start bg)%Q (0 - start bg)%Q).
Qed.

Lemma numpy_canvas_dims (bg : Clip) (t : Q) (W H : Z) :
  0 ≤ W → 0 ≤ H →
  width (_make_numpy_canvas bg t W H) = W
  ∧ height (_make_numpy_canvas bg t W H) = H.
Proof.
  intros HW HH. unfold _make_numpy_canvas.
  set (g := to_rgb3 _). cbv zeta.
  destruct ((height g >=? H) && (width g >=? W)) eqn:Hc; [|done].
  apply andb_true_iff in Hc as [Hh Hw].
  rewrite Z.geb_leb in Hh, Hw. apply Z.leb_le in Hh, Hw.
  unfold np_slice. cbn [width height]. lia.
Qed.

Lemma pil_canvas_static (bg : Clip) (t : Q) (W H : Z) :
  static_background bg → pil_canvas bg t W H = pil_canvas bg 0 W H.
Proof.
  intros Hbg. unfold pil_canvas.
  by rewrite (numpy_canvas_static bg t W H Hbg).
Qed.

Lemma pil_canvas_numpy (bg : Clip) (t : Q) (W H : Z) :
  static_background bg → 0 ≤ W → 0 ≤ H →
  raster_eq (pil_canvas bg t W H) (_make_numpy_canvas bg t W H).
Proof.
  intros Hbg HW HH. unfold pil_canvas.
  destruct (_cached_pil bg) as [p|] eqn:Hp; [|apply raster_eq_refl].
  destruct ((width p =? W) && (height p =? H)) eqn:Hc;
    [|apply raster_eq_refl].
  apply andb_true_iff in Hc as [Hw Hh]. apply Z.eqb_eq in Hw, Hh.
  destruct Hbg as [Hf Hpil]. destruct (Hpil p Hp) as (Hgw & Hgh & Hpx).
  unfold _make_numpy_canvas. rewrite (Hf (t - start bg)%Q 0%Q).
  set (g := to_rgb3 _) in *. cbv zeta.
  assert ((height g >=? H) && (width g >=? W) = true) as ->.
  { rewrite !Z.geb_leb. apply andb_true_iff. split; apply Z.leb_le; lia. }
  unfold np_slice. split; [cbn; lia|]. split; [cbn; lia|].
  intros x y Hx Hy. cbn [px].
  replace (Z.min 0 (width g)) with 0 by lia.
  replace (Z.min 0 (height g)) with 0 by lia.
  rewrite !Z.add_0_r. by apply Hpx.
Qed.

(** *** One layer, pre-computed and computed afresh *)

(** For a static layer the blit data kept by the pre-computation and
    the blit the fallback computes at any time are the same: both are
    absent, or both paste the same pixels at the same corner, a box
    that lies on the canvas, through the same mask. *)
Lemma blit_static_dynamic (W H : Z) (c : Clip) (t : Q) :
  static_layer W H c → classify W H c ≠ NotStatic →
  match blit_of W H c, dynamic_blit c t W H with
  | None, None => True
  | Some (sp, mp, dx, dy, hm), Some (src, dy1, dy2, dx1, dx2, ms) =>
      raster_eq sp src ∧ dx = dx1 ∧ dy = dy1
      ∧ dx2 = dx1 + width src ∧ dy2 = dy1 + height src
      ∧ 0 ≤ dx1 ∧ dx2 ≤ W ∧ 0 ≤ dy1 ∧ dy2 ≤ H
      ∧ 0 ≤ width src ∧ 0 ≤ height src
      ∧ match mp, ms with
        | Some m, Some m' =>
            is_Some (mask c) ∧ hm = true ∧ raster_eq m m'
            ∧ width m = width sp ∧ height m = height sp
        | None, None => True
        | _, _ => False
        end
  | _, _ => False
  end.
Proof.
  intros [Hcont Hblit Hframe Hmask Hsize] Hns.
  unfold blit_of, dynamic_blit. rewrite Hblit. unfold classify in *.
  destruct (_cached_pil c) as [p|] eqn:Hp; [|done].
  destruct (bool_decide (is_Some (mask c)) && _) eqn:Hm; [done|].
  destruct (negb (position_eqb (pos c 0) (pos c 1))); [done|].
  destruct (new_blit_on c (start c) W H) as [[[img [x y]] cm]|] eqn:Hnb;
    [|done].
  destruct (Hframe _ _ _ _ eq_refl eq_refl) as (a & -> & Ha).
  specialize (Hmask _ _ _ eq_refl).
  destruct (nd_dims a) as [Hw Hh].
  pose proof Ha as (Haw & Hah & _).
  cbv zeta.
  replace (nd_width a) with (width p) by congruence.
  replace (nd_height a) with (height p) by congruence.
  destruct (blit_box W H (width p) (height p) x y)
    as [[[[[[x1 y1] x2] y2] dx1] dy1]|] eqn:Hbox; [|done].
  apply blit_box_spec in Hbox.
  set (no_crop := (x1 =? 0) && (y1 =? 0) && (x2 =? width p)
                  && (y2 =? height p)).
  assert (no_crop = true → x1 = 0 ∧ y1 = 0 ∧ x2 = width p ∧ y2 = height p)
    as Hwhole.
  { unfold no_crop. rewrite !andb_true_iff, !Z.eqb_eq. tauto. }
  assert (raster_eq (if no_crop then p else crop x1 y1 x2 y2 p)
            (to_rgb3 (nd_slice y1 y2 x1 x2 a))) as Hsp.
  { apply raster_eq_trans with (crop x1 y1 x2 y2 p);
      [|apply slice_crop; [done|lia..]].
    destruct no_crop; [|apply raster_eq_refl].
    destruct (Hwhole eq_refl) as (-> & -> & -> & ->). apply crop_whole. }
  pose proof Hsp as (Hspw & Hsph & _).
  assert (width (if no_crop then p else crop x1 y1 x2 y2 p) = x2 - x1
          ∧ height (if no_crop then p else crop x1 y1 x2 y2 p) = y2 - y1)
    as [Hdw Hdh].
  { destruct no_crop eqn:Hnc; [|done].
    unfold no_crop in Hnc. rewrite !andb_true_iff, !Z.eqb_eq in Hnc. lia. }
  split; [exact Hsp|]. split; [done|]. split; [done|].
  split; [lia|]. split; [lia|]. split; [lia|]. split; [lia|].
  split; [lia|]. split; [lia|]. split; [lia|]. split; [lia|].
  destruct (mask c ≫= m_cached_pil) as [mpil|] eqn:Hmp;
    destruct cm as [m'|]; try done.
  cbn [fmap option_fmap option_map].
  destruct (Hsize mpil p eq_refl eq_refl) as [Hmw Hmh].
  assert (is_Some (mask c)) as Hsome.
  { destruct (mask c); [by eexists|done]. }
  split; [done|]. split; [by apply bool_decide_eq_true|].
  split; [|split].
  - apply raster_eq_trans with (crop x1 y1 x2 y2 mpil);
      [|apply mask_slice_crop; [done|lia..]].
    destruct no_crop; [|apply raster_eq_refl].
    destruct (Hwhole eq_refl) as (-> & -> & -> & ->).
    rewrite <- Hmw, <- Hmh. apply crop_whole.
  - destruct no_crop; [done|]. cbn [width crop] in *. lia.
  - destruct no_crop; [done|]. cbn [height crop] in *. lia.
Qed.

(** *** The whole frame *)

(** A loop over [enumerate] whose body does not read the index. *)
Lemma fold_enumerate_from {A B} (g : B → nat * A → B) (g' : B → A → B) :
  (∀ b i a, g b (i, a) = g' b a) →
  ∀ l k b,
    fold_left g (imap (λ i a, ((k + i)%nat, a)) l) b = fold_left g' l b.
Proof.
  intros Hg. induction l as [|a r IH]; intros k b; [done|].
  rewrite imap_cons. cbn [fold_left]. rewrite Hg.
  rewrite (imap_ext _ (λ i a, ((S k + i)%nat, a)))
    by (intros; simpl; f_equal; lia).
  apply IH.
Qed.

Lemma no_masks (clips : list Clip) :
  existsb (λ c, bool_decide (is_Some (mask c))) clips = false →
  Forall (λ c, mask c = None) clips.
Proof.
  induction clips as [|c r IH]; [by constructor|].
  cbn [existsb]. intros Hex. apply orb_false_iff in Hex as [Hc Hr].
  constructor; [|by apply IH].
  apply bool_decide_eq_false in Hc. destruct (mask c); [|done].
  destruct Hc. by eexists.
Qed.

Section Flatten.
Variables (W H : Z) (duration : option Q) (t : Q).
Hypothesis Hspan : in_span duration t.

(** The PIL path with nothing pre-computed pastes what the cached frame
    was built from. *)
Lemma pil_static_fold (clips : list Clip) :
  Forall (static_layer W H) clips →
  Forall (full_duration duration) clips →
  Forall (λ c, classify W H c ≠ NotStatic) clips →
  ∀ canvas cur, raster_eq canvas cur →
    raster_eq (fold_left (static_step W H) clips canvas)
      (fold_left (λ cur c, pil_step ∅ t W H cur (0%nat, c)) clips cur).
Proof.
  induction clips as [|c r IH]; intros Hs Hd Hc canvas cur Heq; [done|].
  apply Forall_cons in Hs as [Hsl Hs]. apply Forall_cons in Hd as [Hfd Hd].
  apply Forall_cons in Hc as [Hns Hc].
  cbn [fold_left]. apply IH; try done.
  unfold static_step, pil_step.
  rewrite (span_playing duration c t Hfd Hspan). cbn [negb].
  rewrite lookup_empty.
  pose proof (blit_static_dynamic W H c t Hsl Hns) as Hrel.
  destruct (blit_of W H c) as [[[[[sp mp] dx] dy] hm]|];
    destruct (dynamic_blit c t W H) as [[[[[[src dy1] dy2] dx1] dx2] ms]|];
    try done.
  destruct Hrel as (Hsp & -> & -> & _ & _ & _ & _ & _ & _ & _ & _ & Hm).
  unfold paste_blit. destruct mp as [m|], ms as [m'|]; try done.
  - destruct Hm as (_ & -> & Hmm & Hmw & Hmh). by apply paste_mask_proper.
  - by apply paste_proper.
Qed.

(** So does the numpy path, which is taken when no layer has a mask;
    none of its slice assignments raises. *)
Lemma numpy_static_fold (clips : list Clip) :
  Forall (static_layer W H) clips →
  Forall (full_duration duration) clips →
  Forall (λ c, classify W H c ≠ NotStatic) clips →
  Forall (λ c, mask c = None) clips →
  ∀ canvas cur, raster_eq canvas cur → width cur = W → height cur = H →
    ∃ cur',
      fold_left (λ cur c, numpy_step ∅ t W H cur (0%nat, c)) clips
        (Py.ret cur) = Py.ret cur'
      ∧ raster_eq (fold_left (static_step W H) clips canvas) cur'.
Proof.
  induction clips as [|c r IH]; intros Hs Hd Hc Hn canvas cur Heq Hw Hh.
  { by exists cur. }
  apply Forall_cons in Hs as [Hsl Hs]. apply Forall_cons in Hd as [Hfd Hd].
  apply Forall_cons in Hc as [Hns Hc]. apply Forall_cons in Hn as [Hno Hn].
  cbn [fold_left]. unfold static_step at 2, numpy_step at 2, numpy_blit.
  rewrite (span_playing duration c t Hfd Hspan). cbn [negb].
  rewrite lookup_empty.
  pose proof (blit_static_dynamic W H c t Hsl Hns) as Hrel.
  destruct (blit_of W H c) as [[[[[sp mp] dx] dy] hm]|];
    destruct (dynamic_blit c t W H) as [[[[[[src dy1] dy2] dx1] dx2] ms]|];
    try done; [|by apply IH].
  destruct Hrel as (Hsp & -> & -> & Hx2 & Hy2 & ? & ? & ? & ? & ? & ? & Hm).
  assert (mp = None) as ->.
  { destruct mp as [m|]; [|done]. destruct ms as [m'|]; [|done].
    destruct Hm as ([? Hsome] & _). by rewrite Hno in Hsome. }
  unfold paste_blit, apply_blit. cbn [Py.bind Py.ret].
  destruct (slice_assign_paste cur canvas src sp dy1 dy2 dx1 dx2)
    as (cur' & -> & Heq'); try done; try lia.
  apply IH; try done.
  - destruct Heq' as (Hw' & _). destruct Heq as (Hw0 & _).
    cbn [width paste] in Hw'. lia.
  - destruct Heq' as (_ & Hh' & _). destruct Heq as (_ & Hh0 & _).
    cbn [height paste] in Hh'. lia.
Qed.

End Flatten.

(** *** The image clips of the examples *)
Lemma image_clip_static_layer (W H : Z) (img : raster rgb) (xy : Z * Z)
    (st : Q) (en : option Q) (layer : Z) :
  static_layer W H (Examples.image_clip img (λ _, xy) st en layer).
Proof.
  constructor.
  - split; [by eexists|]. by intros m Hm.
  - done.
  - intros i xy' m p Hnb Hp. cbn in Hnb, Hp. simplify_eq.
    eexists. split; [reflexivity|apply raster_eq_refl].
  - intros i xy' m Hnb. cbn in Hnb. by simplify_eq.
  - by intros mp p Hm.
Qed.

Lemma image_clip_static_background (img : raster rgb) (place : Q → Z * Z)
    (st : Q) (en : option Q) (layer : Z) :
  static_background (Examples.image_clip img place st en layer).
Proof.
  constructor; [done|]. intros p Hp. cbn in Hp. simplify_eq.
  apply raster_eq_refl.
Qed.




(** There the cached frame shows the layer at [x = 0] while the
    flattening at time 1/2 shows it at [x = 1]. *)
Lemma jumping_frames_differ :
  Py.bind (frame_function Examples.jumping_comp (1 # 2)) (λ r, Py.ret (px r 0 0))
  = Py.ret Examples.red
  ∧ Py.bind (fresh_frame Examples.jumping_comp (1 # 2)) (λ r, Py.ret (px r 0 0))
    = Py.ret (0, 0, 0).
Proof. by vm_compute. Qed.

(** After the end of the composite the cached frame is still returned,
    while the flattening computed afresh has no layer left. *)
Lemma cached_frame_outside_span :
  Py.bind (frame_function Examples.one_pixel_comp 7) (λ r, Py.ret (px r 0 0))
  = Py.ret Examples.red
  ∧ Py.bind (fresh_frame Examples.one_pixel_comp 7) (λ r, Py.ret (px r 0 0))
    = Py.ret (0, 0, 0).
Proof. by vm_compute. Qed.

End StaticCacheFacts.

(** ** More on the compositor *)
Module CompositeFacts.
Import Raster Composite.

(** [max] of a non-empty list is one of its elements and bounds them
    all. *)
Lemma fold_qmax_spec (r : list Q) :
  ∀ x, fold_left Py.qmax r x ∈ x :: r
       ∧ ∀ y, y ∈ x :: r → (y <= fold_left Py.qmax r x)%Q.
Proof.
  induction r as [|z r IH]; intros x; cbn [fold_left].
  - split; [apply elem_of_cons; by left|].
    intros y Hy. apply elem_of_cons in Hy as [->|Hy]; [apply Qle_refl|].
    by apply elem_of_nil in Hy.
  - destruct (IH (Py.qmax x z)) as [Hin Hle].
    assert ((x <= Py.qmax x z)%Q ∧ (z <= Py.qmax x z)%Q
            ∧ (Py.qmax x z = x ∨ Py.qmax x z = z)) as (Hx & Hz & Hm).
    { unfold Py.qmax. destruct (Qlt_le_dec x z) as [Hlt|Hge].
      - split; [by apply Qlt_le_weak|]. split; [apply Qle_refl|by right].
      - split; [apply Qle_refl|]. split; [done|by left]. }
    split.
    + apply elem_of_cons in Hin as [Heq|Hin].
      * rewrite Heq. destruct Hm as [->| ->].
        -- apply elem_of_cons; by left.
        -- apply elem_of_cons; right. apply elem_of_cons; by left.
      * apply elem_of_cons; right. by apply elem_of_cons; right.
    + intros y Hy. apply elem_of_cons in Hy as [->|Hy].
      * apply Qle_trans with (Py.qmax x z); [done|].
        apply Hle, elem_of_cons. by left.
      * apply elem_of_cons in Hy as [->|Hy].
        -- apply Qle_trans with (Py.qmax x z); [done|].
           apply Hle, elem_of_cons. by left.
        -- apply Hle, elem_of_cons. by right.
Qed.

(** The duration [__init__] computes from the ends of the layers. *)
Lemma composite_duration_spec (clips : list Clip) (dur : option Q) :
  composite_duration clips = Py.ret dur →
  match dur with
  | Some d =>
      Forall (λ c, ∃ e, end_ c = Some e ∧ (e <= d)%Q) clips
      ∧ Exists (λ c, end_ c = Some d) clips
  | None => Exists (λ c, end_ c = None) clips
  end.
Proof.
  unfold composite_duration. cbn [clip_end Clip_like].
  destruct (forallb _ _) eqn:Hall.
  - assert (omap id (map end_ clips) ≠ [] →
            ∀ d, d ∈ omap id (map end_ clips) →
                 Exists (λ c, end_ c = Some d) clips) as Hex.
    { intros _ d Hd. apply list_elem_of_omap in Hd as (o & Ho & Hd).
      cbn in Hd. subst o. apply list_elem_of_In, in_map_iff in Ho
        as (c & Hc & Hin).
      apply Exists_exists. exists c. split; [|done].
      by apply list_elem_of_In. }
    assert (∀ c, c ∈ clips →
              ∃ e, end_ c = Some e ∧ e ∈ omap id (map end_ clips)) as Hends.
    { intros c Hc. rewrite forallb_forall in Hall.
      assert (In (end_ c) (map end_ clips)) as Hin
        by (apply in_map, list_elem_of_In, Hc).
      specialize (Hall _ Hin). apply bool_decide_eq_true in Hall as [e He].
      exists e. split; [done|]. apply list_elem_of_omap.
      exists (Some e). split; [|done].
      rewrite <- He. by apply list_elem_of_In. }
    destruct (omap id (map end_ clips)) as [|x r] eqn:E;
      cbn [Py.max_list Py.bind Py.ret Py.raise]; [done|].
    intros Heq. injection Heq as <-.
    destruct (fold_qmax_spec r x) as [Hin Hle]. split.
    + apply Forall_forall. intros c Hc.
      destruct (Hends c Hc) as (e & He & Hine). exists e. split; [done|].
      by apply Hle.
    + by apply Hex.
  - intros Heq. injection Heq as <-.
    apply not_true_iff_false in Hall.
    apply Exists_exists.
    destruct (decide (Forall (λ c, is_Some (end_ c)) clips)) as [Hf|Hf].
    + destruct Hall. apply forallb_forall. intros o Ho.
      apply in_map_iff in Ho as (c & <- & Hc).
      apply bool_decide_eq_true. rewrite Forall_forall in Hf.
      by apply Hf, list_elem_of_In.
    + apply not_Forall_Exists in Hf; [|apply _].
      apply Exists_exists in Hf as (c & Hc & Hnone).
      exists c. split; [done|]. destruct (end_ c) eqn:E; [|done].
      destruct Hnone. rewrite E. by eexists.
Qed.

(** More of what the constructor leaves in the composite. *)
Lemma init_fps `{!VideoClipLib} (clips : list Clip)
    (size_arg : option (Z * Z)) (bg_color : option color)
    (use_bgclip : bool) (comp : CompositeVideoClip) :
  init clips size_arg bg_color use_bgclip = Py.ret comp →
  c_fps comp = composite_fps clips.
Proof.
  intros Hinit. unfold init in Hinit.
  destruct use_bgclip, size_arg as [sz|], bg_color as [c|],
    (Py.getitem clips 0) as [e|c0];
    cbn [Py.bind Py.ret negb default from_option id] in Hinit; try done.
  all: destruct (composite_duration _) as [e'|d] eqn:Hd;
    cbn [Py.bind Py.ret] in Hinit; try done.
  all: unfold Py.bind, Py.ret in Hinit.
  all: repeat match type of Hinit with
         | context [match ?x with _ => _ end] =>
             destruct x eqn:?; try done
         end.
  all: by injection Hinit as <-.
Qed.

Lemma init_mask_of `{!VideoClipLib} (clips : list Clip)
    (size_arg : option (Z * Z)) (bg_color : option color)
    (comp : CompositeVideoClip) :
  init clips size_arg bg_color false = Py.ret comp →
  match bg_color with
  | Some _ => c_mask comp = None
  | None =>
      ∃ m, c_mask comp = Some m
           ∧ init_mask (map mask_of (c_clips comp)) (c_size comp)
               (ColorLevel 0) = Py.ret m
  end.
Proof.
  intros Hinit. unfold init in Hinit.
  destruct size_arg as [sz|], bg_color as [c|],
    (Py.getitem clips 0) as [e|c0];
    cbn [Py.bind Py.ret negb default from_option id] in Hinit; try done.
  all: destruct (composite_duration _) as [e'|d] eqn:Hd;
    cbn [Py.bind Py.ret] in Hinit; try done.
  all: rewrite ?bool_decide_eq_true_2 in Hinit by done.
  all: rewrite ?bool_decide_eq_false_2 in Hinit by done.
  all: cbn [Py.bind Py.ret] in Hinit.
  all: try (destruct (init_mask _ _ _) as [e''|m] eqn:Hm;
            cbn [Py.bind Py.ret] in Hinit; [done|]).
  all: destruct (_precompute_compositing _ _ _ _) as [[cached bp] bn].
  all: injection Hinit as <-; cbn; try done.
  all: exists m; split; [done|]; by destruct (mask _) in Hm.
Qed.

(** X1. The duration of a composite the constructor returns: when
    every layer has an end it is the largest of them (no layer ends
    later, and one layer ends exactly then); when some layer has no
    end the composite has no duration. *)
Theorem composite_duration_is_latest_end `{!VideoClipLib}
    (clips : list Clip) (size_arg : option (Z * Z))
    (bg_color : option color) (use_bgclip : bool)
    (comp : CompositeVideoClip) :
  init clips size_arg bg_color use_bgclip = Py.ret comp →
  match c_duration comp with
  | Some d =>
      Forall (λ c, ∃ e, end_ c = Some e ∧ (e <= d)%Q) (c_clips comp)
      ∧ Exists (λ c, end_ c = Some d) (c_clips comp)
  | None => Exists (λ c, end_ c = None) (c_clips comp)
  end.
Proof.
  intros Hinit.
  destruct (ZOrderFacts.init_inv _ _ _ _ _ Hinit) as (_ & Hdur & _).
  by apply composite_duration_spec.
Qed.

Lemma composite_duration_is_latest_end_witness :
  match c_duration Examples.three_layers_comp with
  | Some d =>
      Forall (λ c, ∃ e, end_ c = Some e ∧ (e <= d)%Q)
        (c_clips Examples.three_layers_comp)
      ∧ Exists (λ c, end_ c = Some d) (c_clips Examples.three_layers_comp)
  | None => Exists (λ c, end_ c = None) (c_clips Examples.three_layers_comp)
  end.
Proof.
  exact (composite_duration_is_latest_end (H := Examples.plain_clips)
           Examples.three_layers (Some (2, 2)) (Some Examples.black) false
           Examples.three_layers_comp eq_refl).
Defined.

(** The truthy frame rates of a list of clips. *)
Lemma composite_fps_spec (clips : list Clip) :
  match composite_fps clips with
  | Some f =>
      Exists (λ c, fps c = Some f) clips
      ∧ Forall (λ c, ∀ g, fps c = Some g → Qeq_bool g 0 = false →
                          (g <= f)%Q) clips
  | None => Forall (λ c, ∀ g, fps c = Some g → Qeq_bool g 0 = true) clips
  end.
Proof.
  unfold composite_fps. cbn [clip_fps Clip_like].
  set (truthy := λ c : Clip, match fps c with
                             | Some f => if Qeq_bool f 0 then None else Some f
                             | None => None
                             end).
  assert (∀ c g, fps c = Some g → Qeq_bool g 0 = false →
                 truthy c = Some g) as Ht.
  { intros c g Hg Hz. unfold truthy. by rewrite Hg, Hz. }
  assert (∀ c g, truthy c = Some g → fps c = Some g) as Ht'.
  { intros c g. unfold truthy. destruct (fps c) as [f|]; [|done].
    destruct (Qeq_bool f 0); [done|]. by intros [= ->]. }
  destruct (omap truthy clips) as [|x r] eqn:E.
  - apply Forall_forall. intros c Hc g Hg.
    destruct (Qeq_bool g 0) eqn:Hz; [done|].
    assert (g ∈ omap truthy clips) as Hin
      by (apply list_elem_of_omap; exists c; auto).
    rewrite E in Hin. by apply elem_of_nil in Hin.
  - destruct (fold_qmax_spec r x) as [Hin Hle]. rewrite <- E in Hin.
    split.
    + apply list_elem_of_omap in Hin as (c & Hc & Hf).
      apply Exists_exists. exists c. split; [done|]. by apply Ht'.
    + apply Forall_forall. intros c Hc g Hg Hz. apply Hle. rewrite <- E.
      apply list_elem_of_omap. exists c. auto.
Qed.

(** X2. The frame rate of a composite is the highest frame rate among
    the clips given to the constructor (the background clip included
    when [use_bgclip] is set); a clip without one, or with 0, does not
    count, and when none counts the composite has no frame rate. *)
Theorem composite_fps_is_highest `{!VideoClipLib} (clips : list Clip)
    (size_arg : option (Z * Z)) (bg_color : option color)
    (use_bgclip : bool) (comp : CompositeVideoClip) :
  init clips size_arg bg_color use_bgclip = Py.ret comp →
  match c_fps comp with
  | Some f =>
      Exists (λ c, fps c = Some f) clips
      ∧ Forall (λ c, ∀ g, fps c = Some g → Qeq_bool g 0 = false →
                          (g <= f)%Q) clips
  | None => Forall (λ c, ∀ g, fps c = Some g → Qeq_bool g 0 = true) clips
  end.
Proof.
  intros Hinit. rewrite (init_fps _ _ _ _ _ Hinit).
  apply composite_fps_spec.
Qed.

Lemma composite_fps_is_highest_witness :
  c_fps Examples.mixed_rates_comp = Some 30%Q
  ∧ Forall (λ c, ∀ g, fps c = Some g → Qeq_bool g 0 = false →
                      (g <= 30)%Q) Examples.mixed_rates.
Proof.
  pose proof (composite_fps_is_highest (H := Examples.plain_clips)
                Examples.mixed_rates (Some (2, 2)) (Some Examples.black)
                false Examples.mixed_rates_comp eq_refl) as Hfps.
  change (c_fps Examples.mixed_rates_comp) with (Some 30%Q) in Hfps.
  split; [reflexivity|exact (proj2 Hfps)].
Defined.

(** [sorted] on a list that is in order, and through a map that
    keeps the keys. *)
Section SortedAgain.
Context {A : Type} (key : A → Z).

Lemma insert_by_key_in_order (x : A) (l : list A) :
  StronglySorted (λ a b, key a ≤ key b) l →
  StronglySorted (λ a b, key a ≤ key b) (Py.insert_by_key key x l).
Proof.
  induction 1 as [|y r Hr IH Hall]; cbn [Py.insert_by_key].
  - repeat constructor.
  - destruct (key x <=? key y) eqn:Hle.
    + apply Z.leb_le in Hle. constructor; [by constructor|].
      constructor; [done|]. eapply Forall_impl; [exact Hall|].
      intros z Hz. cbn in Hz. lia.
    + apply Z.leb_gt in Hle. constructor; [done|].
      assert (Py.insert_by_key key x r ≡ₚ x :: r) as Hperm
        by apply SortFacts.insert_by_key_perm.
      rewrite Hperm. constructor; [lia|done].
Qed.

Lemma sorted_in_order (l : list A) :
  StronglySorted (λ a b, key a ≤ key b) (Py.sorted key l).
Proof.
  induction l as [|x r IH]; [constructor|].
  by apply insert_by_key_in_order.
Qed.

Lemma sorted_of_in_order (l : list A) :
  StronglySorted (λ a b, key a ≤ key b) l → Py.sorted key l = l.
Proof.
  induction 1 as [|x r Hr IH Hall]; [done|].
  cbn [Py.sorted foldr]. fold (Py.sorted key r). rewrite IH.
  destruct r as [|y r']; [done|]. cbn [Py.insert_by_key].
  apply Forall_cons in Hall as [Hxy _].
  by assert ((key x <=? key y) = true) as -> by (apply Z.leb_le; lia).
Qed.

Lemma sorted_idem (l : list A) :
  Py.sorted key (Py.sorted key l) = Py.sorted key l.
Proof. apply sorted_of_in_order, sorted_in_order. Qed.

End SortedAgain.

Lemma sorted_map {A B} (key : A → Z) (key' : B → Z) (f : A → B)
    (l : list A) :
  (∀ a, key' (f a) = key a) →
  Py.sorted key' (map f l) = map f (Py.sorted key l).
Proof.
  intros Hk. induction l as [|x r IH]; [done|].
  cbn [map Py.sorted foldr]. fold (Py.sorted key' (map f r)).
  fold (Py.sorted key r). rewrite IH.
  generalize (Py.sorted key r). intros s.
  induction s as [|y s IHs]; [done|].
  cbn [map Py.insert_by_key]. rewrite !Hk.
  destruct (key x <=? key y); [done|]. cbn [map]. by rewrite IHs.
Qed.

(** X3. A composite built on a colour ([bg_color] given) has no mask.
    One built without a colour and without a background clip has a
    mask composite of the same size and the same duration, with one
    mask layer per layer, in the order of the layers, each with the
    start, the end, the layer index and the position of its layer. *)
Theorem transparent_composite_mask `{!VideoClipLib} (clips : list Clip)
    (size_arg : option (Z * Z)) (bg_color : option color)
    (comp : CompositeVideoClip) :
  init clips size_arg bg_color false = Py.ret comp →
  match bg_color with
  | Some _ => c_mask comp = None
  | None =>
      ∃ m, c_mask comp = Some m
           ∧ mc_size m = c_size comp
           ∧ mc_duration m = c_duration comp
           ∧ Forall2 (λ k c, m_start k = start c ∧ m_end k = end_ c
                             ∧ m_layer_index k = layer_index c
                             ∧ m_pos k = pos c)
               (mc_clips m) (c_clips comp)
  end.
Proof.
  intros Hinit. pose proof (init_mask_of _ _ _ _ Hinit) as Hmask.
  destruct bg_color as [c|]; [done|]. destruct Hmask as (m & Hm & Hbuild).
  destruct (ZOrderFacts.init_inv _ _ _ _ _ Hinit) as (Hclips & Hdur & _).
  exists m. split; [done|]. unfold init_mask in Hbuild.
  assert (order_by_layer (map mask_of (c_clips comp))
          = map mask_of (c_clips comp)) as Hord.
  { unfold order_by_layer.
    rewrite (sorted_map (clip_layer_index (C := Clip))
               (clip_layer_index (C := MaskClip)) mask_of) by done.
    f_equal. rewrite Hclips. apply sorted_idem. }
  rewrite Hord in Hbuild.
  assert (composite_duration (map mask_of (c_clips comp))
          = composite_duration (c_clips comp)) as Hsame.
  { unfold composite_duration. by rewrite !map_map. }
  rewrite Hsame, Hdur in Hbuild. cbn [Py.bind Py.ret] in Hbuild.
  injection Hbuild as <-. cbn [mc_size mc_duration mc_clips].
  split; [done|]. split; [done|].
  apply Forall2_fmap_l, Forall_Forall2_diag, Forall_forall.
  by intros c _.
Qed.

Lemma transparent_composite_mask_witness :
  ∃ m, c_mask Examples.transparent_comp = Some m
       ∧ mc_duration m = Some 5%Q
       ∧ length (mc_clips m) = 3%nat.
Proof.
  destruct (transparent_composite_mask (H := Examples.plain_clips)
              Examples.three_layers (Some (2, 2)) None
              Examples.transparent_comp eq_refl)
    as (m & Hm & _ & Hdur & Hall).
  exists m. split; [exact Hm|]. split; [exact Hdur|].
  exact (Forall2_length _ _ _ Hall).
Defined.

(** X4. [_make_numpy_canvas] returns an array of exactly the size
    asked for: the top-left part of the background frame where the
    frame reaches, black everywhere else. *)
Theorem numpy_canvas_crops_and_pads (bg : Clip) (t : Q) (W H : Z) :
  0 ≤ W → 0 ≤ H →
  let bg3 := to_rgb3 (get_frame_uint8 bg (t - start bg)) in
  let canvas := _make_numpy_canvas bg t W H in
  width canvas = W ∧ height canvas = H
  ∧ ∀ x y, 0 ≤ x < W → 0 ≤ y < H →
      px canvas x y
      = if (x <? width bg3) && (y <? height bg3) then px bg3 x y
        else (0, 0, 0).
Proof.
  intros HW HH bg3 canvas.
  destruct (StaticCacheFacts.numpy_canvas_dims bg t W H HW HH) as [Hw Hh].
  split; [done|]. split; [done|]. intros x y Hx Hy.
  unfold canvas, _make_numpy_canvas. fold bg3. cbv zeta.
  destruct ((height bg3 >=? H) && (width bg3 >=? W)) eqn:Hc.
  - apply andb_true_iff in Hc as [Hch Hcw].
    rewrite Z.geb_leb in Hch, Hcw. apply Z.leb_le in Hch, Hcw.
    assert ((x <? width bg3) && (y <? height bg3) = true) as ->.
    { apply andb_true_iff. split; apply Z.ltb_lt; lia. }
    unfold np_slice. cbn [px].
    replace (Z.min 0 (width bg3)) with 0 by lia.
    replace (Z.min 0 (height bg3)) with 0 by lia.
    by rewrite !Z.add_0_r.
  - cbn [px].
    assert ((0 <=? x) = true) as -> by (apply Z.leb_le; lia).
    assert ((0 <=? y) = true) as -> by (apply Z.leb_le; lia).
    cbn [andb].
    assert ((x <? Z.min (width bg3) W) = (x <? width bg3)) as ->.
    { destruct (x <? width bg3) eqn:E.
      - apply Z.ltb_lt in E. apply Z.ltb_lt. lia.
      - apply Z.ltb_ge in E. apply Z.ltb_ge. lia. }
    assert ((y <? Z.min (height bg3) H) = (y <? height bg3)) as ->.
    { destruct (y <? height bg3) eqn:E.
      - apply Z.ltb_lt in E. apply Z.ltb_lt. lia.
      - apply Z.ltb_ge in E. apply Z.ltb_ge. lia. }
    by rewrite andb_true_r.
Qed.

Lemma numpy_canvas_crops_and_pads_witness :
  let bg := Examples.image_clip (fill 1 1 Examples.red) (λ _, (0, 0))
              0 None 0 in
  let canvas := _make_numpy_canvas bg 3 2 1 in
  width canvas = 2 ∧ height canvas = 1
  ∧ px canvas 0 0 = Examples.red ∧ px canvas 1 0 = (0, 0, 0).
Proof.
  intros bg canvas.
  destruct (numpy_canvas_crops_and_pads bg 3 2 1) as (Hw & Hh & Hpx);
    [lia|lia|].
  split; [exact Hw|]. split; [exact Hh|].
  split; [apply (Hpx 0 0); lia|apply (Hpx 1 0); lia].
Defined.

(** X5. At a time when no layer is playing, a composite without a
    cached frame returns its background canvas (the PIL canvas when
    some layer has a mask, the numpy canvas otherwise). *)
Theorem idle_frame_is_background (self : CompositeVideoClip) (t : Q) :
  _cached_frame self = None →
  Forall (λ c, is_playing c t = false) (c_clips self) →
  frame_function self t
  = Py.ret (if _any_masks self
            then pil_canvas (c_bg self) t (c_size self).1 (c_size self).2
            else _make_numpy_canvas (c_bg self) t (c_size self).1
                   (c_size self).2).
Proof.
  intros Hcache Hidle. unfold frame_function, uncached_frame.
  rewrite Hcache. destruct (c_size self) as [W H]. cbn [fst snd].
  assert (∀ (A : Type) (g : A → nat * Clip → A) (a : A),
            (∀ a i c, is_playing c t = false → g a (i, c) = a) →
            ∀ k, fold_left g (imap (λ i c, ((k + i)%nat, c)) (c_clips self)) a
                 = a) as Hfold.
  { intros A g a Hg. induction Hidle as [|c r Hc Hr IH]; intros k; [done|].
    rewrite imap_cons. cbn [fold_left]. rewrite Hg by done.
    rewrite (imap_ext _ (λ i c, ((S k + i)%nat, c)))
      by (intros; simpl; f_equal; lia).
    apply IH. }
  destruct (_any_masks self).
  - unfold _frame_pil_canvas, Py.enumerate. f_equal.
    apply (Hfold _ _ _) with (k := 0%nat).
    intros a i c Hc. unfold pil_step. by rewrite Hc.
  - unfold _frame_numpy, Py.enumerate.
    apply (Hfold _ _ _) with (k := 0%nat).
    intros a i c Hc. unfold numpy_step, numpy_blit. by rewrite Hc.
Qed.

Lemma idle_frame_is_background_witness :
  frame_function Examples.jumping_idle 7
  = Py.ret (_make_numpy_canvas (c_bg Examples.jumping_idle) 7 2 1).
Proof.
  apply (idle_frame_is_background Examples.jumping_idle 7);
    [reflexivity|].
  repeat constructor.
Defined.

(** *** The pre-computed blit data *)
Section BlitData.
Variables (W H : Z) (duration : option Q).

Local Abbreviation np_of :=
  (λ c : Clip, match classify W H c with
               | Blit _ (Some bn) => Some bn
               | _ => None
               end).

(** The numpy blit data the loop keeps, as [precompute_fold] has it
    for the PIL data. *)
Lemma precompute_fold_np (clips : list Clip) :
  ∀ k st0 i,
    pre_blit_np
      (fold_left (λ st '(i, clip), precompute_clip W H duration st i clip)
         (imap (λ i c, ((k + i)%nat, c)) clips) st0) !! i
    = if decide (k ≤ i)%nat then
        match clips !! (i - k)%nat ≫= np_of with
        | Some b => Some b
        | None => pre_blit_np st0 !! i
        end
      else pre_blit_np st0 !! i.
Proof.
  induction clips as [|c r IH]; intros k st0 i.
  - cbn. by destruct (decide _).
  - rewrite imap_cons. cbn [fold_left]. rewrite Nat.add_0_r.
    rewrite (imap_ext _ (λ i c, ((S k + i)%nat, c)))
      by (intros; simpl; f_equal; lia).
    rewrite IH. unfold precompute_clip.
    destruct (decide (S k ≤ i)%nat) as [Hi|Hi].
    + rewrite decide_True by lia.
      replace (i - k)%nat with (S (i - S k)) by lia. cbn [lookup list_lookup].
      destruct (r !! (i - S k)%nat ≫= _); [done|].
      destruct (classify W H c) as [| |bp [bn|]]; cbn; try done.
      by rewrite lookup_insert_ne by lia.
    + destruct (decide (k ≤ i)%nat) as [Hk|Hk].
      * assert (i = k) as -> by lia. rewrite Nat.sub_diag. cbn.
        destruct (classify W H c) as [| |bp [bn|]]; cbn; try done.
        by rewrite lookup_insert_eq.
      * destruct (classify W H c) as [| |bp [bn|]]; cbn; try done.
        by rewrite lookup_insert_ne by lia.
Qed.

(** The box of a pre-computed blit: on the canvas and not empty. *)
Lemma classify_box (c : Clip) (sp : raster rgb) (mp : option (raster Z))
    (dx dy : Z) (hm : bool) (bn : option blit_np) :
  classify W H c = Blit (sp, mp, dx, dy, hm) bn →
  ∃ p x1 y1 x2 y2,
    _cached_pil c = Some p
    ∧ 0 ≤ x1 < x2 ∧ x2 ≤ width p ∧ 0 ≤ y1 < y2 ∧ y2 ≤ height p
    ∧ 0 ≤ dx ∧ dx + (x2 - x1) ≤ W ∧ 0 ≤ dy ∧ dy + (y2 - y1) ≤ H
    ∧ width sp = x2 - x1 ∧ height sp = y2 - y1
    ∧ hm = bool_decide (is_Some (mask c))
    ∧ bn = (λ cached,
              (to_rgb3 (nd_slice y1 y2 x1 x2 cached),
               dy, dy + (y2 - y1), dx, dx + (x2 - x1)))
           <$> _cached_uint8 c.
Proof.
  unfold classify. intros Hc.
  destruct (_cached_pil c) as [p|] eqn:Hp; [|done].
  destruct (bool_decide (is_Some (mask c)) && _); [done|].
  destruct (negb (position_eqb (pos c 0) (pos c 1))); [done|].
  destruct (new_blit_on c (start c) W H) as [[[img [x y]] cm]|]; [|done].
  cbv zeta in Hc.
  destruct (blit_box W H (width p) (height p) x y)
    as [[[[[[x1 y1] x2] y2] dx1] dy1]|] eqn:Hbox; [|done].
  apply StaticCacheFacts.blit_box_spec in Hbox.
  injection Hc as <- <- <- <- <- <-.
  exists p, x1, y1, x2, y2. split; [done|].
  repeat (split; [lia|]).
  assert (∀ A (r : raster A),
    width r = width p → height r = height p →
    width (if (x1 =? 0) && (y1 =? 0) && (x2 =? width p) && (y2 =? height p)
           then r else crop x1 y1 x2 y2 r) = x2 - x1
    ∧ height (if (x1 =? 0) && (y1 =? 0) && (x2 =? width p)
                 && (y2 =? height p)
              then r else crop x1 y1 x2 y2 r) = y2 - y1) as Hdims.
  { intros A r Hw Hh.
    destruct ((x1 =? 0) && (y1 =? 0) && (x2 =? width p) && (y2 =? height p))
      eqn:Hnc; [|done].
    rewrite !andb_true_iff, !Z.eqb_eq in Hnc. lia. }
  destruct (Hdims _ p eq_refl eq_refl) as [Hw Hh].
  split; [done|]. split; [done|]. done.
Qed.

End BlitData.

(** What [_precompute_compositing] hands back: the blit data of each
    clip under its position, and a cached frame only with PIL data. *)
Lemma precompute_lookup (W H : Z) (clips : list Clip) (bg : Clip)
    (duration : option Q) (cached : option (raster rgb))
    (bp : gmap nat blit_pil) (bn : gmap nat blit_np) :
  _precompute_compositing (W, H) clips bg duration = (cached, bp, bn) →
  (∀ i, bp !! i = clips !! i ≫= blit_of W H)
  ∧ (∀ i, bn !! i
          = clips !! i ≫= λ c, match classify W H c with
                               | Blit _ (Some b) => Some b
                               | _ => None
                               end)
  ∧ (is_Some cached → bp ≠ ∅).
Proof.
  unfold _precompute_compositing, Py.enumerate.
  pose proof (StaticCacheFacts.precompute_fold W H duration clips 0
    {| all_static := true; all_always_playing := true;
       pre_blit_pil := ∅; pre_blit_np := ∅ |}) as Hf.
  pose proof (precompute_fold_np W H duration clips 0
    {| all_static := true; all_always_playing := true;
       pre_blit_pil := ∅; pre_blit_np := ∅ |}) as Hn.
  cbv zeta in Hf. cbn [Nat.add] in Hf, Hn.
  set (st := fold_left _ _ _) in *.
  destruct Hf as (Hl & _ & _). intros Heq.
  injection Heq as Hcached <- <-. split; [|split].
  - intros i. rewrite Hl, decide_True, Nat.sub_0_r by lia.
    by destruct (_ ≫= _).
  - intros i. rewrite Hn, decide_True, Nat.sub_0_r by lia.
    by destruct (_ ≫= _).
  - intros [f Hf]. subst cached.
    destruct (all_static st && all_always_playing st && _) eqn:Hc; [|done].
    apply andb_true_iff in Hc as [_ Hc]. apply bool_decide_eq_true in Hc.
    intros Hempty. apply Hc. rewrite Hempty. apply dom_empty_L.
Qed.

(** X6. The blit data the constructor pre-computes.  An entry of
    [_clip_blit_pil] sits under the position of a layer that has a
    cached raster; its source is not empty and its destination box
    lies on the canvas; its [has_mask] flag says whether the layer has
    a mask.  Every entry of [_clip_blit_np] has an entry in
    [_clip_blit_pil], and a frame is cached only when there is PIL
    data. *)
Theorem blit_data_invariant `{!VideoClipLib} (clips : list Clip)
    (size_arg : option (Z * Z)) (bg_color : option color)
    (use_bgclip : bool) (comp : CompositeVideoClip) :
  init clips size_arg bg_color use_bgclip = Py.ret comp →
  (∀ i sp mp dx dy hm,
     _clip_blit_pil comp !! i = Some (sp, mp, dx, dy, hm) →
     ∃ c, c_clips comp !! i = Some c ∧ is_Some (_cached_pil c)
          ∧ hm = bool_decide (is_Some (mask c))
          ∧ 0 < width sp ∧ 0 < height sp
          ∧ 0 ≤ dx ∧ dx + width sp ≤ (c_size comp).1
          ∧ 0 ≤ dy ∧ dy + height sp ≤ (c_size comp).2)
  ∧ (∀ i, is_Some (_clip_blit_np comp !! i) →
          is_Some (_clip_blit_pil comp !! i))
  ∧ (is_Some (_cached_frame comp) → _clip_blit_pil comp ≠ ∅).
Proof.
  intros Hinit.
  destruct (ZOrderFacts.init_inv _ _ _ _ _ Hinit) as (_ & _ & Hpre & _).
  destruct (c_size comp) as [W Hh]. cbn [fst snd].
  apply precompute_lookup in Hpre as (Hpil & Hnp & Hcached).
  split; [|split; [|done]].
  - intros i sp mp dx dy hm Hi. rewrite Hpil in Hi.
    destruct (c_clips comp !! i) as [c|]; [|done]. cbn in Hi.
    exists c. split; [done|]. unfold blit_of in Hi.
    destruct (classify W Hh c) as [| |bp' bn'] eqn:Hc; try done.
    injection Hi as ->.
    apply classify_box in Hc
      as (p & x1 & y1 & x2 & y2 & Hp & ? & ? & ? & ? & ? & ? & ? & ?
          & Hw & Hhh & Hm & _).
    split; [by eexists|]. split; [done|]. lia.
  - intros i [b Hb]. rewrite Hnp in Hb. rewrite Hpil.
    destruct (c_clips comp !! i) as [c|]; [|done]. cbn in Hb |- *.
    unfold blit_of. by destruct (classify W Hh c) as [| |bp' [bn'|]].
Qed.

Lemma blit_data_invariant_witness :
  (∀ i, is_Some (_clip_blit_np Examples.three_layers_comp !! i) →
        is_Some (_clip_blit_pil Examples.three_layers_comp !! i))
  ∧ _clip_blit_pil Examples.three_layers_comp ≠ ∅.
Proof.
  destruct (blit_data_invariant (H := Examples.plain_clips)
              Examples.three_layers (Some (2, 2)) (Some Examples.black)
              false Examples.three_layers_comp eq_refl)
    as (_ & Hnp & Hcached).
  split; [exact Hnp|]. apply Hcached. by eexists.
Defined.

(** *** The numpy path *)
Section NumpyPath.
Variables (np_cache : gmap nat blit_np) (t : Q) (W H : Z).

(** A blit whose source has the size of its destination box, the box
    lying on the canvas. *)
Local Abbreviation fits :=
  (λ b : blit_np,
     let '(src, dy1, dy2, dx1, dx2) := b in
     0 ≤ dx1 ∧ dx2 = dx1 + width src ∧ dx2 ≤ W
     ∧ 0 ≤ dy1 ∧ dy2 = dy1 + height src ∧ dy2 ≤ H
     ∧ 0 ≤ width src ∧ 0 ≤ height src).

Lemma slice_dims (a : ndarray) (x1 y1 x2 y2 : Z) :
  0 ≤ x1 < x2 → x2 ≤ nd_width a → 0 ≤ y1 < y2 → y2 ≤ nd_height a →
  width (to_rgb3 (nd_slice y1 y2 x1 x2 a)) = x2 - x1
  ∧ height (to_rgb3 (nd_slice y1 y2 x1 x2 a)) = y2 - y1.
Proof.
  intros Hx1 Hx2 Hy1 Hy2.
  destruct a as [r|r|r]; cbn [nd_width nd_height] in *;
    cbn [to_rgb3 nd_slice np_slice rgb_of map_px width height]; lia.
Qed.

(** The blit of the fallback always fits. *)
Lemma dynamic_blit_fits (c : Clip) (src : raster rgb) (dy1 dy2 dx1 dx2 : Z)
    (ms : option (raster Z)) :
  dynamic_blit c t W H = Some (src, dy1, dy2, dx1, dx2, ms) →
  fits (src, dy1, dy2, dx1, dx2).
Proof.
  unfold dynamic_blit.
  destruct (new_blit_on c t W H) as [[[[img|] [x y]] cm]|]; try done.
  cbv zeta.
  destruct (blit_box W H (nd_width img) (nd_height img) x y)
    as [[[[[[x1 y1] x2] y2] ddx] ddy]|] eqn:Hbox; [|done].
  apply StaticCacheFacts.blit_box_spec in Hbox.
  intros Heq. injection Heq as <- <- <- <- <- _.
  destruct (slice_dims img x1 y1 x2 y2) as [Hw Hh]; [lia..|].
  rewrite Hw, Hh. lia.
Qed.

(** With a cache of blits that fit, the loop of [_frame_numpy] never
    raises and keeps the size of the canvas. *)
Lemma numpy_fold_returns (clips : list Clip) :
  (∀ i b, np_cache !! i = Some b → fits b) →
  ∀ k cur, width cur = W → height cur = H →
    ∃ cur',
      fold_left (numpy_step np_cache t W H)
        (imap (λ i c, ((k + i)%nat, c)) clips) (Py.ret cur) = Py.ret cur'
      ∧ width cur' = W ∧ height cur' = H.
Proof.
  intros Hcache. induction clips as [|c r IH]; intros k cur Hw Hh.
  { by exists cur. }
  rewrite imap_cons. cbn [fold_left]. rewrite Nat.add_0_r.
  rewrite (imap_ext _ (λ i c, ((S k + i)%nat, c)))
    by (intros; simpl; f_equal; lia).
  unfold numpy_step at 2.
  destruct (numpy_blit np_cache t W H (k, c))
    as [[[[[src dy1] dy2] dx1] dx2]|] eqn:Hb; [|by apply IH].
  assert (fits (src, dy1, dy2, dx1, dx2)) as Hfits.
  { unfold numpy_blit in Hb. destruct (negb (is_playing c t)); [done|].
    destruct (np_cache !! k) as [b|] eqn:Hk.
    - injection Hb as ->. exact (Hcache k _ Hk).
    - destruct (dynamic_blit c t W H)
        as [[[[[[src' dy1'] dy2'] dx1'] dx2'] ms]|] eqn:Hd; [|done].
      injection Hb as <- <- <- <- <-. by apply dynamic_blit_fits in Hd. }
  cbn [apply_blit Py.bind Py.ret].
  destruct Hfits as (? & ? & ? & ? & ? & ? & ? & ?).
  destruct (StaticCacheFacts.slice_assign_paste cur cur src src
              dy1 dy2 dx1 dx2 (StaticCacheFacts.raster_eq_refl cur)
              (StaticCacheFacts.raster_eq_refl src))
    as (cur' & -> & (Hw' & Hh' & _)); [lia..|].
  cbn [width height paste] in Hw', Hh'. apply IH; lia.
Qed.

(** A pixel that no blit of the loop covers keeps the value of the
    canvas. *)
Lemma numpy_fold_uncovered (clips : list Clip) (x y : Z) :
  ∀ k cur final,
    fold_left (numpy_step np_cache t W H)
      (imap (λ i c, ((k + i)%nat, c)) clips) (Py.ret cur) = Py.ret final →
    (∀ i c b, clips !! i = Some c →
       numpy_blit np_cache t W H ((k + i)%nat, c) = Some b →
       covers b x y = false) →
    px final x y = px cur x y.
Proof.
  induction clips as [|c r IH]; intros k cur final Hfold Hcov.
  { cbn in Hfold. by injection Hfold as <-. }
  rewrite imap_cons in Hfold. cbn [fold_left] in Hfold.
  rewrite Nat.add_0_r in Hfold.
  rewrite (imap_ext _ (λ i c, ((S k + i)%nat, c))) in Hfold
    by (intros; simpl; f_equal; lia).
  assert (∀ i c' b, r !! i = Some c' →
            numpy_blit np_cache t W H ((S k + i)%nat, c') = Some b →
            covers b x y = false) as Hcov'.
  { intros i c' b Hi Hb. apply (Hcov (S i) c' b); [done|].
    by replace (k + S i)%nat with (S k + i)%nat by lia. }
  unfold numpy_step at 2 in Hfold.
  destruct (numpy_blit np_cache t W H (k, c))
    as [[[[[src dy1] dy2] dx1] dx2]|] eqn:Hb; [|by apply (IH (S k))].
  cbn [apply_blit Py.bind Py.ret] in Hfold.
  destruct (slice_assign cur dy1 dy2 dx1 dx2 src) as [e|cur'] eqn:Hs.
  { exfalso. clear -Hfold.
    assert (∀ l, fold_left (numpy_step np_cache t W H) l (inl e) = inl e)
      as Herr.
    { induction l as [|ic l IHl]; [done|]. cbn [fold_left].
      unfold numpy_step at 2.
      destruct (numpy_blit np_cache t W H ic)
        as [[[[[s1 a1] a2] a3] a4]|]; exact IHl. }
    by rewrite Herr in Hfold. }
  rewrite (IH (S k) cur' final Hfold Hcov').
  specialize (Hcov 0%nat c (src, dy1, dy2, dx1, dx2) eq_refl).
  rewrite Nat.add_0_r in Hcov.
  specialize (Hcov Hb). unfold covers in Hcov.
  unfold slice_assign in Hs. destruct (_ && _) in Hs; [|done].
  injection Hs as <-. cbn [px]. by rewrite Hcov.
Qed.

End NumpyPath.

(** X7. [_frame_numpy] never raises on a composite the constructor
    returned, as long as the cached array of every layer has the size
    of its cached image: the slice assignments all fit, and the frame
    has the size of the composite. *)
Theorem frame_numpy_never_raises `{!VideoClipLib} (clips : list Clip)
    (size_arg : option (Z * Z)) (bg_color : option color)
    (use_bgclip : bool) (comp : CompositeVideoClip) (t : Q) :
  init clips size_arg bg_color use_bgclip = Py.ret comp →
  0 ≤ (c_size comp).1 → 0 ≤ (c_size comp).2 →
  Forall (λ c, ∀ p a, _cached_pil c = Some p → _cached_uint8 c = Some a →
                      nd_width a = width p ∧ nd_height a = height p)
    (c_clips comp) →
  ∃ frame,
    _frame_numpy comp t (c_size comp).1 (c_size comp).2 = Py.ret frame
    ∧ width frame = (c_size comp).1 ∧ height frame = (c_size comp).2.
Proof.
  intros Hinit HW HH Hsame.
  destruct (ZOrderFacts.init_inv _ _ _ _ _ Hinit) as (_ & _ & Hpre & _).
  destruct (c_size comp) as [W Hh]. cbn [fst snd] in *.
  apply precompute_lookup in Hpre as (_ & Hnp & _).
  destruct (StaticCacheFacts.numpy_canvas_dims (c_bg comp) t W Hh HW HH)
    as [Hcw Hch].
  unfold _frame_numpy, Py.enumerate.
  apply (numpy_fold_returns (_clip_blit_np comp) t W Hh (c_clips comp))
    with (k := 0%nat); [|done|done].
  intros i [[[[src dy1] dy2] dx1] dx2] Hi. rewrite Hnp in Hi.
  destruct (c_clips comp !! i) as [c|] eqn:Hc; [|done]. cbn in Hi.
  destruct (classify W Hh c) as [| |[[[[sp mp] dx] dy] hm] [bn|]] eqn:Hcl;
    try done.
  injection Hi as ->.
  apply classify_box in Hcl
    as (p & x1 & y1 & x2 & y2 & Hp & ? & ? & ? & ? & ? & ? & ? & ?
        & Hw & Hhh & Hm & Hbn).
  destruct (_cached_uint8 c) as [a|] eqn:Ha; [|done].
  injection Hbn as -> -> -> -> ->.
  rewrite Forall_forall in Hsame.
  destruct (Hsame c (list_elem_of_lookup_2 _ _ _ Hc) p a Hp Ha) as [Haw Hah].
  destruct (slice_dims a x1 y1 x2 y2) as [Hsw Hsh]; [lia..|].
  rewrite Hsw, Hsh. lia.
Qed.

Lemma frame_numpy_never_raises_witness :
  ∃ frame,
    _frame_numpy Examples.three_layers_comp 2 2 2 = Py.ret frame
    ∧ width frame = 2 ∧ height frame = 2.
Proof.
  apply (frame_numpy_never_raises (H := Examples.plain_clips)
           Examples.three_layers (Some (2, 2)) (Some Examples.black) false
           Examples.three_layers_comp 2 eq_refl);
    [by vm_compute|by vm_compute|].
  change (c_clips Examples.three_layers_comp)
    with [Examples.image_clip (fill 2 2 Examples.green) (λ _, (0, 0))
            0 (Some 5%Q) 0;
          Examples.image_clip (fill 2 2 Examples.red) (λ _, (0, 0))
            0 (Some 5%Q) 1;
          Examples.image_clip (fill 2 2 Examples.blue) (λ _, (0, 0))
            0 (Some 5%Q) 1].
  repeat constructor; cbn in *; by simplify_eq.
Defined.

(** X8. In the frame [_frame_numpy] returns, a pixel that the blit of
    no playing layer covers shows the background canvas. *)
Theorem uncovered_pixel_is_background (self : CompositeVideoClip) (t : Q)
    (W H : Z) (final : raster rgb) (x y : Z) :
  _frame_numpy self t W H = Py.ret final →
  (∀ i c b, c_clips self !! i = Some c →
     numpy_blit (_clip_blit_np self) t W H (i, c) = Some b →
     covers b x y = false) →
  px final x y = px (_make_numpy_canvas (c_bg self) t W H) x y.
Proof.
  unfold _frame_numpy, Py.enumerate. intros Hfold Hcov.
  by apply (numpy_fold_uncovered (_clip_blit_np self) t W H (c_clips self)
              x y 0 _ final Hfold).
Qed.

Lemma uncovered_pixel_is_background_witness :
  ∃ final,
    _frame_numpy Examples.jumping_idle 0 2 1 = Py.ret final
    ∧ px final 1 0 = (0, 0, 0).
Proof.
  destruct (_frame_numpy Examples.jumping_idle 0 2 1) as [e|final] eqn:Hf;
    [by vm_compute in Hf|].
  exists final. split; [reflexivity|].
  rewrite (uncovered_pixel_is_background Examples.jumping_idle 0 2 1
             final 1 0 Hf); [reflexivity|].
  change (c_clips Examples.jumping_idle)
    with [Examples.image_clip (fill 1 1 Examples.red) Examples.slide
            0 (Some 5%Q) 0].
  intros [|i] c b Hi Hb; [|done].
  injection Hi as <-. vm_compute in Hb. by injection Hb as <-.
Defined.

End CompositeFacts.

(** ** More on the frame renderer *)
Module RenderFacts.
Import FancyText.

Section Render.
Context {Font : Type} `{!Pil Font}.
Variable pil_font : Font.

Lemma getitem_beyond {A} (l : list A) (i : Z) :
  Z.of_nat (length l) ≤ i →
  Py.getitem l i = Py.raise (Py.IndexError "list index out of range").
Proof.
  intros Hi. unfold Py.getitem.
  assert ((i <? 0) = false) as -> by (apply Z.ltb_ge; lia). cbv zeta.
  assert ((i <? Z.of_nat (length l)) = false) as -> by (apply Z.ltb_ge; lia).
  by rewrite andb_false_r.
Qed.



Lemma getitem_lookup {A} (l : list A) (i : Z) (a : A) :
  Py.getitem l i = Py.ret a → ∃ k, l !! k = Some a.
Proof.
  unfold Py.getitem. cbv zeta. destruct (_ && _); [|done].
  destruct (l !! _) as [b|] eqn:E; [|done].
  intros [= ->]. by eexists.
Qed.

Lemma paste_self_size (canvas src : image) (x y : Z) :
  Raster.width (paste_self canvas src x y) = Raster.width canvas
  ∧ Raster.height (paste_self canvas src x y) = Raster.height canvas.
Proof. done. Qed.

Lemma variant_size (words : list string) (fw : Z) (sty : Style) (k : nat)
    (frame : image) (m : mask) :
  variant pil_font words fw sty k = Py.ret (frame, m) →
  let h := (_text_bbox pil_font (Py.join " " words)).2
           + Z.max 20 (layout_pad sty + 10) * 2 in
  Raster.width frame = fw ∧ Raster.height frame = h
  ∧ Raster.width m = fw ∧ Raster.height m = h.
Proof.
  unfold variant, line_pieces.
  destruct (_text_bbox pil_font (Py.join " " words)) as [tw th].
  cbn [p_base p_img_h p_hi_boxes p_word_normal p_word_highlight snd].
  set (h := th + Z.max 20 (layout_pad sty + 10) * 2).
  set (base := if shadow_enabled sty then _ else _).
  assert (Raster.width base = fw ∧ Raster.height base = h) as [Hbw Hbh].
  { unfold base. destruct (shadow_enabled sty); [|done].
    unfold _draw_shadows_batch. by destruct (negb _). }
  unfold assemble_frame.
  set (boxes := if highlight_box_enabled sty then _ else _).
  destruct (if Py.nonempty boxes then _ else _) as [e|frame0] eqn:Hf0;
    [done|].
  assert (Raster.width frame0 = fw ∧ Raster.height frame0 = h) as Hf0s.
  { unfold Py.ret, Py.bind in Hf0.
    destruct (Py.nonempty boxes); [|by injection Hf0 as <-].
    destruct (Py.getitem boxes (Z.of_nat k)) as [e|[[bimg bpx] bpy]];
      [done|]. by injection Hf0 as <-. }
  cbn [Py.bind Py.ret].
  assert (∀ l (fr tx : image),
    Raster.width fr = fw ∧ Raster.height fr = h →
    Raster.width tx = fw ∧ Raster.height tx = h →
    let '(fr', tx') :=
      fold_left (λ '(fr, tx) '(i, (wn, wh)),
          let '(wimg, wpx, wpy) :=
            if bool_decide (i = k) then wh else wn in
          (paste_self fr wimg wpx wpy, paste_self tx wimg wpx wpy))
        l (fr, tx) in
    (Raster.width fr' = fw ∧ Raster.height fr' = h)
    ∧ (Raster.width tx' = fw ∧ Raster.height tx' = h)) as Hfold.
  { induction l as [|[i [wn wh]] l IH]; intros fr tx Hfr Htx; [done|].
    cbn [fold_left].
    destruct (if bool_decide (i = k) then wh else wn) as [[wimg wpx] wpy].
    by apply IH. }
  specialize (Hfold
    (Py.enumerate (zip
       (map (λ '(w, wx),
          let '(n_img, ox, oy) :=
            _render_word_image pil_font w (text_color sty)
              (stroke_color sty) (stroke_width sty) false None 6 in
          (n_img, wx + ox, Z.max 20 (layout_pad sty + 10) + oy))
          (zip words (word_xs_from pil_font ((fw - tw) / 2) words)))
       (map (λ '(w, wx),
          let '(h_img, hox, hoy) :=
            _render_word_image pil_font w (highlight_color sty)
              (stroke_color sty) (stroke_width sty)
              (glow_enabled sty && negb (shadow_enabled sty))
              (if glow_enabled sty && negb (shadow_enabled sty)
               then Some (glow_color sty) else None)
              (if glow_enabled sty && negb (shadow_enabled sty)
               then glow_size sty else 0) in
          (h_img, wx + hox, Z.max 20 (layout_pad sty + 10) + hoy))
          (zip words (word_xs_from pil_font ((fw - tw) / 2) words)))))
    frame0 (Raster.fill fw h transparent) Hf0s (conj eq_refl eq_refl)).
  destruct (fold_left _ _ _) as [fr' tx'].
  intros [= <- <-]. by destruct Hfold as [[? ?] [? ?]].
Qed.

(** X11. Every frame the renderer returns for a line has the same
    size, whatever the highlight index: the frame width asked for, and
    the height of the text plus twice the margin (at least 20 pixels,
    and 10 more than the padding the stroke, the shadow, the glow and
    the highlight box need). *)
Theorem rendered_frame_size (words : list string) (fw hi : Z)
    (sty : Style) (cache : option (gmap string CacheVal)) (frame : image) :
  cache ≫= (.!! "np_frames") = None →
  (_render_fancytext_frame pil_font words fw hi sty cache).1
  = Py.ret frame →
  Raster.width frame = fw
  ∧ Raster.height frame
    = (_text_bbox pil_font (Py.join " " words)).2
      + Z.max 20 (layout_pad sty + 10) * 2.
Proof.
  intros Hfresh Hcall.
  destruct (FrameCacheFacts.render_all_spec pil_font words fw sty)
    as (fs & ms & xs & x & y & Hall & Hlen & Hvar).
  assert (Py.getitem fs (Z.max 0 hi) = Py.ret frame) as Hget.
  { unfold _render_fancytext_frame in Hcall.
    destruct cache as [c|]; cbn in Hfresh.
    - by rewrite Hfresh, Hall in Hcall.
    - by rewrite Hall in Hcall. }
  apply getitem_lookup in Hget as [k Hk].
  destruct (Hvar k) as (fr & m & Hv & Hfs).
  { rewrite <- Hlen. by apply lookup_lt_Some in Hk. }
  rewrite Hk in Hfs. simplify_eq.
  by destruct (variant_size _ _ _ _ _ _ Hv) as (? & ? & _).
Qed.

End Render.

Import Examples.

Lemma rendered_frame_size_witness :
  ∃ frame,
    (_render_fancytext_frame tt ["HELLO"; "WORLD"]%string 640 1 plain_style
       None).1 = Py.ret frame
    ∧ Raster.width frame = 640 ∧ Raster.height frame = 96.
Proof.
  destruct (_render_fancytext_frame tt ["HELLO"; "WORLD"]%string 640 1
              plain_style None).1 as [e|frame] eqn:Hcall;
    [by vm_compute in Hcall|].
  exists frame. split; [reflexivity|].
  exact (rendered_frame_size tt ["HELLO"; "WORLD"]%string 640 1 plain_style
           None frame eq_refl Hcall).
Defined.



End RenderFacts.

(** ** The timing of the line clips *)
Module TimingFacts.
Import FancyText.

Section Timing.
Context {Font : Type} `{!Pil Font} `{!Lighting}.
Variable pil_font : Font.

(** The loop over the lines gives one clip per line; clip [k] starts
    after the words of the lines before it and lasts for its own
    words. *)
Lemma line_clips_spec (width : Z) (sty : Style) (fx : option Fx)
    (word_dur start_offset : Q) (y_pos : Z) (lines : list (list string)) :
  ∀ word_idx clips,
    line_clips pil_font lines width sty fx word_dur start_offset y_pos
      word_idx = Py.ret clips →
    length clips = length lines
    ∧ ∀ k line c, lines !! k = Some line → clips !! k = Some c →
        lc_start c
        = (start_offset
           + inject_Z (word_idx
                       + Z.of_nat (length (concat (take k lines))))
             * word_dur)%Q
        ∧ lc_duration c
          = (inject_Z (Z.of_nat (length line)) * word_dur)%Q.
Proof.
  induction lines as [|line_words rest IH]; intros word_idx clips Hrun.
  - cbn in Hrun. injection Hrun as <-. split; [done|]. by intros k.
  - cbn [line_clips] in Hrun.
    destruct (line_frames pil_font line_words width sty fx) as [e|frames];
      [done|].
    cbn [Py.bind] in Hrun.
    destruct (line_clips pil_font rest width sty fx word_dur start_offset
                y_pos (word_idx + Z.of_nat (length line_words)))
      as [e|clips'] eqn:Hrest; [done|].
    cbn [Py.bind Py.ret] in Hrun. injection Hrun as <-.
    destruct (IH _ _ Hrest) as [Hlen Hk]. split; [simpl; lia|].
    intros [|k] line c Hline Hc; cbn in Hline, Hc.
    + simplify_eq. cbn [lc_start lc_duration line_clip take concat length].
      split; [|done]. do 3 f_equal. cbn. lia.
    + destruct (Hk k line c Hline Hc) as [-> ->]. split; [|done].
      do 3 f_equal. cbn [take concat]. rewrite length_app. lia.
Qed.


(** With a cache that is fresh or holds one frame per word, the calls
    for indices inside the line all return. *)
Lemma render_variants_ok (line_words : list string) (width : Z)
    (sty : Style) (his : list nat) :
  Forall (λ hi, (hi < length line_words)%nat) his →
  ∀ cache,
    cache !! "np_frames" = None
    ∨ (∃ fs, cache !! "np_frames" = Some (VFrames fs)
             ∧ length fs = length line_words) →
    ∃ frames cache',
      render_variants pil_font line_words width sty his (Some cache)
      = (Py.ret frames, Some cache').
Proof.
  induction 1 as [|hi his Hhi _ IH]; intros cache Hcache.
  { by exists [], cache. }
  cbn [render_variants].
  assert (∃ f cache1,
    _render_fancytext_frame pil_font line_words width (Z.of_nat hi) sty
      (Some cache) = (Py.ret f, Some cache1)
    ∧ ∃ fs, cache1 !! "np_frames" = Some (VFrames fs)
            ∧ length fs = length line_words)
    as (f & cache1 & -> & Hcache1).
  { destruct Hcache as [Hfresh|(fs & Hfs & Hlen)].
    - destruct (FrameCacheFacts.render_all_spec pil_font line_words width
                  sty) as (fs & ms & xs & x & y & Hall & Hlen & _).
      destruct (FrameCacheFacts.first_call_populates pil_font line_words
                  width (Z.of_nat hi) sty cache Hfresh)
        as (fs' & ms' & xs' & x' & y' & cache1 & Hall' & Hcall & Hc1).
      rewrite Hall in Hall'. simplify_eq.
      destruct (FrameSelectionFacts.getitem_in_range fs'
                  (Z.max 0 (Z.of_nat hi))) as (a & _ & Hget); [lia|].
      exists a, cache1. rewrite Hcall, Hget. split; [done|]. by exists fs'.
    - destruct (FrameSelectionFacts.getitem_in_range fs
                  (Z.max 0 (Z.of_nat hi))) as (a & _ & Hget); [lia|].
      exists a, cache.
      rewrite (FrameCacheFacts.fast_path pil_font line_words width _ sty
                 cache fs Hfs), Hget.
      split; [done|]. by exists fs. }
  destruct (IH cache1 (or_intror Hcache1)) as (frames & cache' & ->).
  by exists (f :: frames), cache'.
Qed.


End Timing.

Import Examples.


End TimingFacts.

(** ** The text wrappers *)
Module WrapFacts.
Import Wrap.

Section Wrapping.
Context {Font : Type} `{!FancyText.Pil Font}.
Variable split : string → list string.
Variable pil_font : Font.

Lemma chars_loop_spec (max_chars : Z) (words : list string) :
  ∀ lines current,
    ((2 ≤ length current)%nat → len (Py.join " " current) ≤ max_chars) →
    ∃ groups,
      chars_loop max_chars words lines current
      = lines ++ map (Py.join " ") groups
      ∧ concat groups = current ++ words
      ∧ Forall (λ g, (2 ≤ length g)%nat →
                     len (Py.join " " g) ≤ max_chars) groups
      ∧ (current ≠ [] → Forall (λ g, g ≠ []) groups)
      ∧ Forall (λ g, g ≠ []) (tail groups).
Proof.
  induction words as [|word rest IH]; intros lines current Hcur;
    cbn [chars_loop].
  - destruct current as [|c cs] eqn:Hc.
    + exists []. cbn. by rewrite app_nil_r.
    + exists [c :: cs]. cbn [Py.nonempty map concat tail].
      rewrite !app_nil_r. split; [done|]. split; [done|].
      split; [by constructor|]. split; [|done]. by repeat constructor.
  - cbv zeta. destruct (len _ >? max_chars) eqn:Hlong.
    + destruct (IH (lines ++ [Py.join " " current]) [word])
        as (groups & Hrun & Hcat & Hfit & Hne & _).
      { cbn. lia. }
      exists (current :: groups). rewrite Hrun.
      cbn [map concat tail]. rewrite <- app_assoc. split; [done|].
      rewrite Hcat. split; [done|]. split; [by constructor|].
      split; [|by apply Hne].
      intros Hcne. constructor; [done|by apply Hne].
    + zgtb Hlong.
      destruct (IH lines (current ++ [word]))
        as (groups & Hrun & Hcat & Hfit & Hne & Htl).
      { by intros _. }
      exists groups. rewrite Hrun, Hcat, <- app_assoc.
      split; [done|]. split; [done|]. split; [done|]. split; [|done].
      intros _. apply Hne. by destruct current.
Qed.

(** X14. [_wrap_text_by_chars] cuts the words of the text into runs
    of consecutive words, one line per run, the words of a line joined
    by single spaces: the runs, in order, give back the words; a line
    of two words or more is never longer than [max_chars]; and only
    the first line can be without a word. *)
Theorem wrap_by_chars_keeps_words (text : string) (max_chars : Z) :
  ∃ groups,
    _wrap_text_by_chars split text max_chars = map (Py.join " ") groups
    ∧ concat groups = split text
    ∧ Forall (λ g, (2 ≤ length g)%nat →
                   len (Py.join " " g) ≤ max_chars) groups
    ∧ Forall (λ g, g ≠ []) (tail groups).
Proof.
  destruct (chars_loop_spec max_chars (split text) [] [])
    as (groups & Hrun & Hcat & Hfit & _ & Htl).
  { cbn. lia. }
  cbn [app] in Hrun, Hcat. exists groups.
  unfold _wrap_text_by_chars. by rewrite Hrun.
Qed.

(** X15. When the first word alone is longer than [max_chars],
    [_wrap_text_by_chars] starts with an empty line; when it is not,
    every line has a word. *)
Theorem wrap_by_chars_leading_line (text : string) (max_chars : Z)
    (w : string) (ws : list string) :
  split text = w :: ws →
  if len w >? max_chars
  then ∃ rest, _wrap_text_by_chars split text max_chars = ""%string :: rest
  else ∃ groups,
         _wrap_text_by_chars split text max_chars
         = map (Py.join " ") groups
         ∧ concat groups = split text
         ∧ Forall (λ g, g ≠ []) groups.
Proof.
  intros Hw. unfold _wrap_text_by_chars. rewrite Hw.
  cbn [chars_loop app]. cbv zeta.
  change (Py.join " " [w]) with w.
  destruct (len w >? max_chars) eqn:Hlong.
  - destruct (chars_loop_spec max_chars ws ["" : string] [w])
      as (groups & Hrun & _).
    { cbn. lia. }
    exists (map (Py.join " ") groups). exact Hrun.
  - zgtb Hlong.
    destruct (chars_loop_spec max_chars ws [] [w])
      as (groups & Hrun & Hcat & _ & Hne & _).
    { cbn. lia. }
    exists groups. split; [exact Hrun|]. split; [exact Hcat|].
    by apply Hne.
Qed.

Lemma width_loop_spec (max_width : Z) (words : list string) :
  ∀ lines current,
    ((2 ≤ length current)%nat →
     FancyText._word_width pil_font (Py.join " " current) ≤ max_width) →
    ∃ groups,
      width_loop pil_font max_width words lines current
      = lines ++ map (Py.join " ") groups
      ∧ concat groups = current ++ words
      ∧ Forall (λ g, g ≠ []) groups
      ∧ Forall (λ g, (2 ≤ length g)%nat →
                     FancyText._word_width pil_font (Py.join " " g)
                     ≤ max_width) groups.
Proof.
  induction words as [|word rest IH]; intros lines current Hcur;
    cbn [width_loop].
  - destruct current as [|c cs] eqn:Hc.
    + exists []. cbn. by rewrite app_nil_r.
    + exists [c :: cs]. cbn [Py.nonempty map concat].
      rewrite !app_nil_r. split; [done|]. split; [done|].
      split; by repeat constructor.
  - cbv zeta. destruct (_ <=? max_width) eqn:Hfits.
    + apply Z.leb_le in Hfits.
      destruct (IH lines (current ++ [word]))
        as (groups & Hrun & Hcat & Hne & Hfit).
      { by intros _. }
      exists groups. by rewrite Hrun, Hcat, <- app_assoc.
    + destruct current as [|c cs] eqn:Hc; cbn [Py.nonempty].
      * destruct (IH lines [word]) as (groups & Hrun & Hcat & Hne & Hfit).
        { cbn. lia. }
        exists groups. by rewrite Hrun, Hcat.
      * destruct (IH (lines ++ [Py.join " " (c :: cs)]) [word])
          as (groups & Hrun & Hcat & Hne & Hfit).
        { cbn. lia. }
        exists ((c :: cs) :: groups). rewrite Hrun, <- app_assoc.
        cbn [map concat]. rewrite Hcat.
        split; [done|]. split; [done|]. split; by constructor.
Qed.

(** X16. [_wrap_text_by_width] never returns an empty list: a text
    without words comes back as its only line.  Otherwise the lines
    are runs of consecutive words that give back the words in order,
    every line has a word, and a line of two words or more is never
    wider than [max_width]. *)
Theorem wrap_by_width_keeps_words (text : string) (max_width : Z) :
  _wrap_text_by_width split pil_font text max_width ≠ []
  ∧ (split text = [] →
     _wrap_text_by_width split pil_font text max_width = [text])
  ∧ (split text ≠ [] →
     ∃ groups,
       _wrap_text_by_width split pil_font text max_width
       = map (Py.join " ") groups
       ∧ concat groups = split text
       ∧ Forall (λ g, g ≠ []) groups
       ∧ Forall (λ g, (2 ≤ length g)%nat →
                      FancyText._word_width pil_font (Py.join " " g)
                      ≤ max_width) groups).
Proof.
  unfold _wrap_text_by_width.
  destruct (width_loop_spec max_width (split text) [] [])
    as (groups & Hrun & Hcat & Hne & Hfit).
  { cbn. lia. }
  cbn [app] in Hrun, Hcat. rewrite Hrun. cbv zeta.
  split; [|split].
  - by destruct (map _ groups).
  - intros Hnone. rewrite Hnone in Hcat.
    destruct groups as [|g gs]; [done|].
    apply Forall_cons in Hne as [Hg _]. by destruct g.
  - intros Hsome. exists groups.
    destruct groups as [|g gs]; [by rewrite <- Hcat in Hsome|].
    done.
Qed.

End Wrapping.

Lemma wrap_by_chars_leading_line_witness :
  let split := λ _ : string, ["EXTRAORDINARY"; "DAY"]%string in
  ∃ rest,
    _wrap_text_by_chars split "EXTRAORDINARY DAY" 5 = ""%string :: rest.
Proof.
  intros split.
  exact (wrap_by_chars_leading_line split "EXTRAORDINARY DAY" 5
           "EXTRAORDINARY" ["DAY"]%string eq_refl).
Defined.

End WrapFacts.

(** ** Blending, the gradient overlay and the texture *)
Module BlendFacts.
Import FancyText.

(** A check on every pair of byte values, each with a value computed
    from it once. *)
Lemma forall_byte_table {F : Type} (A : Z → F)
    (P : Z → F → Z → F → bool) :
  (let T := map (λ a, (a, A a)) (map Z.of_nat (seq 0 256)) in
   forallb (λ '(a, fa), forallb (λ '(b, fb), P a fa b fb) T) T) = true →
  ∀ a b, 0 ≤ a ≤ 255 → 0 ≤ b ≤ 255 → P a (A a) b (A b) = true.
Proof.
  intros Hall a b Ha Hb. cbv zeta in Hall.
  assert (∀ v, 0 ≤ v ≤ 255 →
            In (v, A v) (map (λ a, (a, A a)) (map Z.of_nat (seq 0 256))))
    as Hin.
  { intros v Hv. apply in_map_iff. exists v. split; [done|].
    apply in_map_iff. exists (Z.to_nat v). split; [lia|].
    apply in_seq. lia. }
  rewrite forallb_forall in Hall. specialize (Hall _ (Hin a Ha)).
  cbv beta iota in Hall. rewrite forallb_forall in Hall.
  exact (Hall _ (Hin b Hb)).
Qed.

(** [_blend_rgb] on one channel, for 8-bit values: the result is an
    8-bit value; "multiply" is the integer product scaled back; a mode
    that is not one of the three named ones gives the overlay. *)
Lemma blend_channel_bytes (mode : string) (a b : Z) :
  0 ≤ a ≤ 255 → 0 ≤ b ≤ 255 →
  0 ≤ blend_channel mode a b ≤ 255
  ∧ (mode = "multiply"%string → blend_channel mode a b = a * b / 255)
  ∧ (mode ≠ "multiply"%string → mode ≠ "screen"%string →
     mode ≠ "overlay"%string → blend_channel mode a b = b).
Proof.
  intros Ha Hb. unfold blend_channel. cbv zeta.
  destruct (String.eqb_spec mode "multiply") as [Hm|Hm].
  { assert (to_uint8
              (Float.F32.mul
                 (Float.F32.mul (Float.F32.div (Float.F32.of_Z a) f32_255)
                    (Float.F32.div (Float.F32.of_Z b) f32_255))
                 f32_255) = a * b / 255) as ->.
    { apply Z.eqb_eq.
      apply (forall_byte_table
               (λ v, Float.F32.div (Float.F32.of_Z v) f32_255)
               (λ a fa b fb,
                  to_uint8 (Float.F32.mul (Float.F32.mul fa fb) f32_255)
                  =? a * b / 255)); [by vm_compute|done|done]. }
    split; [|by split].
    split; [apply Z.div_pos; nia|]. apply Z.div_le_upper_bound; nia. }
  destruct (String.eqb_spec mode "screen") as [Hs|Hs].
  { split; [|by split]. pose proof (
      forall_byte_table
        (λ v, Float.F32.div (Float.F32.of_Z v) f32_255)
        (λ _ fa _ fb,
           let v := to_uint8
                      (Float.F32.mul
                         (Float.F32.sub f32_1
                            (Float.F32.mul (Float.F32.sub f32_1 fa)
                               (Float.F32.sub f32_1 fb)))
                         f32_255) in
           (0 <=? v) && (v <=? 255))
        ltac:(by vm_compute) a b Ha Hb) as Hr.
    cbv zeta in Hr. apply andb_true_iff in Hr as [H0 H1].
    apply Z.leb_le in H0, H1. done. }
  destruct (String.eqb_spec mode "overlay") as [Ho|Ho].
  { split; [|by split]. pose proof (
      forall_byte_table
        (λ v, Float.F32.div (Float.F32.of_Z v) f32_255)
        (λ _ fa _ fb,
           let v := to_uint8
                      (Float.F32.mul
                         (if SFltb fa
                               (Float.F32.round
                                  (Float.F64.div f64_1 (Float.F64.of_Z 2)))
                          then Float.F32.mul
                                 (Float.F32.mul (Float.F32.of_Z 2) fa) fb
                          else Float.F32.sub f32_1
                                 (Float.F32.mul
                                    (Float.F32.mul (Float.F32.of_Z 2)
                                       (Float.F32.sub f32_1 fa))
                                    (Float.F32.sub f32_1 fb)))
                         f32_255) in
           (0 <=? v) && (v <=? 255))
        ltac:(by vm_compute) a b Ha Hb) as Hr.
    cbv zeta in Hr. apply andb_true_iff in Hr as [H0 H1].
    apply Z.leb_le in H0, H1. done. }
  assert (to_uint8
            (Float.F32.mul (Float.F32.div (Float.F32.of_Z b) f32_255)
               f32_255) = b) as ->.
  { apply Z.eqb_eq.
    apply (GradientFacts.forall_bytes
             (λ ov, to_uint8 (Float.F32.mul
                      (Float.F32.div (Float.F32.of_Z ov) f32_255) f32_255)
                    =? ov)); [by vm_compute|done]. }
  done.
Qed.

(** X17. In mode ["multiply"], [_blend_rgb] gives on every channel
    the product of the two 8-bit values divided by 255 and rounded
    down: the [float32] arithmetic and the final truncation lose
    nothing more.  The result is never brighter than either input. *)
Theorem blend_multiply_is_scaled_product
    (base overlay : Raster.raster Raster.rgb) (x y : Z) :
  (let '(r, g, b) := Raster.px base x y in
   0 ≤ r ≤ 255 ∧ 0 ≤ g ≤ 255 ∧ 0 ≤ b ≤ 255) →
  (let '(r, g, b) := Raster.px overlay x y in
   0 ≤ r ≤ 255 ∧ 0 ≤ g ≤ 255 ∧ 0 ≤ b ≤ 255) →
  let '(r1, g1, b1) := Raster.px base x y in
  let '(r2, g2, b2) := Raster.px overlay x y in
  Raster.px (_blend_rgb base overlay "multiply") x y
  = (r1 * r2 / 255, g1 * g2 / 255, b1 * b2 / 255)
  ∧ r1 * r2 / 255 ≤ Z.min r1 r2
  ∧ g1 * g2 / 255 ≤ Z.min g1 g2
  ∧ b1 * b2 / 255 ≤ Z.min b1 b2.
Proof.
  unfold _blend_rgb. cbn [Raster.px Raster.map2_px].
  destruct (Raster.px base x y) as [[r1 g1] b1].
  destruct (Raster.px overlay x y) as [[r2 g2] b2].
  intros (Hr1 & Hg1 & Hb1) (Hr2 & Hg2 & Hb2).
  rewrite (proj1 (proj2 (blend_channel_bytes "multiply" r1 r2 Hr1 Hr2))
             eq_refl).
  rewrite (proj1 (proj2 (blend_channel_bytes "multiply" g1 g2 Hg1 Hg2))
             eq_refl).
  rewrite (proj1 (proj2 (blend_channel_bytes "multiply" b1 b2 Hb1 Hb2))
             eq_refl).
  split; [done|].
  assert (∀ u v, 0 ≤ u ≤ 255 → 0 ≤ v ≤ 255 → u * v / 255 ≤ Z.min u v)
    as Hmin.
  { intros u v Hu Hv. apply Z.div_le_upper_bound; [lia|]. nia. }
  split; [by apply Hmin|]. split; by apply Hmin.
Qed.

Lemma blend_multiply_is_scaled_product_witness :
  Raster.px (_blend_rgb (Raster.fill 1 1 (200, 100, 255))
               (Raster.fill 1 1 (128, 255, 0)) "multiply") 0 0
  = (100, 100, 0).
Proof.
  apply (blend_multiply_is_scaled_product
           (Raster.fill 1 1 (200, 100, 255))
           (Raster.fill 1 1 (128, 255, 0)) 0 0); cbn; lia.
Defined.

(** X18. With a mode that is none of ["multiply"], ["screen"] and
    ["overlay"] (["normal"] for one), [_blend_rgb] returns the overlay:
    scaling an 8-bit value to [0, 1] and back in [float32] loses
    nothing. *)
Theorem blend_normal_is_overlay (base overlay : Raster.raster Raster.rgb)
    (mode : string) (x y : Z) :
  mode ≠ "multiply"%string → mode ≠ "screen"%string →
  mode ≠ "overlay"%string →
  (let '(r, g, b) := Raster.px base x y in
   0 ≤ r ≤ 255 ∧ 0 ≤ g ≤ 255 ∧ 0 ≤ b ≤ 255) →
  (let '(r, g, b) := Raster.px overlay x y in
   0 ≤ r ≤ 255 ∧ 0 ≤ g ≤ 255 ∧ 0 ≤ b ≤ 255) →
  Raster.px (_blend_rgb base overlay mode) x y = Raster.px overlay x y.
Proof.
  intros Hm Hs Ho. unfold _blend_rgb. cbn [Raster.px Raster.map2_px].
  destruct (Raster.px base x y) as [[r1 g1] b1].
  destruct (Raster.px overlay x y) as [[r2 g2] b2].
  intros (Hr1 & Hg1 & Hb1) (Hr2 & Hg2 & Hb2).
  rewrite (proj2 (proj2 (blend_channel_bytes mode r1 r2 Hr1 Hr2)) Hm Hs Ho).
  rewrite (proj2 (proj2 (blend_channel_bytes mode g1 g2 Hg1 Hg2)) Hm Hs Ho).
  by rewrite (proj2 (proj2 (blend_channel_bytes mode b1 b2 Hb1 Hb2))
                Hm Hs Ho).
Qed.

Lemma blend_normal_is_overlay_witness :
  Raster.px (_blend_rgb (Raster.fill 1 1 (10, 20, 30))
               (Raster.fill 1 1 (200, 100, 0)) "normal") 0 0
  = (200, 100, 0).
Proof.
  apply (blend_normal_is_overlay (Raster.fill 1 1 (10, 20, 30))
           (Raster.fill 1 1 (200, 100, 0)) "normal" 0 0); try done.
  all: cbn; lia.
Defined.

(** An opacity that is zero or negative is clamped to zero. *)
Lemma clamp_opacity_nonpositive (opacity : Float.float) :
  SFleb opacity f64_0 = true → clamp_opacity opacity = f64_0.
Proof. by destruct opacity as [[]|[]| |[] m e]. Qed.

(** Where the blend factor is a zero, the mix keeps the base value. *)
Lemma mix_zero_factor (s : bool) (bv lv : Z) :
  0 ≤ bv ≤ 255 → 0 ≤ lv ≤ 255 →
  to_uint8
    (Float.F32.add
       (Float.F32.mul (Float.F32.of_Z bv) f32_1)
       (Float.F32.mul (Float.F32.of_Z lv) (S754_zero s))) = bv.
Proof.
  intros Hbv Hlv.
  assert (Float.F32.mul (Float.F32.of_Z lv) (S754_zero s) = S754_zero s)
    as ->.
  { pose proof (GradientFacts.forall_bytes
      (λ lv, match Float.F32.mul (Float.F32.of_Z lv) (S754_zero s) with
             | S754_zero s' => Bool.eqb s s'
             | _ => false
             end)) as Hz.
    cbv beta in Hz.
    destruct s; specialize (Hz ltac:(by vm_compute) lv Hlv).
    all: destruct (Float.F32.mul _ _) as [[]| | |]; done. }
  apply Z.eqb_eq.
  destruct s.
  - apply (GradientFacts.forall_bytes
      (λ bv, to_uint8
               (Float.F32.add
                  (Float.F32.mul (Float.F32.of_Z bv) f32_1)
                  (S754_zero true)) =? bv)); [by vm_compute|done].
  - apply (GradientFacts.forall_bytes
      (λ bv, to_uint8
               (Float.F32.add
                  (Float.F32.mul (Float.F32.of_Z bv) f32_1)
                  (S754_zero false)) =? bv)); [by vm_compute|done].
Qed.

Section Overlay.
Context {Font : Type} `{!Pil Font} `{!Lighting}.

(** X19. With an opacity of zero or below, the gradient overlay
    leaves every pixel of the image as it was (for an 8-bit mask and at
    least one colour stop). *)
Theorem gradient_overlay_zero_opacity (img : image) (text_mask : mask)
    (colors : list Raster.rgb) (angle opacity : Float.float) :
  colors ≠ [] → SFleb opacity f64_0 = true →
  (∀ x y, 0 ≤ Raster.px text_mask x y ≤ 255) →
  ∃ out,
    _fx_gradient_overlay img text_mask (Some colors) angle opacity
    = Py.ret out
    ∧ Raster.width out = Raster.width img
    ∧ Raster.height out = Raster.height img
    ∧ ∀ x y, Raster.px out x y = Raster.px img x y.
Proof.
  intros Hne Hop Hbytes.
  assert (∀ m, 0 ≤ m ≤ 255 → overlay_alpha opacity m = 0) as Halpha.
  { intros m Hm. unfold overlay_alpha.
    rewrite (clamp_opacity_nonpositive _ Hop). cbv zeta.
    apply Z.eqb_eq.
    apply (GradientFacts.forall_bytes
             (λ m, to_uint8
                     (Float.F32.mul
                        (Float.F32.mul
                           (Float.F32.div (Float.F32.of_Z m) f32_255)
                           f32_255)
                        (Float.F32.round f64_0)) =? 0));
      [by vm_compute|done]. }
  unfold _fx_gradient_overlay, gradient_layer, _create_linear_gradient.
  destruct (direction angle) as [cos_a sin_a].
  destruct colors as [|c0 cs]; [done|]. simpl.
  eexists. split; [reflexivity|]. split; [done|]. split; [done|].
  intros x y. simpl.
  destruct (gradient_px _ _ _ _ _ _ _) as [[[r g] b] a].
  rewrite Halpha by done. apply GradientFacts.alpha_composite_transparent.
Qed.

(** X20. The texture effect leaves a pixel where the mask is 0 as it
    was, whatever the texture, the scale and the blend mode, and keeps
    the size of the image (8-bit image and texture; the clamped opacity
    a finite [float32]). *)
Theorem texture_keeps_unmasked_pixel (img : image) (text_mask : mask)
    (path : option string) (tex : Raster.raster Raster.rgb)
    (scale opacity : Float.float) (blend_mode : string) (out : image)
    (x y : Z) :
  _fx_texture img text_mask path scale opacity blend_mode (Some tex)
  = Py.ret out →
  match Float.F32.round (clamp_opacity opacity) with
  | S754_zero _ | S754_finite _ _ _ => True
  | _ => False
  end →
  (∀ (t : Raster.raster Raster.rgb) u v,
     t = tex ∨ (∃ w h, t = resize_lanczos tex w h) →
     let '(r, g, b) := Raster.px t u v in
     0 ≤ r ≤ 255 ∧ 0 ≤ g ≤ 255 ∧ 0 ≤ b ≤ 255) →
  (let '(r, g, b, a) := Raster.px img x y in
   0 ≤ r ≤ 255 ∧ 0 ≤ g ≤ 255 ∧ 0 ≤ b ≤ 255 ∧ 0 ≤ a ≤ 255) →
  Raster.px text_mask x y = 0 →
  Raster.width out = Raster.width img
  ∧ Raster.height out = Raster.height img
  ∧ Raster.px out x y = Raster.px img x y.
Proof.
  cbn [_fx_texture]. unfold texture_fill. cbv zeta.
  set (tex1 := if SFeqb scale f64_1 then tex else _).
  destruct (_ || _); [done|]. intros [= <-] Hfin Htex Himg Hmask.
  split; [done|]. split; [done|]. cbn [Raster.px]. rewrite Hmask.
  assert (let '(r, g, b) :=
            Raster.px tex1 (x mod Raster.width tex1)
              (y mod Raster.height tex1) in
          0 ≤ r ≤ 255 ∧ 0 ≤ g ≤ 255 ∧ 0 ≤ b ≤ 255) as Htile.
  { apply Htex. unfold tex1. destruct (SFeqb scale f64_1); [by left|].
    right. by do 2 eexists. }
  unfold _blend_rgb. cbn [Raster.px Raster.map2_px Raster.rgb_of Raster.map_px].
  destruct (Raster.px img x y) as [[[r g] b] a].
  destruct (Raster.px tex1 _ _) as [[tr tg] tb].
  destruct Himg as (Hr & Hg & Hb & Ha). destruct Htile as (Htr & Htg & Htb).
  destruct (blend_channel_bytes blend_mode r tr Hr Htr) as (Hlr & _).
  destruct (blend_channel_bytes blend_mode g tg Hg Htg) as (Hlg & _).
  destruct (blend_channel_bytes blend_mode b tb Hb Htb) as (Hlb & _).
  change (Float.F32.div (Float.F32.of_Z 0) f32_255) with (S754_zero false).
  assert (∃ s, Float.F32.mul (S754_zero false)
                 (Float.F32.round (clamp_opacity opacity)) = S754_zero s)
    as [s ->].
  { destruct (Float.F32.round _) as [s| | |s m e]; try done; by eexists. }
  change (Float.F32.sub f32_1 (S754_zero s)) with f32_1.
  rewrite !mix_zero_factor by done.
  f_equal. apply Z.eqb_eq.
  apply (GradientFacts.forall_bytes
           (λ a, to_uint8 (Float.F32.of_Z a) =? a)); [by vm_compute|done].
Qed.

End Overlay.

Import Examples.

Lemma gradient_overlay_zero_opacity_witness :
  let img := Raster.fill 2 1 (10, 20, 30, 255) in
  ∃ out,
    _fx_gradient_overlay img (Raster.fill 2 1 255)
      (Some [(255, 215, 0); (255, 140, 0)]) f64_0 f64_0 = Py.ret out
    ∧ Raster.px out 1 0 = (10, 20, 30, 255).
Proof.
  intros img.
  destruct (gradient_overlay_zero_opacity (H := plain_lighting) img
              (Raster.fill 2 1 255)
              [(255, 215, 0); (255, 140, 0)] f64_0 f64_0)
    as (out & Hout & _ & _ & Hpx); [done|reflexivity|cbn; lia|].
  exists out. split; [exact Hout|exact (Hpx 1 0)].
Defined.

Lemma texture_keeps_unmasked_pixel_witness :
  let img := Raster.fill 2 1 (10, 20, 30, 255) in
  let tex := Raster.fill 1 1 (200, 100, 50) in
  ∃ out,
    _fx_texture img (Raster.fill 2 1 0) None f64_1 f64_1 "overlay"
      (Some tex) = Py.ret out
    ∧ Raster.px out 1 0 = (10, 20, 30, 255).
Proof.
  intros img tex.
  assert (∃ out,
    _fx_texture img (Raster.fill 2 1 0) None f64_1 f64_1 "overlay"
      (Some tex) = Py.ret out) as [out Hout] by (eexists; reflexivity).
  exists out. split; [exact Hout|].
  apply (texture_keeps_unmasked_pixel (Pil0 := plain_pil) img
           (Raster.fill 2 1 0) None tex f64_1 f64_1 "overlay" out 1 0 Hout).
  - by vm_compute.
  - intros t u v [->|(w & h & ->)]; cbn; lia.
  - cbn. lia.
  - reflexivity.
Defined.

End BlendFacts.


(** ** More on the procedural texture *)
Module TextureSizeFacts.
Import FancyText.

Section Generator.
Context {Font : Type} `{!Pil Font} `{!Numpy}.

Lemma octaves_size (width height roughness : Z) (todo : list nat) :
  ∀ rng composite,
    Raster.width (octaves width height roughness todo rng composite).1
    = Raster.width composite
    ∧ Raster.height (octaves width height roughness todo rng composite).1
      = Raster.height composite.
Proof.
  induction todo as [|octave r IH]; intros rng composite; [done|].
  cbn [octaves]. destruct (randint rng height width) as [noise rng'].
  by destruct (IH rng' (add_octave roughness composite (octave, noise))).
Qed.

Lemma coords_empty (width height : Z) :
  width ≤ 0 ∨ height ≤ 0 → coords width height = [].
Proof.
  unfold coords. intros [Hw|Hh].
  - replace (Z.to_nat width) with 0%nat by lia. cbn [seq map].
    induction (map Z.of_nat (seq 0 (Z.to_nat height))) as [|y r IH];
      [done|].
    cbn. exact IH.
  - by replace (Z.to_nat height) with 0%nat by lia.
Qed.

Lemma coords_nonempty (width height : Z) :
  0 < width → 0 < height → coords width height ≠ [].
Proof.
  unfold coords. intros Hw Hh.
  destruct (Z.to_nat width) as [|w] eqn:Ew; [lia|].
  destruct (Z.to_nat height) as [|h] eqn:Eh; [lia|]. done.
Qed.

(** X21. For a seed numpy accepts, [generate_procedural_texture]
    returns an image of exactly the size asked for when both sides are
    positive, and raises [ValueError] when a side is zero (the minimum
    of an empty array) or negative. *)
Theorem procedural_texture_size (width height : Z)
    (base_color accent_color : Raster.rgb) (roughness seed : Z)
    (rng world : RandomState) :
  random_state seed = Py.ret rng →
  let result :=
    (generate_procedural_texture width height base_color accent_color
       roughness seed world).1 in
  (0 < width → 0 < height →
   ∃ img, result = Py.ret img
          ∧ Raster.width img = width ∧ Raster.height img = height)
  ∧ (width ≤ 0 ∨ height ≤ 0 →
     ∃ msg, result = Py.raise (Py.ValueError msg)).
Proof.
  intros Hseed result. unfold result, generate_procedural_texture.
  rewrite Hseed. cbn [fst Py.ret]. split.
  - intros Hw Hh.
    assert ((width <? 0) || (height <? 0) = false) as ->.
    { apply orb_false_iff. split; apply Z.ltb_ge; lia. }
    pose proof (octaves_size width height roughness
                  (seq 0 (Z.to_nat roughness)) rng
                  (Raster.fill width height f32_0)) as [Hcw Hch].
    destruct (octaves _ _ _ _ _ _) as [composite rng'].
    cbn [fst Raster.fill Raster.width Raster.height] in Hcw, Hch.
    pose proof (coords_nonempty width height Hw Hh) as Hne.
    destruct (coords width height) as [|[x y] cs]; [done|].
    cbn [map]. eexists. split; [reflexivity|].
    cbn [Raster.width Raster.height Raster.map_px].
    by destruct (SFltb _ _).
  - intros Hzero.
    destruct ((width <? 0) || (height <? 0)); [by eexists|].
    destruct (octaves _ _ _ _ _ _) as [composite rng'].
    rewrite (coords_empty width height Hzero). by eexists.
Qed.

(** X22. With no octave ([roughness] zero or below) the texture is
    flat: every pixel has the same colour. *)
Theorem procedural_texture_flat (width height : Z)
    (base_color accent_color : Raster.rgb) (roughness seed : Z)
    (world : RandomState) (img : Raster.raster Raster.rgb) :
  roughness ≤ 0 →
  (generate_procedural_texture width height base_color accent_color
     roughness seed world).1 = Py.ret img →
  ∃ c, ∀ x y, Raster.px img x y = c.
Proof.
  intros Hr. unfold generate_procedural_texture. cbn [fst].
  destruct (random_state seed) as [e|rng]; [done|].
  destruct ((width <? 0) || (height <? 0)); [done|].
  replace (Z.to_nat roughness) with 0%nat by lia.
  cbn [seq octaves].
  assert (∀ l : list (Z * Z),
            map (λ '(x, y), Raster.px (Raster.fill width height f32_0) x y) l
            = map (λ _, f32_0) l) as Hzeros.
  { intros l. apply map_ext. by intros [x y]. }
  rewrite Hzeros.
  destruct (coords width height) as [|xy cs]; [done|]. cbn [map].
  assert (∀ l : list (Z * Z), f32_min (map (λ _, f32_0) l) f32_0 = f32_0)
    as ->.
  { unfold f32_min. induction l as [|a l IH]; [done|]. exact IH. }
  assert (∀ l : list (Z * Z), f32_max (map (λ _, f32_0) l) f32_0 = f32_0)
    as ->.
  { unfold f32_max. induction l as [|a l IH]; [done|]. exact IH. }
  change (SFltb f32_0 (Float.F32.sub f32_0 f32_0)) with false.
  cbv iota. intros Heq. injection Heq as <-.
  match goal with
  | |- ∃ c, ∀ x y, Raster.px ?r x y = c => exists (Raster.px r 0 0)
  end.
  intros x y. reflexivity.
Qed.

End Generator.

Lemma procedural_texture_size_witness :
  Examples.plain_numpy.(FancyText.random_state) 7 = Py.ret 7
  ∧ (∃ img,
       (FancyText.generate_procedural_texture
          (Pil0 := Examples.plain_pil) (H := Examples.plain_numpy)
          3 2 (10, 20, 30) (200, 100, 50) 2 7 0).1 = Py.ret img
       ∧ Raster.width img = 3 ∧ Raster.height img = 2)
  ∧ (∃ msg,
       (FancyText.generate_procedural_texture
          (Pil0 := Examples.plain_pil) (H := Examples.plain_numpy)
          0 2 (10, 20, 30) (200, 100, 50) 2 7 0).1
       = Py.raise (Py.ValueError msg)).
Proof.
  split; [reflexivity|].
  split.
  - apply (proj1 (procedural_texture_size
                    (Pil0 := Examples.plain_pil) (H := Examples.plain_numpy)
                    3 2 (10, 20, 30) (200, 100, 50) 2 7 7 0 eq_refl));
      lia.
  - apply (proj2 (procedural_texture_size
                    (Pil0 := Examples.plain_pil) (H := Examples.plain_numpy)
                    0 2 (10, 20, 30) (200, 100, 50) 2 7 7 0 eq_refl)).
    left. lia.
Defined.

Lemma procedural_texture_flat_witness :
  ∃ img,
    (FancyText.generate_procedural_texture
          (Pil0 := Examples.plain_pil) (H := Examples.plain_numpy)
       3 2 (10, 20, 30) (200, 100, 50) 0 7 0).1 = Py.ret img
    ∧ ∃ c, ∀ x y, Raster.px img x y = c.
Proof.
  assert (∃ img,
            (FancyText.generate_procedural_texture
               (Pil0 := Examples.plain_pil) (H := Examples.plain_numpy)
               3 2 (10, 20, 30) (200, 100, 50) 0 7 0).1 = Py.ret img)
    as [img Himg] by (eexists; reflexivity).
  exists img. split; [exact Himg|].
  apply (procedural_texture_flat
           (Pil0 := Examples.plain_pil) (H := Examples.plain_numpy)
           3 2 (10, 20, 30) (200, 100, 50) 0 7 0 img); [lia|exact Himg].
Defined.

End TextureSizeFacts.

(** ** [concatenate_videoclips] *)
Module ConcatFacts.
Import Concatenate.

Lemma getitem_at {A} (l : list A) (i : nat) (a : A) :
  l !! i = Some a → Py.getitem l (Z.of_nat i) = Py.ret a.
Proof.
  intros Hl. pose proof (lookup_lt_Some _ _ _ Hl) as Hlt.
  unfold Py.getitem. cbv zeta.
  assert ((Z.of_nat i <? 0) = false) as -> by (apply Z.ltb_ge; lia).
  assert ((0 <=? Z.of_nat i) = true) as -> by (apply Z.leb_le; lia).
  assert ((Z.of_nat i <? Z.of_nat (length l)) = true) as ->
    by (apply Z.ltb_lt; lia).
  cbn [andb]. by rewrite Nat2Z.id, Hl.
Qed.

Lemma all_set_spec (dso : list (option Q)) :
  ∀ ds, all_set dso = Py.ret ds → dso = map Some ds.
Proof.
  induction dso as [|[d|] r IH]; intros ds; cbn [all_set].
  - by intros [= <-].
  - destruct (all_set r) as [e|ds'] eqn:E; [done|].
    unfold Py.bind, Py.ret. intros [= <-]. cbn [map]. f_equal. by apply IH.
  - done.
Qed.

Lemma all_set_total (ds : list Q) : all_set (map Some ds) = Py.ret ds.
Proof.
  induction ds as [|d r IH]; [done|]. cbn [map all_set]. by rewrite IH.
Qed.

Lemma all_set_none (dso : list (option Q)) :
  None ∈ dso → ∃ msg, all_set dso = Py.raise (Py.TypeError msg).
Proof.
  induction dso as [|[d|] r IH]; intros Hin.
  - by apply elem_of_nil in Hin.
  - apply elem_of_cons in Hin as [?|Hin]; [done|].
    destruct (IH Hin) as [msg Hm]. exists msg. cbn [all_set]. by rewrite Hm.
  - by eexists.
Qed.

Lemma omap_map_Some {A B} (f : A → option B) (l : list A) (ds : list B) :
  map f l = map Some ds → omap f l = ds.
Proof.
  revert ds. induction l as [|a l IH]; intros [|d ds]; try done.
  cbn [map]. intros [= Ha Hl]. cbn. rewrite Ha. cbn. f_equal. by apply IH.
Qed.

Lemma cumsum_from_lookup (ds : list Q) :
  ∀ acc i, (i < length ds)%nat →
    cumsum_from acc ds !! i = Some (fold_left Qplus (take (S i) ds) acc).
Proof.
  induction ds as [|d r IH]; intros acc i Hi; cbn [length] in Hi; [lia|].
  destruct i as [|i]; cbn [cumsum_from].
  - by destruct r.
  - cbn [lookup list_lookup]. rewrite IH by lia. done.
Qed.

Lemma cumsum_from_length (ds : list Q) :
  ∀ acc, length (cumsum_from acc ds) = length ds.
Proof.
  induction ds as [|d r IH]; intros acc; [done|].
  cbn [cumsum_from length]. by rewrite IH.
Qed.

Lemma cumsum_lookup (ds : list Q) (i : nat) :
  (i ≤ length ds)%nat →
  cumsum (0%Q :: ds) !! i = Some (fold_left Qplus (take i ds) 0%Q).
Proof.
  intros Hi. unfold cumsum. destruct i as [|i]; [done|].
  cbn [lookup list_lookup]. by rewrite cumsum_from_lookup by lia.
Qed.

Lemma cumsum_length (ds : list Q) :
  length (cumsum (0%Q :: ds)) = S (length ds).
Proof. unfold cumsum. cbn [length]. by rewrite cumsum_from_length. Qed.

Lemma pad_timings_length (padding : Q) (l : list Q) :
  length (pad_timings padding l) = length l.
Proof.
  unfold pad_timings. cbv zeta. destruct (last _).
  - by rewrite length_insert, length_imap.
  - by rewrite length_imap.
Qed.

Lemma pad_timings_lookup (padding : Q) (l : list Q) (i : nat) (e : Q) :
  l !! i = Some e →
  pad_timings padding l !! i
  = Some (if bool_decide (S i = length l)
          then (Py.qmax 0 (e + padding * inject_Z (Z.of_nat i)) - padding)%Q
          else Py.qmax 0 (e + padding * inject_Z (Z.of_nat i))%Q).
Proof.
  intros Hl. pose proof (lookup_lt_Some _ _ _ Hl) as Hlt.
  unfold pad_timings. cbv zeta.
  set (f := λ (i : nat) (e : Q),
              Py.qmax 0 (e + padding * inject_Z (Z.of_nat i))%Q).
  assert (imap f l !! i = Some (f i e)) as Hi
    by (by rewrite list_lookup_imap, Hl).
  destruct (last (imap f l)) as [z|] eqn:Hlast.
  - rewrite last_lookup in Hlast. rewrite length_imap in Hlast |- *.
    case_bool_decide as Hend.
    + replace (pred (length l)) with i in * by lia.
      rewrite list_lookup_insert_eq by (rewrite length_imap; lia).
      rewrite Hi in Hlast. by injection Hlast as <-.
    + rewrite list_lookup_insert_ne by lia. exact Hi.
  - apply last_None in Hlast. by rewrite Hlast in Hi.
Qed.

Lemma fold_max_spec (r : list nat) :
  ∀ i0, fold_left Nat.max r i0 ∈ i0 :: r
        ∧ ∀ x, x ∈ i0 :: r → (x ≤ fold_left Nat.max r i0)%nat.
Proof.
  induction r as [|y r IH]; intros i0; cbn [fold_left].
  - split; [apply elem_of_cons; by left|].
    intros x Hx. apply elem_of_cons in Hx as [->|Hx]; [done|].
    by apply elem_of_nil in Hx.
  - destruct (IH (Nat.max i0 y)) as [Hin Hle]. split.
    + apply elem_of_cons in Hin as [Hm|Hin].
      * rewrite Hm. destruct (Nat.max_spec i0 y) as [[_ ->]|[_ ->]].
        -- apply elem_of_cons. right. apply elem_of_cons. by left.
        -- apply elem_of_cons. by left.
      * apply elem_of_cons. right. apply elem_of_cons. by right.
    + intros x Hx.
      apply elem_of_cons in Hx as [->|Hx].
      * etrans; [|apply Hle; apply elem_of_cons; by left]. lia.
      * apply elem_of_cons in Hx as [->|Hx].
        -- etrans; [|apply Hle; apply elem_of_cons; by left]. lia.
        -- apply Hle. apply elem_of_cons. by right.
Qed.

Lemma idxs_elem (timings : list Q) (t : Q) (j : nat) :
  j ∈ omap (λ '(i, e), if Qle_bool e t then Some i else None)
        (Py.enumerate timings)
  ↔ ∃ e, timings !! j = Some e ∧ (e <= t)%Q.
Proof.
  rewrite list_elem_of_omap. unfold Py.enumerate. split.
  - intros ([i e] & Hin & Hsel).
    apply elem_of_lookup_imap in Hin as (k & e' & [= -> ->] & Hk).
    destruct (Qle_bool e' t) eqn:Hle; [|done]. injection Hsel as ->.
    exists e'. split; [done|]. by apply Qle_bool_iff.
  - intros (e & Hl & Hle). exists (j, e). split.
    + apply elem_of_lookup_imap. by exists j, e.
    + apply Qle_bool_iff in Hle. by rewrite Hle.
Qed.

Lemma chain_frame_at {C F} (get : C → Q → F) (clips : list C)
    (timings : list Q) (t : Q) (i : nat) (ti : Q) :
  timings !! i = Some ti →
  (ti <= t)%Q →
  (∀ j e, timings !! j = Some e → (e <= t)%Q → (j ≤ i)%nat) →
  chain_frame get clips timings t
  = Py.bind (Py.getitem clips (Z.of_nat i))
      (λ clip, Py.ret (get clip (t - ti)%Q)).
Proof.
  intros Hi Hle Hsel. unfold chain_frame. cbv zeta.
  pose proof (idxs_elem timings t) as Hel.
  destruct (omap _ (Py.enumerate timings)) as [|i0 r].
  - exfalso. assert (i ∈ @nil nat) as Hin by (apply Hel; by exists ti).
    by apply elem_of_nil in Hin.
  - destruct (fold_max_spec r i0) as [Hin Hmax].
    assert (fold_left Nat.max r i0 = i) as ->.
    { apply Nat.le_antisymm.
      - apply Hel in Hin as (e & He & Hle'). by apply (Hsel _ e).
      - apply Hmax, Hel. by exists ti. }
    by rewrite (getitem_at timings i ti Hi).
Qed.

Lemma chain_frame_before {C F} (get : C → Q → F) (clips : list C)
    (timings : list Q) (t : Q) :
  (∀ j e, timings !! j = Some e → (t < e)%Q) →
  ∃ msg, chain_frame get clips timings t = Py.raise (Py.ValueError msg).
Proof.
  intros Hall. unfold chain_frame. cbv zeta.
  pose proof (idxs_elem timings t) as Hel.
  destruct (omap _ (Py.enumerate timings)) as [|i0 r]; [by eexists|].
  exfalso. assert (i0 ∈ i0 :: r) as Hin by (apply elem_of_cons; by left).
  apply Hel in Hin as (e & He & Hle).
  apply (Qlt_not_le _ _ (Hall _ _ He) Hle).
Qed.

Lemma prepare_spec (dso : list (option Q)) (sizes : list (Z * Z))
    (padding : Q) (timings : list Q) (w h : Z) :
  prepare dso sizes padding = Py.ret (timings, w, h) →
  ∃ ds, dso = map Some ds
        ∧ timings = pad_timings padding (cumsum (0%Q :: ds))
        ∧ sizes ≠ [].
Proof.
  unfold prepare. destruct (all_set dso) as [e|ds] eqn:Hds; [done|].
  cbn [Py.bind]. destruct sizes as [|sz sizes]; [done|].
  cbn. intros [= <- _ _]. exists ds. split; [by apply all_set_spec|done].
Qed.

Lemma prepare_total (ds : list Q) (sizes : list (Z * Z)) (padding : Q) :
  sizes ≠ [] →
  ∃ w h, prepare (map Some ds) sizes padding
         = Py.ret (pad_timings padding (cumsum (0%Q :: ds)), w, h).
Proof.
  intros Hne. unfold prepare. rewrite all_set_total. cbn [Py.bind Py.ret].
  destruct sizes as [|sz sizes]; [done|]. cbn. by eexists _, _.
Qed.

Lemma partial_sum_step (ds : list Q) (i : nat) (d : Q) :
  ds !! i = Some d →
  fold_left Qplus (take (S i) ds) 0%Q
  = (fold_left Qplus (take i ds) 0 + d)%Q.
Proof.
  intros Hd. rewrite (take_S_r _ _ _ Hd). by rewrite fold_left_app.
Qed.

Lemma partial_sum_mono (ds : list Q) :
  Forall (λ d, (0 <= d)%Q) ds →
  ∀ i j, (i ≤ j)%nat →
    (fold_left Qplus (take i ds) 0 <= fold_left Qplus (take j ds) 0)%Q.
Proof.
  intros Hpos i j Hij. induction Hij as [|j Hij IH]; [apply Qle_refl|].
  destruct (ds !! j) as [d|] eqn:Hd.
  - rewrite (partial_sum_step _ _ _ Hd).
    pose proof (proj1 (Forall_lookup _ _) Hpos _ _ Hd) as H0. cbv beta in H0.
    lra.
  - apply lookup_ge_None in Hd.
    rewrite (take_ge ds (S j)) by lia. by rewrite (take_ge ds j) in IH by lia.
Qed.

Lemma removelast_take {A} (l : list A) :
  removelast l = take (pred (length l)) l.
Proof. apply removelast_firstn_len. Qed.

Lemma getitem_past_end {A} (l : list A) :
  Py.getitem l (Z.of_nat (length l))
  = Py.raise (Py.IndexError "list index out of range").
Proof.
  unfold Py.getitem. cbv zeta.
  assert ((Z.of_nat (length l) <? 0) = false) as ->
    by (apply Z.ltb_ge; lia).
  rewrite Z.ltb_irrefl. by rewrite andb_false_r.
Qed.

Lemma qmax_zero_nonneg (x : Q) : (0 <= Py.qmax 0 x)%Q.
Proof. unfold Py.qmax. destruct (Qlt_le_dec 0 x); lra. Qed.

Lemma qmax_zero_of_nonneg (x : Q) : (0 <= x)%Q → (Py.qmax 0 x == x)%Q.
Proof. unfold Py.qmax. destruct (Qlt_le_dec 0 x); lra. Qed.

Lemma partial_sum_nonneg (ds : list Q) (i : nat) :
  Forall (λ d, (0 <= d)%Q) ds → (0 <= fold_left Qplus (take i ds) 0)%Q.
Proof.
  intros Hpos.
  pose proof (partial_sum_mono ds Hpos 0 i (Nat.le_0_l i)) as H0.
  by rewrite take_0 in H0.
Qed.

(** The timings of clips with durations [ds]. *)
Lemma timings_lookup (padding : Q) (ds : list Q) (i : nat) :
  (i ≤ length ds)%nat →
  pad_timings padding (cumsum (0%Q :: ds)) !! i
  = Some (let e := Py.qmax 0 (fold_left Qplus (take i ds) 0
                              + padding * inject_Z (Z.of_nat i))%Q in
          if bool_decide (i = length ds) then (e - padding)%Q else e).
Proof.
  intros Hi. rewrite (pad_timings_lookup _ _ _ _ (cumsum_lookup ds i Hi)).
  rewrite cumsum_length. cbv zeta.
  by destruct (bool_decide_reflect (S i = S (length ds)));
    destruct (bool_decide_reflect (i = length ds)); try lia.
Qed.

Lemma timings_length (padding : Q) (ds : list Q) :
  length (pad_timings padding (cumsum (0%Q :: ds))) = S (length ds).
Proof. by rewrite pad_timings_length, cumsum_length. Qed.

Lemma timings_unpadded (padding : Q) (ds : list Q) (i : nat) (e : Q) :
  (padding == 0)%Q → Forall (λ d, (0 <= d)%Q) ds →
  pad_timings padding (cumsum (0%Q :: ds)) !! i = Some e →
  (e == fold_left Qplus (take i ds) 0)%Q.
Proof.
  intros Hp Hpos He.
  pose proof (lookup_lt_Some _ _ _ He) as Hlt.
  rewrite timings_length in Hlt.
  rewrite timings_lookup in He by lia. injection He as <-. cbv zeta.
  pose proof (partial_sum_nonneg ds i Hpos) as Hs.
  set (s := fold_left Qplus (take i ds) 0%Q) in *.
  assert (Py.qmax 0 (s + padding * inject_Z (Z.of_nat i)) == s)%Q as Hq.
  { rewrite qmax_zero_of_nonneg; rewrite Hp; lra. }
  destruct (bool_decide _); rewrite Hq; [rewrite Hp|]; lra.
Qed.

Lemma durations_length {A} (f : A → option Q) (l : list A) :
  map f l = map Some (omap f l) → length (omap f l) = length l.
Proof.
  intros Hm. apply (f_equal length) in Hm.
  by rewrite !length_map in Hm.
Qed.

Lemma removelast_length {A} (l : list A) :
  length (removelast l) = pred (length l).
Proof. rewrite removelast_take, length_take. lia. Qed.

Lemma pairs_length {A} (x : A) (l : list A) :
  length (concat (map (λ v, [v; x]) l)) = (2 * length l)%nat.
Proof.
  induction l as [|a l IH]; [done|]. cbn [map concat app length].
  rewrite IH. lia.
Qed.

Lemma map_is_Some {A B} (f : A → option B) (l : list A) :
  Forall (λ a, is_Some (f a)) l → map f l = map Some (omap f l).
Proof.
  induction 1 as [|a l [b Hb] _ IH]; [done|].
  cbn. rewrite Hb. cbn. by rewrite IH.
Qed.

Lemma map_Some_inj {A} (l k : list A) : map Some l = map Some k → l = k.
Proof.
  revert k. induction l as [|a l IH]; intros [|b k]; try done.
  cbn [map]. intros [= -> Hl]. f_equal. by apply IH.
Qed.

Section Concat.
Context {Frame MaskFrame Audio Comp : Type}.
Variable ColorClip_mask : Z * Z → MaskClip (MaskFrame := MaskFrame).
Variable compose :
  list (Clip (Frame := Frame) (MaskFrame := MaskFrame) (Audio := Audio) * Q)
  → Z * Z → option Composite.color → bool → Py.result Comp.

(** The clips the result plays: the argument, with the transition
    between every two of them when there is one. *)
Lemma concatenate_inv (clips : list Clip) (method : string)
    (transition : option Clip) (bg_color : option Composite.color)
    (is_mask : bool) (padding : Q) (r : Concatenated) :
  concatenate_videoclips ColorClip_mask compose clips method transition
    bg_color is_mask padding = inr r →
  ∃ played,
    match transition with
    | Some tr => interleave clips tr
    | None => Py.ret clips
    end = Py.ret played
    ∧ map duration played = map Some (omap duration played)
    ∧ played ≠ []
    ∧ r_timings r
      = pad_timings padding (cumsum (0%Q :: omap duration played))
    ∧ r_start_times r = removelast (r_timings r)
    ∧ r_duration r = last (r_timings r)
    ∧ r_end r = last (r_timings r)
    ∧ r_fps r = highest_fps (map fps played)
    ∧ (method = "chain" →
       r_frame_function r
       = Some (chain_frame get_frame played (r_timings r))).
Proof.
  unfold Concatenate.concatenate_videoclips.
  destruct (match transition with
            | Some tr => interleave clips tr
            | None => Py.ret clips
            end) as [e|played]; [done|].
  cbn [lift].
  destruct (prepare (map duration played) (map size played) padding)
    as [e|[[timings w] h]] eqn:Hprep; [done|].
  cbn [lift]. cbv zeta.
  apply prepare_spec in Hprep as (ds & Hds & -> & Hne).
  pose proof (omap_map_Some _ _ _ Hds) as Hom.
  intros Hr. exists played. split; [done|].
  split; [by rewrite Hom|].
  split; [by destruct played|].
  rewrite Hom.
  destruct (String.eqb_spec method "chain") as [->|Hch].
  - destruct (existsb _ played).
    + destruct (concatenate_masks _) as [e|m]; [done|].
      cbn [lift] in Hr. injection Hr as <-. by cbn.
    + injection Hr as <-. by cbn.
  - destruct (String.eqb method "compose"); [|done].
    destruct (compose _ _ _ _) as [e|comp]; [done|].
    cbn [lift] in Hr. injection Hr as <-. by cbn.
Qed.




(** X26. The frame function of the "chain" method has no frame
    outside the clip: at the duration of the result or later it raises
    [IndexError], and before zero (with a padding that is not
    positive) it raises [ValueError]. *)
Theorem chain_frame_out_of_range (clips : list Clip)
    (transition : option Clip) (bg_color : option Composite.color)
    (is_mask : bool) (padding : Q) (r : Concatenated) (t : Q) :
  concatenate_videoclips ColorClip_mask compose clips "chain" transition
    bg_color is_mask padding = inr r →
  ∃ f d,
    r_frame_function r = Some f ∧ r_duration r = Some d
    ∧ ((d <= t)%Q → ∃ msg, f t = Py.raise (Py.IndexError msg))
    ∧ ((t < 0)%Q → (padding <= 0)%Q →
       ∃ msg, f t = Py.raise (Py.ValueError msg)).
Proof.
  intros Hr.
  apply concatenate_inv in Hr
    as (played & _ & Hds & _ & Ht & _ & Hd & _ & _ & Hf).
  specialize (Hf eq_refl).
  pose proof (durations_length _ _ Hds) as Hlen.
  set (ds := omap duration played) in *.
  destruct (r_timings r !! length played) as [d|] eqn:Hlast.
  2:{ apply lookup_ge_None in Hlast.
      rewrite Ht, timings_length in Hlast. lia. }
  exists (chain_frame get_frame played (r_timings r)), d.
  split; [done|]. split.
  { rewrite Hd, last_lookup, <- Hlast. f_equal.
    rewrite Ht, timings_length. cbn [pred]. lia. }
  split.
  - intros Hle.
    rewrite (chain_frame_at get_frame played (r_timings r) t
               (length played) d Hlast Hle).
    + rewrite getitem_past_end. by eexists.
    + intros j e He _. apply lookup_lt_Some in He.
      rewrite Ht, timings_length in He. lia.
  - intros Hneg Hpad. apply chain_frame_before.
    intros j e He. rewrite Ht in He.
    pose proof (lookup_lt_Some _ _ _ He) as Hj.
    rewrite timings_length in Hj.
    rewrite timings_lookup in He by lia. injection He as <-. cbv zeta.
    pose proof (qmax_zero_nonneg
                  (fold_left Qplus (take j ds) 0
                   + padding * inject_Z (Z.of_nat j))%Q) as Hq.
    destruct (bool_decide _); lra.
Qed.

Lemma interleave_spec
    (clips : list (Clip (Frame := Frame) (MaskFrame := MaskFrame)
                     (Audio := Audio))) (tr : Clip) :
  ((length clips < 2)%nat →
   ∃ msg, interleave clips tr = Py.raise (Py.TypeError msg))
  ∧ ∀ played, interleave clips tr = Py.ret played →
      length played = (2 * length clips - 1)%nat.
Proof.
  unfold interleave. pose proof (removelast_length clips) as Hlen.
  destruct (removelast clips) as [|v firsts] eqn:Hrl.
  - split; [by eexists|done].
  - cbn [length] in Hlen. split; [lia|].
    intros played. destruct (Py.getitem clips (-1)) as [e|final]; [done|].
    unfold Py.bind, Py.ret. intros [= <-].
    cbn [length]. rewrite length_app, pairs_length. cbn [length]. lia.
Qed.

(** X27. A transition needs two clips: with fewer the call raises
    [TypeError]; when the call returns, the transition has been put
    between every two clips, so [n] clips give [2 n - 1] start times. *)
Theorem transition_needs_two_clips (clips : list Clip) (method : string)
    (tr : Clip) (bg_color : option Composite.color) (is_mask : bool)
    (padding : Q) :
  ((length clips < 2)%nat →
   ∃ msg,
     concatenate_videoclips ColorClip_mask compose clips method (Some tr)
       bg_color is_mask padding = inl (PyExn (Py.TypeError msg)))
  ∧ ∀ r,
      concatenate_videoclips ColorClip_mask compose clips method (Some tr)
        bg_color is_mask padding = inr r →
      length (r_start_times r) = (2 * length clips - 1)%nat.
Proof.
  split.
  - intros Hlen.
    destruct (proj1 (interleave_spec clips tr) Hlen) as [msg Hm].
    exists msg. unfold Concatenate.concatenate_videoclips. by rewrite Hm.
  - intros r Hr.
    apply concatenate_inv in Hr
      as (played & Hplayed & Hds & _ & Ht & Hst & _).
    apply (proj2 (interleave_spec clips tr)) in Hplayed.
    rewrite Hst, removelast_length, Ht, timings_length. cbn [pred].
    by rewrite (durations_length _ _ Hds).
Qed.

(** X28. Without a transition, an empty list of clips raises
    [ValueError] and a clip whose duration is [None] raises
    [TypeError], whatever the method. *)
Theorem concatenate_rejects_clips (clips : list Clip) (method : string)
    (bg_color : option Composite.color) (is_mask : bool) (padding : Q) :
  (clips = [] →
   ∃ msg,
     concatenate_videoclips ColorClip_mask compose clips method None
       bg_color is_mask padding = inl (PyExn (Py.ValueError msg)))
  ∧ ((∃ c, c ∈ clips ∧ duration c = None) →
     ∃ msg,
       concatenate_videoclips ColorClip_mask compose clips method None
         bg_color is_mask padding = inl (PyExn (Py.TypeError msg))).
Proof.
  split.
  - intros ->. by eexists.
  - intros (c & Hin & Hnone).
    assert (None ∈ map duration clips) as Hmem.
    { rewrite <- Hnone. apply list_elem_of_In, in_map.
      by apply list_elem_of_In. }
    destruct (all_set_none _ Hmem) as [msg Hm]. exists msg.
    unfold Concatenate.concatenate_videoclips, prepare. cbn [lift Py.ret].
    by rewrite Hm.
Qed.

Lemma get_mask_duration
    (c : Clip (Frame := Frame) (MaskFrame := MaskFrame) (Audio := Audio)) :
  is_Some (duration c) → is_Some (m_duration (get_mask ColorClip_mask c)).
Proof.
  intros Hd. unfold get_mask. cbv zeta.
  destruct (m_duration (default _ (mask c))) as [d|] eqn:Hm.
  - by rewrite Hm.
  - done.
Qed.


(** X30. With the "chain" method, no transition and no padding, when
    some clip has a mask the result has one: the concatenation of the
    masks, which has the timings and the duration of the result
    provided each mask lasts as long as its clip.  When no clip has a
    mask the result has none. *)
Theorem chain_mask_follows_clips (clips : list Clip)
    (bg_color : option Composite.color) (is_mask : bool)
    (r : Concatenated) :
  concatenate_videoclips ColorClip_mask compose clips "chain" None
    bg_color is_mask 0%Q = inr r →
  ((∃ c, c ∈ clips ∧ is_Some (mask c)) →
   Forall (λ c, m_duration (get_mask ColorClip_mask c) = duration c) clips →
   ∃ m, r_mask r = Some m ∧ r_clips r = Some clips
        ∧ mc_timings m = r_timings r ∧ mc_duration m = r_duration r)
  ∧ ((∀ c, c ∈ clips → mask c = None) →
     r_mask r = None ∧ r_clips r = None).
Proof.
  unfold Concatenate.concatenate_videoclips. cbn [lift Py.ret].
  destruct (prepare (map duration clips) (map size clips) 0)
    as [e|[[timings w] h]] eqn:Hprep; [done|].
  cbn [lift]. cbv zeta. cbn [String.eqb Ascii.eqb Bool.eqb].
  apply prepare_spec in Hprep as (ds & Hds & -> & _).
  destruct (existsb _ clips) eqn:Hany.
  - destruct (concatenate_masks _) as [e|m] eqn:Hm; [done|].
    cbn [lift]. intros [= <-]. cbn. split.
    + intros _ Hsame. exists m. split; [done|]. split; [done|].
      unfold concatenate_masks in Hm.
      destruct (prepare _ _ _) as [e|[[timings' w'] h']] eqn:Hmprep;
        [done|].
      apply prepare_spec in Hmprep as (ds' & Hds' & -> & _).
      cbn [Py.bind Py.ret] in Hm. injection Hm as <-. cbn.
      assert (ds' = ds) as ->; [|done].
      apply map_Some_inj. rewrite <- Hds', <- Hds, map_map.
      apply map_ext_Forall. exact Hsame.
    + intros Hnone. exfalso.
      apply existsb_exists in Hany as (c & Hin & Hc).
      apply bool_decide_eq_true in Hc as [m' Hm'].
      apply list_elem_of_In in Hin. by rewrite (Hnone c Hin) in Hm'.
  - intros [= <-]. cbn. split; [|done].
    intros (c & Hin & Hc). exfalso.
    assert (existsb (λ clip, bool_decide (is_Some (mask clip))) clips
            = true) as Hyes.
    { apply existsb_exists. exists c. split; [by apply list_elem_of_In|].
      by apply bool_decide_eq_true. }
    by rewrite Hany in Hyes.
Qed.

End Concat.




Lemma chain_frame_out_of_range_witness :
  ∃ r f d,
    concatenate_videoclips Examples.no_mask Examples.no_compose
      Examples.two_takes "chain" None None false 0 = inr r
    ∧ r_frame_function r = Some f ∧ r_duration r = Some d
    ∧ ((d <= 5)%Q → ∃ msg, f 5%Q = Py.raise (Py.IndexError msg))
    ∧ ((5 < 0)%Q → (0 <= 0)%Q →
       ∃ msg, f 5%Q = Py.raise (Py.ValueError msg)).
Proof.
  assert (∃ r,
            concatenate_videoclips Examples.no_mask Examples.no_compose
              Examples.two_takes "chain" None None false 0
            = inr r) as [r Hr] by (eexists; reflexivity).
  destruct (chain_frame_out_of_range Examples.no_mask Examples.no_compose
              Examples.two_takes None None false 0 r 5 Hr)
    as (f & d & Hf & Hd & Hout).
  by exists r, f, d.
Defined.

Lemma transition_needs_two_clips_witness :
  (∃ msg,
     concatenate_videoclips Examples.no_mask Examples.no_compose
       [Examples.take_clip "A" 2 (4, 3)] "chain"
       (Some (Examples.take_clip "T" 1 (4, 3))) None false 0
     = inl (PyExn (Py.TypeError msg)))
  ∧ ∃ r,
      concatenate_videoclips Examples.no_mask Examples.no_compose
        Examples.two_takes "chain"
        (Some (Examples.take_clip "T" 1 (4, 3))) None false 0 = inr r
      ∧ length (r_start_times r) = 3%nat.
Proof.
  split.
  - apply (proj1 (transition_needs_two_clips Examples.no_mask
                    Examples.no_compose [Examples.take_clip "A" 2 (4, 3)]
                    "chain" (Examples.take_clip "T" 1 (4, 3)) None false 0)).
    cbn [length]. lia.
  - assert (∃ r,
              concatenate_videoclips Examples.no_mask Examples.no_compose
                Examples.two_takes "chain"
                (Some (Examples.take_clip "T" 1 (4, 3))) None false 0
              = inr r) as [r Hr] by (eexists; reflexivity).
    exists r. split; [exact Hr|].
    exact (proj2 (transition_needs_two_clips Examples.no_mask
                    Examples.no_compose Examples.two_takes "chain"
                    (Examples.take_clip "T" 1 (4, 3)) None false 0) r Hr).
Defined.

Lemma concatenate_rejects_clips_witness :
  (∃ msg,
     concatenate_videoclips Examples.no_mask Examples.no_compose
       [] "compose" None None false 0 = inl (PyExn (Py.ValueError msg)))
  ∧ ∃ msg,
      concatenate_videoclips Examples.no_mask Examples.no_compose
        [Examples.take_clip "A" 2 (4, 3); Examples.endless_clip]
        "chain" None None false 0 = inl (PyExn (Py.TypeError msg)).
Proof.
  split.
  - by apply (proj1 (concatenate_rejects_clips Examples.no_mask
                       Examples.no_compose [] "compose" None false 0)).
  - apply (proj2 (concatenate_rejects_clips Examples.no_mask
                    Examples.no_compose
                    [Examples.take_clip "A" 2 (4, 3); Examples.endless_clip]
                    "chain" None false 0)).
    exists Examples.endless_clip. split; [|done].
    apply elem_of_cons. right. apply elem_of_cons. by left.
Defined.


Lemma chain_mask_follows_clips_witness :
  ∃ r m,
    concatenate_videoclips Examples.no_mask Examples.no_compose
      Examples.masked_takes "chain" None None false 0 = inr r
    ∧ r_mask r = Some m ∧ r_clips r = Some Examples.masked_takes
    ∧ mc_timings m = r_timings r ∧ mc_duration m = r_duration r.
Proof.
  assert (∃ r,
            concatenate_videoclips Examples.no_mask Examples.no_compose
              Examples.masked_takes "chain" None None false 0
            = inr r) as [r Hr] by (eexists; reflexivity).
  destruct (proj1 (chain_mask_follows_clips Examples.no_mask
                     Examples.no_compose Examples.masked_takes None false
                     r Hr))
    as (m & Hm); [| |by exists r, m].
  - exists (Examples.masked_clip "A" 2 (4, 3)). split; [|by eexists].
    apply elem_of_cons. by left.
  - by repeat constructor.
Defined.

End ConcatFacts.
